(** * Excel-Copilot: the action-dispatch contract

    A shallow embedding of the three Python programs of the repository

      - [excel_agnet.py]                  (interactive, direct execution),
      - [backend_service.py]              (HTTP, direct execution),
      - [backend_service_llamaindex.py.py] (HTTP, delegated execution),

    and the properties of the specification that are settled on it.

    Python values are an inductive type, Python text is [string] (the
    UTF-8 bytes of the text), the spreadsheet application is an explicit
    world that the code threads through a state-and-exception monad, and
    open documents are a finite map from handles to workbook contents. *)

From Stdlib Require Import ZArith NArith String Ascii List Bool Lia.
From stdpp Require Import base option list gmap strings pretty.

Import ListNotations.
Open Scope string_scope.

(* ===================================================================== *)
(** * Python values *)
(* ===================================================================== *)

(** The values that travel through the three programs: what [json.loads]
    builds, what a cell holds, what a tool returns.  A [float] is carried
    as its literal; floating-point arithmetic is never performed by the
    code under study. *)
#[local] Set Warnings "-register-all".

Inductive PyVal : Type :=
| PyNone
| PyBool (b : bool)
| PyInt (z : Z)
| PyFloat (lit : string)
| PyStr (s : string)
| PyList (items : list PyVal)
| PyDict (entries : list (string * PyVal)).

Module Py.

(** [isinstance(v, list)], [isinstance(v, dict)] *)
Definition is_list (v : PyVal) : bool :=
  match v with PyList _ => true | _ => false end.

Definition is_dict (v : PyVal) : bool :=
  match v with PyDict _ => true | _ => false end.

(** [v is not None] *)
Definition is_not_none (v : PyVal) : bool :=
  match v with PyNone => false | _ => true end.

(** Truth value of an object, as [if v:] tests it. *)
Definition truthy (v : PyVal) : bool :=
  match v with
  | PyNone => false
  | PyBool b => b
  | PyInt z => negb (z =? 0)%Z
  | PyFloat _ => true
  | PyStr s => negb (String.eqb s "")
  | PyList l => match l with [] => false | _ => true end
  | PyDict d => match d with [] => false | _ => true end
  end.

(** [d.get(k)] on a dict kept in insertion order. *)
Fixpoint dict_get (d : list (string * PyVal)) (k : string) : option PyVal :=
  match d with
  | [] => None
  | (k', v) :: rest => if String.eqb k' k then Some v else dict_get rest k
  end.

(** [d[k] = v]: an existing key keeps its position. *)
Fixpoint dict_set (d : list (string * PyVal)) (k : string) (v : PyVal)
  : list (string * PyVal) :=
  match d with
  | [] => [(k, v)]
  | (k', v') :: rest =>
      if String.eqb k' k then (k', v) :: rest else (k', v') :: dict_set rest k v
  end.

Definition keys (d : list (string * PyVal)) : list string := map fst d.

(** [x != "text"]: only a [str] can be equal to a [str]. *)
Definition ne_str (x : option PyVal) (text : string) : bool :=
  match x with
  | Some (PyStr s) => negb (String.eqb s text)
  | _ => true
  end.

(** ** [repr] and [str] *)

(** The double-quote character. *)
Definition dquote : ascii := "034"%char.

Definition hex_digit (n : N) : ascii :=
  if (n <? 10)%N then ascii_of_N (48 + n) else ascii_of_N (87 + n).

Definition contains (c : ascii) (s : string) : bool :=
  existsb (Ascii.eqb c) (list_ascii_of_string s).

(** The escape of one character inside a quoted [repr]. *)
Definition repr_char (quote c : ascii) : string :=
  let n := N_of_ascii c in
  if Ascii.eqb c "\" then "\\"
  else if Ascii.eqb c quote then String "\" (String quote "")
  else if Ascii.eqb c "009" then "\t"
  else if Ascii.eqb c "010" then "\n"
  else if Ascii.eqb c "013" then "\r"
  else if ((n <? 32) || (n =? 127))%N then
    String "\" (String "x" (String (hex_digit (n / 16)) (String (hex_digit (n mod 16)) "")))
  else String c "".

(** [repr] of a [str]: single quotes, unless the text has a single quote
    and no double quote. *)
Definition repr_str (s : string) : string :=
  let quote : ascii :=
    if contains "'" s && negb (contains dquote s) then dquote else "'"%char in
  String quote
    (String.concat "" (map (repr_char quote) (list_ascii_of_string s))
     ++ String quote "").

Definition str_of_Z (z : Z) : string := pretty z.

Fixpoint repr (v : PyVal) : string :=
  match v with
  | PyNone => "None"
  | PyBool true => "True"
  | PyBool false => "False"
  | PyInt z => str_of_Z z
  | PyFloat lit => lit
  | PyStr s => repr_str s
  | PyList l => "[" ++ String.concat ", " (map repr l) ++ "]"
  | PyDict d =>
      "{" ++ String.concat ", "
               (map (fun kv => repr_str (fst kv) ++ ": " ++ repr (snd kv)) d)
          ++ "}"
  end.

(** [str(v)]: the text itself for a [str], [repr] otherwise. *)
Definition str (v : PyVal) : string :=
  match v with
  | PyStr s => s
  | _ => repr v
  end.

End Py.

(* ===================================================================== *)
(** * The [json] module of the Python standard library *)
(* ===================================================================== *)

(** [json.loads] is library code.  It is modelled by a recursive-descent
    parser for the grammar the CPython decoder accepts: RFC 8259 plus the
    constants [NaN], [Infinity] and [-Infinity], strict strings (no raw
    control character), the four white-space characters, and nothing but
    white space after the value.  [None] stands for [JSONDecodeError]. *)
Module json.

Definition is_ws (c : ascii) : bool :=
  Ascii.eqb c " " || Ascii.eqb c "009" || Ascii.eqb c "010" || Ascii.eqb c "013".

Fixpoint skip_ws (s : list ascii) : list ascii :=
  match s with
  | c :: r => if is_ws c then skip_ws r else s
  | [] => []
  end.

Definition is_digit (c : ascii) : bool :=
  let n := N_of_ascii c in ((48 <=? n) && (n <=? 57))%N.

Definition digit_val (c : ascii) : Z := Z.of_N (N_of_ascii c) - 48.

(** The longest run of digits at the head of [s]. *)
Fixpoint span_digits (s : list ascii) : list ascii * list ascii :=
  match s with
  | c :: r =>
      if is_digit c then let '(ds, rest) := span_digits r in (c :: ds, rest)
      else ([], s)
  | [] => ([], [])
  end.

Definition Z_of_digits (ds : list ascii) : Z :=
  fold_left (fun acc c => (10 * acc + digit_val c)%Z) ds 0%Z.

Fixpoint strip_prefix (p s : list ascii) : option (list ascii) :=
  match p, s with
  | [], _ => Some s
  | a :: p', b :: s' => if Ascii.eqb a b then strip_prefix p' s' else None
  | _ :: _, [] => None
  end.

Definition hex_val (c : ascii) : option N :=
  let n := N_of_ascii c in
  if ((48 <=? n) && (n <=? 57))%N then Some (n - 48)%N
  else if ((97 <=? n) && (n <=? 102))%N then Some (n - 87)%N
  else if ((65 <=? n) && (n <=? 70))%N then Some (n - 55)%N
  else None.

(** The four hex digits of a [\uXXXX] escape. *)
Definition hex4 (s : list ascii) : option (N * list ascii) :=
  match s with
  | a :: b :: c :: d :: r =>
      match hex_val a, hex_val b, hex_val c, hex_val d with
      | Some x, Some y, Some z, Some t => Some (((x * 16 + y) * 16 + z) * 16 + t, r)%N
      | _, _, _, _ => None
      end
  | _ => None
  end.

(** UTF-8 bytes of a code point (a lone surrogate is kept as its
    three-byte form). *)
Definition utf8 (cp : N) : list ascii :=
  (if cp <? 128 then [ascii_of_N cp]
   else if cp <? 2048 then
     [ascii_of_N (192 + cp / 64); ascii_of_N (128 + cp mod 64)]
   else if cp <? 65536 then
     [ascii_of_N (224 + cp / 4096); ascii_of_N (128 + (cp / 64) mod 64);
      ascii_of_N (128 + cp mod 64)]
   else
     [ascii_of_N (240 + cp / 262144); ascii_of_N (128 + (cp / 4096) mod 64);
      ascii_of_N (128 + (cp / 64) mod 64); ascii_of_N (128 + cp mod 64)])%N.

Definition simple_escape (c : ascii) : option ascii :=
  if Ascii.eqb c Py.dquote then Some Py.dquote
  else if Ascii.eqb c "\" then Some "\"%char
  else if Ascii.eqb c "/" then Some "/"%char
  else if Ascii.eqb c "b" then Some "008"%char
  else if Ascii.eqb c "f" then Some "012"%char
  else if Ascii.eqb c "n" then Some "010"%char
  else if Ascii.eqb c "r" then Some "013"%char
  else if Ascii.eqb c "t" then Some "009"%char
  else None.

(** The body of a string, after its opening quote; [acc] holds the
    decoded bytes in reverse. *)
Fixpoint scanstring (fuel : nat) (s : list ascii) (acc : list ascii)
  : option (string * list ascii) :=
  match fuel with
  | O => None
  | S fuel =>
      match s with
      | [] => None
      | c :: r =>
          if Ascii.eqb c Py.dquote then Some (string_of_list_ascii (rev acc), r)
          else if Ascii.eqb c "\" then
            match r with
            | [] => None
            | e :: r' =>
                if Ascii.eqb e "u" then
                  match hex4 r' with
                  | None => None
                  | Some (uni, r2) =>
                      let pair :=
                        if ((55296 <=? uni) && (uni <=? 56319))%N then
                          match strip_prefix ["\"%char; "u"%char] r2 with
                          | Some r3 =>
                              match hex4 r3 with
                              | Some (uni2, r4) =>
                                  if ((56320 <=? uni2) && (uni2 <=? 57343))%N
                                  then Some (Some (65536 + ((uni - 55296) * 1024
                                                            + (uni2 - 56320)), r4)%N)
                                  else Some None
                              | None => None
                              end
                          | None => Some None
                          end
                        else Some None in
                      match pair with
                      | None => None
                      | Some (Some (cp, r4)) => scanstring fuel r4 (rev (utf8 cp) ++ acc)%list
                      | Some None => scanstring fuel r2 (rev (utf8 uni) ++ acc)%list
                      end
                  end
                else
                  match simple_escape e with
                  | Some x => scanstring fuel r' (x :: acc)
                  | None => None
                  end
            end
          else if (N_of_ascii c <? 32)%N then None
          else scanstring fuel r (c :: acc)
      end
  end.

(** A number: an optional minus sign, an integer part without leading
    zero, an optional fraction (a dot and digits), an optional exponent
    (e or E, an optional sign, digits).  The longest such prefix is
    taken; it is an [int] when it has neither fraction nor exponent. *)
Definition match_number (s : list ascii) : option (PyVal * list ascii) :=
  let '(neg, s1) :=
    match s with
    | c :: r => if Ascii.eqb c "-" then (true, r) else (false, s)
    | [] => (false, s)
    end in
  let '(ds, s2) := span_digits s1 in
  let '(int_part, s2) :=
    match ds with
    | [] => ([], s1)
    | d :: _ => if Ascii.eqb d "0" then ([d], tl s1) else (ds, s2)
    end in
  match int_part with
  | [] => None
  | _ =>
      let '(frac, s3) :=
        match s2 with
        | c :: r =>
            if Ascii.eqb c "." then
              match span_digits r with
              | ([], _) => ([], s2)
              | (fs, r') => (c :: fs, r')
              end
            else ([], s2)
        | [] => ([], s2)
        end in
      let '(expo, s4) :=
        match s3 with
        | c :: r =>
            if Ascii.eqb c "e" || Ascii.eqb c "E" then
              let '(sign, r1) :=
                match r with
                | g :: r0 =>
                    if Ascii.eqb g "+" || Ascii.eqb g "-" then ([g], r0) else ([], r)
                | [] => ([], r)
                end in
              match span_digits r1 with
              | ([], _) => ([], s3)
              | (es, r') => (c :: sign ++ es, r')%list
              end
            else ([], s3)
        | [] => ([], s3)
        end in
      let sign := if neg then ["-"%char] else [] in
      match frac, expo with
      | [], [] =>
          let z := Z_of_digits int_part in
          Some (PyInt (if neg then - z else z)%Z, s4)
      | _, _ =>
          Some (PyFloat (string_of_list_ascii (sign ++ int_part ++ frac ++ expo)%list), s4)
      end
  end.

Definition literals : list (list ascii * PyVal) :=
  [ (list_ascii_of_string "null", PyNone);
    (list_ascii_of_string "true", PyBool true);
    (list_ascii_of_string "false", PyBool false);
    (list_ascii_of_string "NaN", PyFloat "nan");
    (list_ascii_of_string "Infinity", PyFloat "inf");
    (list_ascii_of_string "-Infinity", PyFloat "-inf") ].

Fixpoint match_literal (ls : list (list ascii * PyVal)) (s : list ascii)
  : option (PyVal * list ascii) :=
  match ls with
  | [] => None
  | (p, v) :: rest =>
      match strip_prefix p s with
      | Some r => Some (v, r)
      | None => match_literal rest s
      end
  end.

(** One value at the head of [s]; arrays and objects recurse. *)
Fixpoint scan_once (fuel : nat) (s : list ascii) : option (PyVal * list ascii) :=
  match fuel with
  | O => None
  | S fuel =>
      match s with
      | [] => None
      | c :: r =>
          if Ascii.eqb c Py.dquote then
            match scanstring (length r) r [] with
            | Some (t, r') => Some (PyStr t, r')
            | None => None
            end
          else if Ascii.eqb c "{" then
            match skip_ws r with
            | c' :: r' =>
                if Ascii.eqb c' "}" then Some (PyDict [], r')
                else parse_object fuel (c' :: r') []
            | [] => None
            end
          else if Ascii.eqb c "[" then
            match skip_ws r with
            | c' :: r' =>
                if Ascii.eqb c' "]" then Some (PyList [], r')
                else parse_array fuel (c' :: r') []
            | [] => None
            end
          else
            match match_literal literals s with
            | Some res => Some res
            | None => match_number s
            end
      end
  end

with parse_array (fuel : nat) (s : list ascii) (acc : list PyVal)
  : option (PyVal * list ascii) :=
  match fuel with
  | O => None
  | S fuel =>
      match scan_once fuel s with
      | None => None
      | Some (v, r) =>
          match skip_ws r with
          | c :: r' =>
              if Ascii.eqb c "]" then Some (PyList (rev (v :: acc)), r')
              else if Ascii.eqb c "," then parse_array fuel (skip_ws r') (v :: acc)
              else None
          | [] => None
          end
      end
  end

with parse_object (fuel : nat) (s : list ascii) (acc : list (string * PyVal))
  : option (PyVal * list ascii) :=
  match fuel with
  | O => None
  | S fuel =>
      match s with
      | c :: r =>
          if Ascii.eqb c Py.dquote then
            match scanstring (length r) r [] with
            | None => None
            | Some (key, r1) =>
                match skip_ws r1 with
                | c1 :: r2 =>
                    if Ascii.eqb c1 ":" then
                      match scan_once fuel (skip_ws r2) with
                      | None => None
                      | Some (v, r3) =>
                          let acc' := Py.dict_set acc key v in
                          match skip_ws r3 with
                          | c3 :: r4 =>
                              if Ascii.eqb c3 "}" then Some (PyDict acc', r4)
                              else if Ascii.eqb c3 ","
                                   then parse_object fuel (skip_ws r4) acc'
                                   else None
                          | [] => None
                          end
                      end
                    else None
                | [] => None
                end
            end
          else None
      | [] => None
      end
  end.

(** [json.loads(text)]: white space, one value, white space, end. *)
Definition loads (text : string) : option PyVal :=
  let s := list_ascii_of_string text in
  match scan_once (2 * length s + 2) (skip_ws s) with
  | Some (v, rest) =>
      match skip_ws rest with
      | [] => Some v
      | _ :: _ => None
      end
  | None => None
  end.

End json.

(** Test payloads are written with single quotes and turned into JSON
    text by [dq], which replaces each single quote by a double quote. *)
Definition dq (s : string) : string :=
  string_of_list_ascii
    (map (fun c => if Ascii.eqb c "'" then Py.dquote else c) (list_ascii_of_string s)).

(* ===================================================================== *)
(** * Exceptions and the state-and-exception monad *)
(* ===================================================================== *)

(** The exception classes the programs meet.  Every class is a subclass
    of [Exception]; the three programs catch nothing wider.  The
    exceptions outside [Exception] ([KeyboardInterrupt] and the like),
    which no clause of the programs catches, are the type [Exit] further
    down. *)
Inductive ExnClass : Type :=
| Exception
| FileNotFoundError
| JSONDecodeError
| com_error
| AssertionError
| TypeError
| KeyError.

Record Exn : Type := mkExn { exn_class : ExnClass; exn_msg : string }.

Definition ExnClass_eqb (c d : ExnClass) : bool :=
  match c, d with
  | Exception, Exception | FileNotFoundError, FileNotFoundError
  | JSONDecodeError, JSONDecodeError | com_error, com_error
  | AssertionError, AssertionError | TypeError, TypeError
  | KeyError, KeyError => true
  | _, _ => false
  end.

(** [isinstance(e, cls)] *)
Definition isinstance (e : Exn) (cls : ExnClass) : bool :=
  match cls with
  | Exception => true
  | _ => ExnClass_eqb (exn_class e) cls
  end.

(** How a call ends: it returns a value or raises. *)
Inductive Outcome (A : Type) : Type :=
| Returned (a : A)
| Raised (e : Exn).
Arguments Returned {A} a.
Arguments Raised {A} e.

(** A Python computation over a mutable state [S]. *)
Definition St (S A : Type) : Type := S -> Outcome A * S.

Section StateMonad.
Context {S : Type}.

Definition ret {A} (a : A) : St S A := fun s => (Returned a, s).

Definition bind {A B} (m : St S A) (k : A -> St S B) : St S B :=
  fun s =>
    match m s with
    | (Returned a, s') => k a s'
    | (Raised e, s') => (Raised e, s')
    end.

Definition raise {A} (e : Exn) : St S A := fun s => (Raised e, s).

Definition get : St S S := fun s => (Returned s, s).

Definition modify (f : S -> S) : St S unit := fun s => (Returned tt, f s).

(** The first clause whose class the exception is an instance of. *)
Fixpoint find_clause {A} (clauses : list (ExnClass * (Exn -> St S A))) (e : Exn)
  : option (Exn -> St S A) :=
  match clauses with
  | [] => None
  | (cls, handler) :: rest =>
      if isinstance e cls then Some handler else find_clause rest e
  end.

(** [try: body  except C1 as e: h1  except C2 as e: h2 ...] *)
Definition try_except {A} (body : St S A)
           (clauses : list (ExnClass * (Exn -> St S A))) : St S A :=
  fun s =>
    match body s with
    | (Returned a, s') => (Returned a, s')
    | (Raised e, s') =>
        match find_clause clauses e with
        | Some handler => handler e s'
        | None => (Raised e, s')
        end
    end.

(** [try: body  finally: cleanup]: the cleanup runs on every exit of
    the body; if the cleanup itself raises, that exception replaces the
    outcome of the body. *)
Definition try_finally {A} (body : St S A) (cleanup : St S unit) : St S A :=
  fun s =>
    match body s with
    | (out, s') =>
        match cleanup s' with
        | (Returned _, s'') => (out, s'')
        | (Raised e, s'') => (Raised e, s'')
        end
    end.

End StateMonad.

Declare Scope py_scope.
Delimit Scope py_scope with py.
Notation "x <- m ;; k" := (bind m (fun x => k))
  (at level 20, m at level 99, k at level 200, only parsing) : py_scope.
Notation "' pat <- m ;; k" := (bind m (fun x => match x with pat => k end))
  (at level 20, pat pattern, m at level 99, k at level 200, only parsing) : py_scope.
Notation "m ;; k" := (bind m (fun _ => k))
  (at level 100, k at level 200, only parsing, right associativity) : py_scope.
Open Scope py_scope.

(* ===================================================================== *)
(** * The spreadsheet application, as [xlwings] presents it *)
(* ===================================================================== *)

(** A sheet is a sparse grid: [(row, column)], both counted from 1, to
    the value of the cell; an absent key is an empty cell. *)
Abbreviation Cells := (gmap (N * N) PyVal).

(** A workbook is the ordered collection of its named sheets. *)
Abbreviation Workbook := (list (string * Cells)).

(** ** Addresses in A1 notation *)
Module A1.

Definition max_row : N := 1048576.
Definition max_col : N := 16384.

(** A rectangle of cells. *)
Record Rect : Type := mkRect { top : N; left : N; height : N; width : N }.

Definition is_letter (c : ascii) : bool :=
  let n := N_of_ascii c in
  (((65 <=? n) && (n <=? 90)) || ((97 <=? n) && (n <=? 122)))%N.

Definition letter_val (c : ascii) : N :=
  let n := N_of_ascii c in
  (if n <? 97 then n - 64 else n - 96)%N.

Fixpoint span_letters (s : list ascii) : list ascii * list ascii :=
  match s with
  | c :: r =>
      if is_letter c then let '(ls, rest) := span_letters r in (c :: ls, rest)
      else ([], s)
  | [] => ([], [])
  end.

Definition col_of_letters (ls : list ascii) : N :=
  fold_left (fun acc c => (26 * acc + letter_val c)%N) ls 0%N.

Definition skip_dollar (s : list ascii) : list ascii :=
  match s with
  | c :: r => if Ascii.eqb c "$" then r else s
  | [] => []
  end.

(** One side of an address: an optional column and an optional row
    ([B7], [B], [7], each part possibly preceded by a dollar sign). *)
Definition parse_ref (s : list ascii) : option (option N * option N) :=
  let '(ls, s1) := span_letters (skip_dollar s) in
  let '(ds, s2) := json.span_digits (match ls with [] => s1 | _ => skip_dollar s1 end) in
  match s2 with
  | _ :: _ => None
  | [] =>
      let col :=
        match ls with
        | [] => Some None
        | _ => let c := col_of_letters ls in
               if (c <=? max_col)%N then Some (Some c) else None
        end in
      let row :=
        match ds with
        | [] => Some None
        | d :: _ =>
            let r := Z.to_N (json.Z_of_digits ds) in
            if negb (Ascii.eqb d "0") && (r <=? max_row)%N then Some (Some r) else None
        end in
      match col, row with
      | Some c, Some r => Some (c, r)
      | _, _ => None
      end
  end.

Fixpoint split_colon (s : list ascii) : list ascii * option (list ascii) :=
  match s with
  | [] => ([], None)
  | c :: r =>
      if Ascii.eqb c ":" then ([], Some r)
      else let '(a, b) := split_colon r in (c :: a, b)
  end.

Definition span (a b : N) : N * N := (N.min a b, N.max a b - N.min a b + 1)%N.

(** The rectangle an address denotes: a cell ([A1]), a block ([A1:C5]),
    whole columns ([B:D]) or whole rows ([1:1]).  Names defined in the
    workbook and references to other sheets are not modelled; they are
    taken as invalid. *)
Definition parse_address (addr : string) : option Rect :=
  match split_colon (list_ascii_of_string addr) with
  | (a, None) =>
      match parse_ref a with
      | Some (Some c, Some r) => Some (mkRect r c 1 1)
      | _ => None
      end
  | (a, Some b) =>
      match parse_ref a, parse_ref b with
      | Some (Some c1, Some r1), Some (Some c2, Some r2) =>
          let '(t, h) := span r1 r2 in
          let '(l, w) := span c1 c2 in
          Some (mkRect t l h w)
      | Some (Some c1, None), Some (Some c2, None) =>
          let '(l, w) := span c1 c2 in Some (mkRect 1 l max_row w)
      | Some (None, Some r1), Some (None, Some r2) =>
          let '(t, h) := span r1 r2 in Some (mkRect t 1 h max_col)
      | _, _ => None
      end
  end.

Definition in_rect (R : Rect) (k : N * N) : bool :=
  ((top R <=? fst k) && (fst k <? top R + height R)
   && (left R <=? snd k) && (snd k <? left R + width R))%N.

(** [start, start+1, ..., start+len-1] *)
Definition N_range (start len : N) : list N :=
  map (fun i => (start + N.of_nat i)%N) (seq 0 (N.to_nat len)).

End A1.

(** ** What a range reads and writes *)
Module Range.
Import A1.

Definition cell_value (cs : Cells) (r c : N) : PyVal :=
  default PyNone (cs !! (r, c)).

(** [rng.value]: a scalar for one cell, a flat list for one row or one
    column, a list of rows otherwise. *)
Definition read (cs : Cells) (R : Rect) : PyVal :=
  if ((height R =? 1) && (width R =? 1))%N then cell_value cs (top R) (left R)
  else if (height R =? 1)%N then
    PyList (map (cell_value cs (top R)) (N_range (left R) (width R)))
  else if (width R =? 1)%N then
    PyList (map (fun r => cell_value cs r (left R)) (N_range (top R) (height R)))
  else
    PyList (map (fun r => PyList (map (cell_value cs r) (N_range (left R) (width R))))
                (N_range (top R) (height R))).

(** What a cell keeps of a Python scalar: [None] and the empty text
    empty the cell, an [int] becomes a [float], text is kept as text.
    A list or a dict cannot be put in a cell.  Keeping text as text is
    what the application does with text it does not read as something
    else; text it reads as a number, a boolean, a date or a formula
    (["123"], ["TRUE"], ["=1+1"]) ends up in the cell as the value
    read, which is not computed here, so nothing below is stated about
    what a cell holds after such a text was written to it. *)
Definition to_cell (v : PyVal) : option (option PyVal) :=
  match v with
  | PyNone => Some None
  | PyStr s => if String.eqb s "" then Some None else Some (Some (PyStr s))
  | PyBool b => Some (Some (PyBool b))
  | PyInt z => Some (Some (PyFloat (Py.str_of_Z z ++ ".0")))
  | PyFloat lit => Some (Some (PyFloat lit))
  | PyList _ | PyDict _ => None
  end.

Definition put (cs : Cells) (k : N * N) (x : option PyVal) : Cells :=
  match x with
  | Some v => <[k := v]> cs
  | None => delete k cs
  end.

Fixpoint put_row (cs : Cells) (r c : N) (xs : list (option PyVal)) : Cells :=
  match xs with
  | [] => cs
  | x :: rest => put_row (put cs (r, c) x) r (c + 1)%N rest
  end.

Fixpoint put_rows (cs : Cells) (r c : N) (rows : list (list (option PyVal))) : Cells :=
  match rows with
  | [] => cs
  | row :: rest => put_rows (put_row cs r c row) (r + 1)%N c rest
  end.

Definition as_row (v : PyVal) : option (list PyVal) :=
  match v with PyList r => Some r | _ => None end.

Definition fits (t l h w : N) : bool :=
  ((t + h - 1 <=? max_row) && (l + w - 1 <=? max_col))%N.

(** [rng.value = v].  A scalar fills the range.  A list of rows is
    written as a block anchored at the top-left cell of the range, of
    the height of the list and the width of its first row; an empty
    list writes nothing; a first row of width zero, rows of unequal
    width, a block that leaves the sheet, or a cell that cannot be
    stored raise.  The callers in this repository pass a [str] or a
    list whose items are all lists; any other list raises here. *)
Definition write (cs : Cells) (R : Rect) (v : PyVal) : Cells + Exn :=
  match v with
  | PyList [] => inl cs
  | PyList (first :: others) =>
      match mapM as_row (first :: others) with
      | None => inr (mkExn TypeError "object is not iterable")
      | Some rows =>
          let w := length (default [] (as_row first)) in
          if (w =? 0)%nat then inr (mkExn AssertionError "")
          else if negb (forallb (fun row => (length row =? w)%nat) rows) then
            inr (mkExn TypeError "All dimensions must be a sequence of the same size")
          else if negb (fits (top R) (left R) (N.of_nat (length rows)) (N.of_nat w)) then
            inr (mkExn com_error "range outside the sheet")
          else
            match mapM (mapM to_cell) rows with
            | None => inr (mkExn TypeError "value cannot be stored in a cell")
            | Some xs => inl (put_rows cs (top R) (left R) xs)
            end
      end
  | PyDict _ => inr (mkExn TypeError "value cannot be stored in a cell")
  | scalar =>
      match to_cell scalar with
      | None => inr (mkExn TypeError "value cannot be stored in a cell")
      | Some x =>
          inl (put_rows cs (top R) (left R)
                 (repeat (repeat x (N.to_nat (width R))) (N.to_nat (height R))))
      end
  end.

(** [rng.clear_contents()]: the values go, nothing else is kept in the
    model. *)
Definition clear (cs : Cells) (R : Rect) : Cells :=
  filter (fun kv => in_rect R (fst kv) = false) cs.

End Range.

(** ** The world: files, running applications, open documents *)

(** The calls the programs make to the spreadsheet library, in the order
    they are made.  A call is recorded when it is made, whether it then
    succeeds or raises. *)
Inductive Event : Type :=
| EvApp
| EvOpen (path : string)
| EvSave (book : nat)
| EvClose (book : nat)
| EvRead (book : nat) (sheet address : string)
| EvWrite (book : nat) (sheet address : string) (value : PyVal)
| EvClear (book : nat) (sheet address : string).

(** Which calls of the session fail, and with what exception. *)
Record Faults : Type := mkFaults {
  app_fault : option Exn;
  open_fault : option Exn;
  save_fault : option Exn;
  close_fault : option Exn
}.

Definition no_faults : Faults := mkFaults None None None None.

Record World : Type := mkWorld {
  files : gmap string Workbook;           (* the documents on disk, by path *)
  faults : Faults;
  apps : nat;                             (* application processes running *)
  next_book : nat;                        (* the next document handle *)
  opened : gmap nat (string * Workbook);  (* open documents: path, content *)
  log : list Event
}.

Definition set_files (f : gmap string Workbook) (w : World) : World :=
  mkWorld f (faults w) (apps w) (next_book w) (opened w) (log w).
Definition set_apps (n : nat) (w : World) : World :=
  mkWorld (files w) (faults w) n (next_book w) (opened w) (log w).
Definition set_opened (o : gmap nat (string * Workbook)) (w : World) : World :=
  mkWorld (files w) (faults w) (apps w) (next_book w) o (log w).
Definition set_next_book (n : nat) (w : World) : World :=
  mkWorld (files w) (faults w) (apps w) n (opened w) (log w).
Definition add_log (e : Event) (w : World) : World :=
  mkWorld (files w) (faults w) (apps w) (next_book w) (opened w) (log w ++ [e])%list.
Definition emit (e : Event) : St World unit := modify (add_log e).

Module xw.

(** Handles are numbers. *)
Abbreviation AppHandle := nat.
Abbreviation Book := nat.
Record Sheet : Type := mkSheet { sheet_book : Book; sheet_name : string }.

Definition closed_book : Exn := mkExn com_error "the document is not open".

Fixpoint get_sheet (wb : Workbook) (name : string) : option Cells :=
  match wb with
  | [] => None
  | (n, cs) :: rest => if String.eqb n name then Some cs else get_sheet rest name
  end.

Fixpoint set_sheet (wb : Workbook) (name : string) (cs : Cells) : Workbook :=
  match wb with
  | [] => []
  | (n, old) :: rest =>
      if String.eqb n name then (n, cs) :: rest
      else (n, old) :: set_sheet rest name cs
  end.

(** [xw.App(visible=False, add_book=False)] *)
Definition App : St World AppHandle :=
  emit EvApp ;;
  w <- get ;;
  match app_fault (faults w) with
  | Some e => raise e
  | None => modify (set_apps (S (apps w))) ;; ret (apps w)
  end.

(** [os.path.exists(path)] *)
Definition path_exists (path : string) : St World bool :=
  w <- get ;;
  ret (match files w !! path with Some _ => true | None => false end).

(** [app.books.open(path)] *)
Definition books_open (app : AppHandle) (path : string) : St World Book :=
  emit (EvOpen path) ;;
  w <- get ;;
  match open_fault (faults w) with
  | Some e => raise e
  | None =>
      match files w !! path with
      | None => raise (mkExn FileNotFoundError ("No such file: '" ++ path ++ "'"))
      | Some wb =>
          modify (set_opened (<[next_book w := (path, wb)]> (opened w))) ;;
          modify (set_next_book (S (next_book w))) ;;
          ret (next_book w)
      end
  end.

(** [book.save()] *)
Definition save (book : Book) : St World unit :=
  emit (EvSave book) ;;
  w <- get ;;
  match save_fault (faults w) with
  | Some e => raise e
  | None =>
      match opened w !! book with
      | None => raise closed_book
      | Some (path, wb) => modify (set_files (<[path := wb]> (files w)))
      end
  end.

(** [book.close()] *)
Definition close (book : Book) : St World unit :=
  emit (EvClose book) ;;
  w <- get ;;
  match close_fault (faults w) with
  | Some e => raise e
  | None =>
      match opened w !! book with
      | None => raise closed_book
      | Some _ => modify (set_opened (delete book (opened w)))
      end
  end.

(** [[s.name for s in book.sheets]] *)
Definition sheet_names (book : Book) : St World (list string) :=
  w <- get ;;
  match opened w !! book with
  | None => raise closed_book
  | Some (_, wb) => ret (map fst wb)
  end.

(** [book.sheets[name]] *)
Definition sheets_getitem (book : Book) (name : string) : St World Sheet :=
  w <- get ;;
  match opened w !! book with
  | None => raise closed_book
  | Some (_, wb) =>
      match get_sheet wb name with
      | Some _ => ret (mkSheet book name)
      | None => raise (mkExn com_error ("no sheet named '" ++ name ++ "'"))
      end
  end.

(** The cells of a sheet and the rectangle of an address, or the
    exception the library raises for a closed document, a sheet that is
    gone, or an address it cannot resolve. *)
Definition resolve (sheet : Sheet) (address : string)
  : St World (string * Workbook * Cells * A1.Rect) :=
  w <- get ;;
  match opened w !! sheet_book sheet with
  | None => raise closed_book
  | Some (path, wb) =>
      match get_sheet wb (sheet_name sheet) with
      | None => raise (mkExn com_error ("no sheet named '" ++ sheet_name sheet ++ "'"))
      | Some cs =>
          match A1.parse_address address with
          | None => raise (mkExn com_error ("invalid address '" ++ address ++ "'"))
          | Some R => ret (path, wb, cs, R)
          end
      end
  end.

Definition store (sheet : Sheet) (path : string) (wb : Workbook) (cs : Cells)
  : St World unit :=
  w <- get ;;
  modify (set_opened (<[sheet_book sheet := (path, set_sheet wb (sheet_name sheet) cs)]>
                        (opened w))).

(** [sheet.range(address).value] *)
Definition range_value (sheet : Sheet) (address : string) : St World PyVal :=
  emit (EvRead (sheet_book sheet) (sheet_name sheet) address) ;;
  '(path, wb, cs, R) <- resolve sheet address ;;
  ret (Range.read cs R).

(** [sheet.range(address).value = v] *)
Definition set_range_value (sheet : Sheet) (address : string) (v : PyVal)
  : St World unit :=
  emit (EvWrite (sheet_book sheet) (sheet_name sheet) address v) ;;
  '(path, wb, cs, R) <- resolve sheet address ;;
  match Range.write cs R v with
  | inr e => raise e
  | inl cs' => store sheet path wb cs'
  end.

(** [sheet.range(address).clear_contents()] *)
Definition clear_contents (sheet : Sheet) (address : string) : St World unit :=
  emit (EvClear (sheet_book sheet) (sheet_name sheet) address) ;;
  '(path, wb, cs, R) <- resolve sheet address ;;
  store sheet path wb (Range.clear cs R).

End xw.

(* ===================================================================== *)
(** * The spreadsheet tools ([excel_agnet.py], [backend_service.py]) *)
(* ===================================================================== *)

Definition EXCEL_FILE_PATH : string := "test.xlsx".

(** [x in names] on a list of texts. *)
Definition str_in (x : string) (names : list string) : bool :=
  existsb (String.eqb x) names.

(** [json.loads] as a call that raises [JSONDecodeError]. *)
Definition json_loads (text : string) : St World PyVal :=
  match json.loads text with
  | Some v => ret v
  | None => raise (mkExn JSONDecodeError "Expecting value")
  end.

(** [isinstance(data, list) and all(isinstance(row, list) for row in data)] *)
Definition is_list_of_lists (data : PyVal) : bool :=
  match data with
  | PyList rows => forallb Py.is_list rows
  | _ => false
  end.

(** The functions the tools hand to the Session Guard.  The two
    direct-execution programs define them with the same text. *)
Module Inner.

Definition _read_cell (book : xw.Book) (sheet_name cell_address : string)
  : St World PyVal :=
  try_except
    (names <- xw.sheet_names book ;;
     if negb (str_in sheet_name names) then
       ret (PyStr ("Error: Sheet '" ++ sheet_name ++ "' not found."))
     else
       sheet <- xw.sheets_getitem book sheet_name ;;
       value <- xw.range_value sheet cell_address ;;
       ret (PyStr (if Py.is_not_none value then Py.str value else "")))
    [(Exception, fun e =>
        ret (PyStr ("Error reading cell " ++ cell_address ++ " on sheet "
                    ++ sheet_name ++ ": " ++ exn_msg e)))].

Definition _write_cell (book : xw.Book) (sheet_name cell_address value : string)
  : St World PyVal :=
  try_except
    (names <- xw.sheet_names book ;;
     if negb (str_in sheet_name names) then
       ret (PyStr ("Error: Sheet '" ++ sheet_name ++ "' not found."))
     else
       sheet <- xw.sheets_getitem book sheet_name ;;
       xw.set_range_value sheet cell_address (PyStr value) ;;
       ret (PyStr ("Successfully wrote '" ++ value ++ "' to cell " ++ cell_address
                   ++ " on sheet " ++ sheet_name ++ ".")))
    [(Exception, fun e =>
        ret (PyStr ("Error writing to cell " ++ cell_address ++ " on sheet "
                    ++ sheet_name ++ ": " ++ exn_msg e)))].

Definition _read_range (book : xw.Book) (sheet_name range_address : string)
  : St World PyVal :=
  try_except
    (names <- xw.sheet_names book ;;
     if negb (str_in sheet_name names) then
       ret (PyStr ("Error: Sheet '" ++ sheet_name ++ "' not found."))
     else
       sheet <- xw.sheets_getitem book sheet_name ;;
       values <- xw.range_value sheet range_address ;;
       ret (PyStr (Py.str values)))
    [(Exception, fun e =>
        ret (PyStr ("Error reading range " ++ range_address ++ " on sheet "
                    ++ sheet_name ++ ": " ++ exn_msg e)))].

Definition _write_range (book : xw.Book) (sheet_name start_cell_address values_json : string)
  : St World PyVal :=
  try_except
    (data <- json_loads values_json ;;
     if negb (is_list_of_lists data) then
       ret (PyStr "Error: The 'values_json' argument must be a valid JSON string representing a list of lists.")
     else
       names <- xw.sheet_names book ;;
       if negb (str_in sheet_name names) then
         ret (PyStr ("Error: Sheet '" ++ sheet_name ++ "' not found."))
       else
         sheet <- xw.sheets_getitem book sheet_name ;;
         xw.set_range_value sheet start_cell_address data ;;
         ret (PyStr ("Successfully wrote data starting at cell " ++ start_cell_address
                     ++ " on sheet " ++ sheet_name ++ ".")))
    [(JSONDecodeError, fun _ =>
        ret (PyStr "Error: The 'values_json' argument is not a valid JSON string."));
     (Exception, fun e =>
        ret (PyStr ("An Excel error occurred during write range to " ++ start_cell_address
                    ++ " on " ++ sheet_name ++ ": " ++ exn_msg e)))].

Definition _get_sheet_names (book : xw.Book) : St World PyVal :=
  try_except
    (sheet_names <- xw.sheet_names book ;;
     ret (PyStr (match sheet_names with
                 | [] => "No sheets found."
                 | _ => String.concat ", " sheet_names
                 end)))
    [(Exception, fun e => ret (PyStr ("Error getting sheet names: " ++ exn_msg e)))].

Definition _clear_range (book : xw.Book) (sheet_name range_address : string)
  : St World PyVal :=
  try_except
    (names <- xw.sheet_names book ;;
     if negb (str_in sheet_name names) then
       ret (PyStr ("Error: Sheet '" ++ sheet_name ++ "' not found."))
     else
       sheet <- xw.sheets_getitem book sheet_name ;;
       xw.clear_contents sheet range_address ;;
       ret (PyStr ("Successfully cleared content from range " ++ range_address
                   ++ " on sheet " ++ sheet_name ++ ".")))
    [(Exception, fun e =>
        ret (PyStr ("Error clearing range " ++ range_address ++ " on sheet "
                    ++ sheet_name ++ ": " ++ exn_msg e)))].

End Inner.

(** ** The local variables of [safe_excel_operation] *)

Record Locals : Type := mkLocals {
  l_app : option xw.AppHandle;
  l_book : option xw.Book
}.

(** A call on the world, made from inside the function. *)
Definition lift {A} (m : St World A) : St (Locals * World) A :=
  fun s =>
    match m (snd s) with
    | (out, w') => (out, (fst s, w'))
    end.

Definition assign_app (app : xw.AppHandle) : St (Locals * World) unit :=
  modify (fun s => (mkLocals (Some app) (l_book (fst s)), snd s)).

Definition assign_book (book : xw.Book) : St (Locals * World) unit :=
  modify (fun s => (mkLocals (l_app (fst s)) (Some book), snd s)).

(** The function body, run with its locals initialised. *)
Definition with_locals {A} (init : Locals) (body : St (Locals * World) A) : St World A :=
  fun w =>
    match body (init, w) with
    | (out, s') => (out, snd s')
    end.

(** The [finally] block, the same in both programs: close the document
    if one was opened, swallowing what the close raises; the application
    is left running ([app.quit()] is commented out, the branch is
    [pass]). *)
Definition release : St (Locals * World) unit :=
  s <- get ;;
  (match l_book (fst s) with
   | Some book => try_except (lift (xw.close book)) [(Exception, fun _ => ret tt)]
   | None => ret tt
   end) ;;
  (match l_app (fst s) with
   | Some _ => ret tt
   | None => ret tt
   end).

(** The [try] block up to the value of [func]. *)
Definition open_and_run (func : xw.Book -> St World PyVal) : St (Locals * World) PyVal :=
  app <- lift xw.App ;;
  assign_app app ;;
  found <- lift (xw.path_exists EXCEL_FILE_PATH) ;;
  (if negb found
   then raise (mkExn FileNotFoundError ("Excel file not found: " ++ EXCEL_FILE_PATH))
   else ret tt) ;;
  book <- lift (xw.books_open app EXCEL_FILE_PATH) ;;
  assign_book book ;;
  result <- lift (func book) ;;
  lift (xw.save book) ;;
  ret result.

(** ** [excel_agnet.py] *)
Module excel_agnet.
Import Inner.

Definition safe_excel_operation (func : xw.Book -> St World PyVal) : St World PyVal :=
  with_locals (mkLocals None None)
    (try_finally
       (try_except
          (result <- open_and_run func ;;
           ret result)
          [(FileNotFoundError, fun e => ret (PyStr ("Error: " ++ exn_msg e)));
           (Exception, fun e => ret (PyStr ("An Excel error occurred: " ++ exn_msg e)))])
       release).

Definition read_cell_value (sheet_name cell_address : string) : St World PyVal :=
  safe_excel_operation (fun book => _read_cell book sheet_name cell_address).

Definition write_cell_value (sheet_name cell_address value : string) : St World PyVal :=
  safe_excel_operation (fun book => _write_cell book sheet_name cell_address value).

Definition read_range_values (sheet_name range_address : string) : St World PyVal :=
  safe_excel_operation (fun book => _read_range book sheet_name range_address).

Definition write_range_values (sheet_name start_cell_address values_json : string)
  : St World PyVal :=
  safe_excel_operation
    (fun book => _write_range book sheet_name start_cell_address values_json).

Definition get_sheet_names : St World PyVal :=
  safe_excel_operation (fun book => _get_sheet_names book).

Definition clear_range_content (sheet_name range_address : string) : St World PyVal :=
  safe_excel_operation (fun book => _clear_range book sheet_name range_address).

End excel_agnet.

(** ** [backend_service.py] *)
Module backend_service.
Import Inner.

Definition safe_excel_operation (func : xw.Book -> St World PyVal) : St World PyVal :=
  with_locals (mkLocals None None)
    (try_finally
       (try_except
          (result <- open_and_run func ;;
           ret (PyDict [("status", PyStr "success"); ("result", result)]))
          [(FileNotFoundError, fun e =>
              ret (PyDict [("status", PyStr "error");
                           ("message", PyStr ("Error: " ++ exn_msg e))]));
           (Exception, fun e =>
              ret (PyDict [("status", PyStr "error");
                           ("message", PyStr ("An Excel error occurred: " ++ exn_msg e))]))])
       release).

Definition read_cell_value (sheet_name cell_address : string) : St World PyVal :=
  safe_excel_operation (fun book => _read_cell book sheet_name cell_address).

Definition write_cell_value (sheet_name cell_address value : string) : St World PyVal :=
  safe_excel_operation (fun book => _write_cell book sheet_name cell_address value).

Definition read_range_values (sheet_name range_address : string) : St World PyVal :=
  safe_excel_operation (fun book => _read_range book sheet_name range_address).

Definition write_range_values (sheet_name start_cell_address values_json : string)
  : St World PyVal :=
  safe_excel_operation
    (fun book => _write_range book sheet_name start_cell_address values_json).

Definition get_sheet_names : St World PyVal :=
  safe_excel_operation (fun book => _get_sheet_names book).

Definition clear_range_content (sheet_name range_address : string) : St World PyVal :=
  safe_excel_operation (fun book => _clear_range book sheet_name range_address).

End backend_service.

(** ** The actions of the direct-execution variant *)

(** One tool invocation with its bound arguments, as the agent runtime
    issues it ([tools] in both programs). *)
Inductive Action : Type :=
| ReadCell (sheet_name cell_address : string)
| WriteCell (sheet_name cell_address value : string)
| ReadRange (sheet_name range_address : string)
| WriteRange (sheet_name start_cell_address values_json : string)
| ListSheets
| ClearRange (sheet_name range_address : string).

(** The sheet an action refers to. *)
Definition action_sheet (a : Action) : option string :=
  match a with
  | ReadCell s _ | WriteCell s _ _ | ReadRange s _
  | WriteRange s _ _ | ClearRange s _ => Some s
  | ListSheets => None
  end.

(** The address an action refers to. *)
Definition action_address (a : Action) : option string :=
  match a with
  | ReadCell _ c | WriteCell _ c _ | ReadRange _ c
  | WriteRange _ c _ | ClearRange _ c => Some c
  | ListSheets => None
  end.

(** The payload of a [WriteRange] deserialises to a list of lists (the
    invariant of the data model of the specification); the other actions
    carry no payload. *)
Definition payload_ok (a : Action) : bool :=
  match a with
  | WriteRange _ _ values_json =>
      match json.loads values_json with
      | Some data => is_list_of_lists data
      | None => false
      end
  | _ => true
  end.

(** What the session runs for an action. *)
Definition inner_of (a : Action) (book : xw.Book) : St World PyVal :=
  match a with
  | ReadCell s c => Inner._read_cell book s c
  | WriteCell s c v => Inner._write_cell book s c v
  | ReadRange s r => Inner._read_range book s r
  | WriteRange s c j => Inner._write_range book s c j
  | ListSheets => Inner._get_sheet_names book
  | ClearRange s r => Inner._clear_range book s r
  end.

Definition execute_agnet (a : Action) : St World PyVal :=
  match a with
  | ReadCell s c => excel_agnet.read_cell_value s c
  | WriteCell s c v => excel_agnet.write_cell_value s c v
  | ReadRange s r => excel_agnet.read_range_values s r
  | WriteRange s c j => excel_agnet.write_range_values s c j
  | ListSheets => excel_agnet.get_sheet_names
  | ClearRange s r => excel_agnet.clear_range_content s r
  end.

Definition execute_backend (a : Action) : St World PyVal :=
  match a with
  | ReadCell s c => backend_service.read_cell_value s c
  | WriteCell s c v => backend_service.write_cell_value s c v
  | ReadRange s r => backend_service.read_range_values s r
  | WriteRange s c j => backend_service.write_range_values s c j
  | ListSheets => backend_service.get_sheet_names
  | ClearRange s r => backend_service.clear_range_content s r
  end.

(* ===================================================================== *)
(** * The delegated variant ([backend_service_llamaindex.py.py]) *)
(* ===================================================================== *)

Module llamaindex.

(** A dict is kept as the list of its items, in insertion order. *)

Definition generate_read_cell_instruction (workbook_name sheet_name cell_address : string)
  : PyVal :=
  PyDict [("action", PyStr "read_cell");
          ("workbook_name", PyStr workbook_name);
          ("sheet_name", PyStr sheet_name);
          ("cell_address", PyStr cell_address)].

Definition generate_write_cell_instruction
           (workbook_name sheet_name cell_address value : string) : PyVal :=
  PyDict [("action", PyStr "write_cell");
          ("workbook_name", PyStr workbook_name);
          ("sheet_name", PyStr sheet_name);
          ("cell_address", PyStr cell_address);
          ("value", PyStr value)].

Definition generate_read_range_instruction (workbook_name sheet_name range_address : string)
  : PyVal :=
  PyDict [("action", PyStr "read_range");
          ("workbook_name", PyStr workbook_name);
          ("sheet_name", PyStr sheet_name);
          ("range_address", PyStr range_address)].

Definition generate_write_range_instruction
           (workbook_name sheet_name start_cell_address values_json : string) : PyVal :=
  match json.loads values_json with
  | Some data =>
      if negb (is_list_of_lists data) then
        PyDict [("action", PyStr "error");
                ("message", PyStr "Error: The provided data for writing range is not a valid JSON list of lists.")]
      else
        PyDict [("action", PyStr "write_range");
                ("workbook_name", PyStr workbook_name);
                ("sheet_name", PyStr sheet_name);
                ("start_cell_address", PyStr start_cell_address);
                ("values", data)]
  | None =>
      PyDict [("action", PyStr "error");
              ("message", PyStr "Error: The provided data for writing range is not a valid JSON string.")]
  end.

Definition generate_get_sheet_names_instruction (workbook_name : string) : PyVal :=
  PyDict [("action", PyStr "get_sheet_names");
          ("workbook_name", PyStr workbook_name)].

Definition generate_clear_range_content_instruction
           (workbook_name sheet_name range_address : string) : PyVal :=
  PyDict [("action", PyStr "clear_range_content");
          ("workbook_name", PyStr workbook_name);
          ("sheet_name", PyStr sheet_name);
          ("range_address", PyStr range_address)].

Definition generate_inform_user_instruction (message : string) : PyVal :=
  PyDict [("action", PyStr "inform_user");
          ("message", PyStr message)].

Definition generate_create_bar_chart_instruction
           (workbook_name sheet_name data_range chart_title destination_cell : string)
  : PyVal :=
  PyDict [("action", PyStr "create_bar_chart");
          ("workbook_name", PyStr workbook_name);
          ("sheet_name", PyStr sheet_name);
          ("data_range", PyStr data_range);
          ("chart_title", PyStr chart_title);
          ("destination_cell", PyStr destination_cell)].

Definition generate_write_formula_instruction
           (workbook_name sheet_name cell_address formula : string) : PyVal :=
  PyDict [("action", PyStr "write_formula");
          ("workbook_name", PyStr workbook_name);
          ("sheet_name", PyStr sheet_name);
          ("cell_address", PyStr cell_address);
          ("formula", PyStr formula)].

Definition generate_apply_conditional_formatting_instruction
           (workbook_name sheet_name range_address condition format_type : string)
  : PyVal :=
  PyDict [("action", PyStr "apply_conditional_formatting");
          ("workbook_name", PyStr workbook_name);
          ("sheet_name", PyStr sheet_name);
          ("range_address", PyStr range_address);
          ("condition", PyStr condition);
          ("format_type", PyStr format_type)].

Definition generate_create_pivot_table_instruction
           (workbook_name source_sheet source_range dest_sheet dest_cell
                          row_field value_field function : string) : PyVal :=
  PyDict [("action", PyStr "create_pivot_table");
          ("workbook_name", PyStr workbook_name);
          ("source_sheet", PyStr source_sheet);
          ("source_range", PyStr source_range);
          ("dest_sheet", PyStr dest_sheet);
          ("dest_cell", PyStr dest_cell);
          ("row_field", PyStr row_field);
          ("value_field", PyStr value_field);
          ("function", PyStr function)].

(** A call of one of [llamaindex_tools] with its arguments. *)
Inductive ToolCall : Type :=
| read_cell_tool (workbook_name sheet_name cell_address : string)
| write_cell_tool (workbook_name sheet_name cell_address value : string)
| read_range_tool (workbook_name sheet_name range_address : string)
| write_range_tool (workbook_name sheet_name start_cell_address values_json : string)
| get_sheet_names_tool (workbook_name : string)
| clear_range_content_tool (workbook_name sheet_name range_address : string)
| inform_user_tool (message : string)
| create_bar_chart_tool
    (workbook_name sheet_name data_range chart_title destination_cell : string)
| write_formula_tool (workbook_name sheet_name cell_address formula : string)
| apply_conditional_formatting_tool
    (workbook_name sheet_name range_address condition format_type : string)
| create_pivot_table_tool
    (workbook_name source_sheet source_range dest_sheet dest_cell
                   row_field value_field function : string).

Definition call_tool (c : ToolCall) : PyVal :=
  match c with
  | read_cell_tool w s a => generate_read_cell_instruction w s a
  | write_cell_tool w s a v => generate_write_cell_instruction w s a v
  | read_range_tool w s r => generate_read_range_instruction w s r
  | write_range_tool w s a j => generate_write_range_instruction w s a j
  | get_sheet_names_tool w => generate_get_sheet_names_instruction w
  | clear_range_content_tool w s r => generate_clear_range_content_instruction w s r
  | inform_user_tool m => generate_inform_user_instruction m
  | create_bar_chart_tool w s d t c => generate_create_bar_chart_instruction w s d t c
  | write_formula_tool w s a f => generate_write_formula_instruction w s a f
  | apply_conditional_formatting_tool w s r c f =>
      generate_apply_conditional_formatting_instruction w s r c f
  | create_pivot_table_tool w ss sr ds dc rf vf f =>
      generate_create_pivot_table_instruction w ss sr ds dc rf vf f
  end.

(** One entry of [response_obj.sources].  [raw_output] is [None] when
    the object has no such attribute; [metadata] is [None] when the
    attribute is missing or is not a dict. *)
Record Source : Type := mkSource {
  raw_output : option PyVal;
  metadata : option (list (string * PyVal))
}.

Record AgentChatResponse : Type := mkResponse {
  sources : list Source;
  response : string
}.

(** The [elif] branch: [metadata] is truthy, has the key
    [tool_output], and the value under it is not [None]. *)
Definition metadata_tool_output (source : Source) : option PyVal :=
  match metadata source with
  | Some md =>
      if Py.truthy (PyDict md) then
        match Py.dict_get md "tool_output" with
        | Some t => if Py.is_not_none t then Some t else None
        | None => None
        end
      else None
  | None => None
  end.

(** [tool_output_result] for one source. *)
Definition tool_output_result (source : Source) : option PyVal :=
  match raw_output source with
  | Some v => if Py.is_not_none v then Some v else metadata_tool_output source
  | None => metadata_tool_output source
  end.

(** The [for source in response_obj.sources] loop; [extracted] is
    [extracted_tool_output], and returning without the recursive call
    is the [break]. *)
Fixpoint scan_sources (srcs : list Source) (extracted : option (list (string * PyVal)))
  : option (list (string * PyVal)) :=
  match srcs with
  | [] => extracted
  | source :: rest =>
      match tool_output_result source with
      | Some (PyDict d) =>
          if Py.ne_str (Py.dict_get d "action") "inform_user" then Some d
          else scan_sources rest (Some d)
      | _ => scan_sources rest extracted
      end
  end.

(** The extraction of the instruction from the reply of the agent. *)
Definition extract_instruction (response_obj : AgentChatResponse) : PyVal :=
  let extracted_tool_output :=
    match sources response_obj with
    | [] => None
    | srcs => scan_sources srcs None
    end in
  let instruction :=
    match extracted_tool_output with
    | Some d =>
        if Py.truthy (PyDict d) then PyDict d
        else if Py.truthy (PyStr (response response_obj)) then
          PyDict [("action", PyStr "inform_user");
                  ("message", PyStr (response response_obj))]
        else
          PyDict [("action", PyStr "error");
                  ("message", PyStr "Backend failed to generate a valid instruction.")]
    | None =>
        if Py.truthy (PyStr (response response_obj)) then
          PyDict [("action", PyStr "inform_user");
                  ("message", PyStr (response response_obj))]
        else
          PyDict [("action", PyStr "error");
                  ("message", PyStr "Backend failed to generate a valid instruction.")]
    end in
  if negb (Py.is_dict instruction) then
    PyDict [("action", PyStr "error");
            ("message", PyStr ("Backend returned unexpected final format after extraction: "
                               ++ Py.str instruction))]
  else instruction.

(** [handle_excel_command], from the reply of [agent.achat] on: an
    exception of the agent becomes the HTTP error of the endpoint. *)
Definition handle_excel_command (reply : Outcome AgentChatResponse) : PyVal + string :=
  match reply with
  | Returned response_obj => inl (extract_instruction response_obj)
  | Raised e => inr ("Backend processing error: " ++ exn_msg e)
  end.

(** The reply the agent runtime builds when it has run the given tool
    calls: one source per call, holding the value the tool returned. *)
Definition reply_of_calls (calls : list ToolCall) (text : string) : AgentChatResponse :=
  mkResponse (map (fun c => mkSource (Some (call_tool c)) None) calls) text.

End llamaindex.

(** ** The wire contract of section 6 of the specification *)

(** Each action tag with the fields that follow [action] in its
    descriptor, as the table of the specification lists them. *)
Definition wire_contract : list (string * list string) :=
  [ ("read_cell", ["workbook_name"; "sheet_name"; "cell_address"]);
    ("write_cell", ["workbook_name"; "sheet_name"; "cell_address"; "value"]);
    ("read_range", ["workbook_name"; "sheet_name"; "range_address"]);
    ("write_range", ["workbook_name"; "sheet_name"; "start_cell_address"; "values"]);
    ("get_sheet_names", ["workbook_name"]);
    ("clear_range_content", ["workbook_name"; "sheet_name"; "range_address"]);
    ("create_bar_chart",
     ["workbook_name"; "sheet_name"; "data_range"; "chart_title"; "destination_cell"]);
    ("write_formula", ["workbook_name"; "sheet_name"; "cell_address"; "formula"]);
    ("apply_conditional_formatting",
     ["workbook_name"; "sheet_name"; "range_address"; "condition"; "format_type"]);
    ("create_pivot_table",
     ["workbook_name"; "source_sheet"; "source_range"; "dest_sheet"; "dest_cell";
      "row_field"; "value_field"; "function"]);
    ("inform_user", ["message"]);
    ("error", ["message"]) ].

Fixpoint contract_fields (table : list (string * list string)) (tag : string)
  : option (list string) :=
  match table with
  | [] => None
  | (t, fields) :: rest => if String.eqb t tag then Some fields else contract_fields rest tag
  end.

(** The action tag of a descriptor. *)
Definition descriptor_tag (v : PyVal) : option string :=
  match v with
  | PyDict d => match Py.dict_get d "action" with
                | Some (PyStr tag) => Some tag
                | _ => None
                end
  | _ => None
  end.

(** A descriptor follows the contract: its tag is in the table and its
    keys are [action] followed by the fields of that tag. *)
Definition follows_contract (v : PyVal) : Prop :=
  exists d tag fields,
    v = PyDict d /\
    descriptor_tag v = Some tag /\
    contract_fields wire_contract tag = Some fields /\
    Py.keys d = "action" :: fields.


(* ===================================================================== *)
(** * The Session Guard, path by path *)
(* ===================================================================== *)

(** The two [safe_excel_operation] differ only in the value they return
    on each of the three exits.  [session_guard] is their common text
    with those three values as parameters; each program's function is an
    instance of it (lemmas [agnet_guard] and [backend_guard]). *)
Definition session_guard (on_success : PyVal -> PyVal) (on_not_found on_error : Exn -> PyVal)
           (func : xw.Book -> St World PyVal) : St World PyVal :=
  with_locals (mkLocals None None)
    (try_finally
       (try_except
          (result <- open_and_run func ;;
           ret (on_success result))
          [(FileNotFoundError, fun e => ret (on_not_found e));
           (Exception, fun e => ret (on_error e))])
       release).

(** The value an [except] clause returns for an exception. *)
Definition handled (on_not_found on_error : Exn -> PyVal) (e : Exn) : PyVal :=
  if isinstance e FileNotFoundError then on_not_found e else on_error e.

(** The part of the [try] block before [func] is called: either it
    raises, or it reaches [func] with a document open.  Both come with
    the locals and the world at that point. *)
Definition enter (w : World)
  : Exn * (Locals * World) + xw.Book * (Locals * World) :=
  let w_app := add_log EvApp w in
  match app_fault (faults w) with
  | Some e => inl (e, (mkLocals None None, w_app))
  | None =>
      let l_app' := mkLocals (Some (apps w)) None in
      let w_run := set_apps (S (apps w)) w_app in
      match files w !! EXCEL_FILE_PATH with
      | None =>
          inl (mkExn FileNotFoundError ("Excel file not found: " ++ EXCEL_FILE_PATH),
               (l_app', w_run))
      | Some wb =>
          let w_open := add_log (EvOpen EXCEL_FILE_PATH) w_run in
          match open_fault (faults w) with
          | Some e => inl (e, (l_app', w_open))
          | None =>
              inr (next_book w,
                   (mkLocals (Some (apps w)) (Some (next_book w)),
                    set_next_book (S (next_book w))
                      (set_opened (<[next_book w := (EXCEL_FILE_PATH, wb)]> (opened w))
                                  w_open)))
          end
      end
  end.

(** The [finally] block on a world: the document of the locals, if any,
    is closed. *)
Definition finish (l : Locals) (w : World) : World :=
  match l_book l with
  | Some book => snd (xw.close book w)
  | None => w
  end.

(** The handle of the document a call of the guard opens in [w], if it
    gets that far. *)
Definition guard_book (w : World) : option xw.Book :=
  match enter w with
  | inr (book, _) => Some book
  | inl _ => None
  end.

(** The session goes through in [w] on the document [wb]: the
    application starts, the file is there and opens. *)
Definition session_opens (w : World) (wb : Workbook) : Prop :=
  app_fault (faults w) = None
  /\ open_fault (faults w) = None
  /\ files w !! EXCEL_FILE_PATH = Some wb.

(** The world in which [func] starts when the session opens on [wb]. *)
Definition opened_world (w : World) (wb : Workbook) : World :=
  set_next_book (S (next_book w))
    (set_opened (<[next_book w := (EXCEL_FILE_PATH, wb)]> (opened w))
       (add_log (EvOpen EXCEL_FILE_PATH) (set_apps (S (apps w)) (add_log EvApp w)))).

(** The calls that touch the content of a document. *)
Definition is_content_write (e : Event) : bool :=
  match e with
  | EvWrite _ _ _ _ | EvClear _ _ _ => true
  | _ => false
  end.

(** The calls that open a document. *)
Definition is_open (e : Event) : bool :=
  match e with
  | EvOpen _ => true
  | _ => false
  end.

(** A world to run the programs on: no fault, one application-free
    start, and the file [test.xlsx] holding three sheets, the second of
    which has [x] in its cell A1. *)
Definition sample_workbook : Workbook :=
  [("Sheet1", ∅); ("Data", {[ (1%N, 1%N) := PyStr "x" ]}); ("Archive", ∅)].

Definition sample_world : World :=
  mkWorld {[ EXCEL_FILE_PATH := sample_workbook ]} no_faults 0 0 ∅ [].

(** Every handle the guard took has been given back: no application
    more is running than before the call and no document more is open. *)
Definition all_handles_released (before after : World) : Prop :=
  apps after = apps before /\ opened after = opened before.

(** The text the tools return for a sheet that is not in the workbook,
    and the texts they return when the library rejects the address. *)
Definition sheet_not_found (sheet_name : string) : string :=
  "Error: Sheet '" ++ sheet_name ++ "' not found.".

(** A rectangular array of arrays: a list whose items are lists, all of
    the length of the first. *)
Definition is_rectangular (data : PyVal) : bool :=
  match data with
  | PyList rows =>
      forallb Py.is_list rows
      && match rows with
         | PyList first :: _ =>
             forallb (fun row => match row with
                                 | PyList r => (length r =? length first)%nat
                                 | _ => false
                                 end) rows
         | _ => true
         end
  | _ => false
  end.

(** No call of the list touches the content of a document. *)
Definition no_content_write (evs : list Event) : Prop :=
  Forall (fun ev => is_content_write ev = false) evs.

(** No call of the list opens a document. *)
Definition no_document_opened (evs : list Event) : Prop :=
  Forall (fun ev => is_open ev = false) evs.

(** The block of the round trip, and a sheet after that block has been
    written at its top-left corner. *)
Definition block_abcd : PyVal :=
  PyList [PyList [PyStr "a"; PyStr "b"]; PyList [PyStr "c"; PyStr "d"]].

Definition written (cs : Cells) : Cells :=
  <[(2%N, 2%N) := PyStr "d"]>
    (<[(2%N, 1%N) := PyStr "c"]>
       (<[(1%N, 2%N) := PyStr "b"]>
          (<[(1%N, 1%N) := PyStr "a"]> cs))).

(* ===================================================================== *)
(** * What a tool can do to the world *)
(* ===================================================================== *)

(** The world with further calls in its log and nothing else changed. *)
Definition relog (evs : list Event) (w : World) : World :=
  mkWorld (files w) (faults w) (apps w) (next_book w) (opened w) (log w ++ evs)%list.

(** The two effects an inner function can have on the world it runs in:
    it adds calls to the log, and it may replace the cells of one sheet
    of the document it was given. *)
Inductive inner_step (book : xw.Book) (w : World) : World -> Prop :=
| step_kept (evs : list Event) :
    inner_step book w (relog evs w)
| step_updated (evs : list Event) (path : string) (wb : Workbook) (s : string) (cs : Cells) :
    opened w !! book = Some (path, wb) ->
    inner_step book w
      (set_opened (<[book := (path, xw.set_sheet wb s cs)]> (opened w)) (relog evs w)).

(** The actions that only read. *)
Definition read_only (a : Action) : bool :=
  match a with
  | ReadCell _ _ | ReadRange _ _ | ListSheets => true
  | WriteCell _ _ _ | WriteRange _ _ _ | ClearRange _ _ => false
  end.

(** The names of the sheets of the document on disk, if it is there. *)
Definition sheets_on_disk (w : World) : option (list string) :=
  match files w !! EXCEL_FILE_PATH with
  | Some wb => Some (map fst wb)
  | None => None
  end.


(** The workbook after [clear_range_content] on a sheet and an address:
    the cells of the rectangle are emptied when the sheet is there and
    the address is valid, and nothing changes otherwise. *)
Definition cleared_workbook (wb : Workbook) (s address : string) : Workbook :=
  match xw.get_sheet wb s, A1.parse_address address with
  | Some cs, Some R => xw.set_sheet wb s (Range.clear cs R)
  | _, _ => wb
  end.

(** The text [clear_range_content] returns on a workbook. *)
Definition clear_text (wb : Workbook) (s address : string) : string :=
  match xw.get_sheet wb s, A1.parse_address address with
  | None, _ => sheet_not_found s
  | Some _, None =>
      "Error clearing range " ++ address ++ " on sheet " ++ s
        ++ ": invalid address '" ++ address ++ "'"
  | Some _, Some _ =>
      "Successfully cleared content from range " ++ address ++ " on sheet " ++ s ++ "."
  end.

(** The instruction [handle_excel_command] falls back to when no source
    gives one: the text of the agent as an [inform_user] message, or the
    [error] descriptor when there is no text either. *)
Definition fallback_instruction (text : string) : PyVal :=
  if Py.truthy (PyStr text) then
    PyDict [("action", PyStr "inform_user"); ("message", PyStr text)]
  else
    PyDict [("action", PyStr "error");
            ("message", PyStr "Backend failed to generate a valid instruction.")].

(** A source gives no dict as tool output. *)
Definition no_dict_output (source : llamaindex.Source) : Prop :=
  forall d, llamaindex.tool_output_result source <> Some (PyDict d).

(** Whatever dict a source gives as tool output is tagged
    [inform_user]. *)
Definition only_inform_output (source : llamaindex.Source) : Prop :=
  forall d, llamaindex.tool_output_result source = Some (PyDict d) ->
            Py.dict_get d "action" = Some (PyStr "inform_user").

(* ===================================================================== *)
(** * The interactive loop of [excel_agnet.py] *)
(* ===================================================================== *)

Module cli.

(** [s.lower()] on the bytes of the text: the letters A to Z become a to
    z.  The other bytes are kept; for the comparison with [exit] that is
    what Python's [lower] gives, since no character outside ASCII
    lowercases to one of the letters e, x, i, t. *)
Definition lower_char (c : ascii) : ascii :=
  let n := N_of_ascii c in
  if ((65 <=? n) && (n <=? 90))%N then ascii_of_N (n + 32) else c.

Definition lower (s : string) : string :=
  string_of_list_ascii (map lower_char (list_ascii_of_string s)).

(** The white space [strip] removes, among the characters of one byte:
    tab to carriage return, the four separators 28 to 31, and space. *)
Definition is_space1 (c : ascii) : bool :=
  let n := N_of_ascii c in
  (((9 <=? n) && (n <=? 13)) || ((28 <=? n) && (n <=? 32)))%N.

(** The white space of two bytes: U+0085 and U+00A0. *)
Definition is_space2 (a b : ascii) : bool :=
  ((N_of_ascii a =? 194) && ((N_of_ascii b =? 133) || (N_of_ascii b =? 160)))%N.

(** The white space of three bytes: U+1680, U+2000 to U+200A, U+2028,
    U+2029, U+202F, U+205F and U+3000. *)
Definition is_space3 (a b c : ascii) : bool :=
  let x := N_of_ascii a in
  let y := N_of_ascii b in
  let z := N_of_ascii c in
  (((x =? 225) && (y =? 154) && (z =? 128))
   || ((x =? 226) && (y =? 128)
       && (((128 <=? z) && (z <=? 138)) || (z =? 168) || (z =? 169) || (z =? 175)))
   || ((x =? 226) && (y =? 129) && (z =? 159))
   || ((x =? 227) && (y =? 128) && (z =? 128)))%N.

(** Every character of the text is white space. *)
Fixpoint all_space (s : list ascii) : bool :=
  match s with
  | [] => true
  | a :: r =>
      if is_space1 a then all_space r
      else
        match r with
        | [] => false
        | b :: r2 =>
            if is_space2 a b then all_space r2
            else
              match r2 with
              | [] => false
              | c :: r3 => if is_space3 a b c then all_space r3 else false
              end
        end
  end.

(** [not user_query.strip()] *)
Definition blank (user_query : string) : bool :=
  all_space (list_ascii_of_string user_query).

(** [user_query.lower() == 'exit'] *)
Definition is_exit (user_query : string) : bool :=
  String.eqb (lower user_query) "exit".

(** How the program ends: the loop was left by [exit], or [input] found
    no more line (it raises [EOFError], which nothing catches). *)
Inductive Ending : Type :=
| Stopped
| EndOfInput.

Definition newline : string := String "010" "".

Section Loop.

(** The state the agent works on, and [agent_executor.invoke] on a
    query: the dict it returns, or the exception it raises. *)
Context {S : Type}.
Variable invoke : string -> St S (list (string * PyVal)).

(** The lines one turn of the loop prints for a query that is neither
    [exit] nor blank, with the state it leaves. *)
Definition turn (user_query : string) (s : S) : list string * S :=
  match invoke user_query s with
  | (Returned response, s') =>
      ([newline ++ "Agent Response:";
        Py.str (default (PyStr "No output from agent.") (Py.dict_get response "output"));
        "--------------------"], s')
  | (Raised e, s') =>
      (["An unexpected error occurred during agent execution: " ++ exn_msg e], s')
  end.

(** The [while True] loop on the lines [input] will return. *)
Fixpoint main_loop (inputs : list string) (s : S) (printed : list string)
  : Ending * S * list string :=
  match inputs with
  | [] => (EndOfInput, s, printed)
  | user_query :: rest =>
      if is_exit user_query then (Stopped, s, printed)
      else if blank user_query then main_loop rest s printed
      else
        let '(lines, s') := turn user_query s in
        main_loop rest s' (printed ++ lines)%list
  end.

(** The program from its first [print] on. *)
Definition main (inputs : list string) (s : S) : Ending * S * list string :=
  let banner :=
    ["AI Excel Agent started. Talking to " ++ EXCEL_FILE_PATH;
     "Make sure Microsoft Excel is installed and the file exists at the specified path.";
     "Type 'exit' to quit.";
     "--------------------"] in
  match main_loop inputs s banner with
  | (Stopped, s', printed) => (Stopped, s', (printed ++ ["Agent stopped."])%list)
  | (EndOfInput, s', printed) => (EndOfInput, s', printed)
  end.

End Loop.



End cli.

(** An agent to run the loop on: it keeps the queries it was given, most
    recent first, answers each with the query itself, and fails on the
    query [fail]. *)
Definition echo_agent (user_query : string) : St (list string) (list (string * PyVal)) :=
  fun seen =>
    if String.eqb user_query "fail"
    then (Raised (mkExn Exception "agent failed"), user_query :: seen)
    else (Returned [("output", PyStr user_query)], user_query :: seen).
(* ===================================================================== *)
(** * Exceptions outside [Exception], and the diagnostic output *)
(* ===================================================================== *)

(** [Exn] is the type of the instances of [Exception]: what the
    spreadsheet library, [json] and [os] raise.  Python also has
    exceptions that derive from [BaseException] only, and no
    [except Exception] clause catches them.  The library raises none of
    them; the function handed to [safe_excel_operation] is any callable
    and may. *)
Inductive ExitClass : Type :=
| KeyboardInterrupt
| SystemExit
| GeneratorExit.

Record Exit : Type := mkExit {
  exit_class : ExitClass;
  exit_msg : string
}.

(** How a call ends when those exceptions are counted in: with an
    outcome of the kind above, or by one of them. *)
Inductive Completion (A : Type) : Type :=
| Finished (out : Outcome A)
| Exited (x : Exit).
Arguments Finished {A} out.
Arguments Exited {A} x.

Definition Run (S A : Type) : Type := S -> Completion A * S.

(** The two streams the diagnostics go to: [print] writes a line to the
    first, [traceback.print_exc] writes to the second.  Either call can
    fail (a closed stream, a line the encoding of the console cannot
    represent) and then raises. *)
Record Console : Type := mkConsole {
  print_fault : string -> option Exn;
  print_exc_fault : option Exn
}.

(** A console that takes every line. *)
Definition working_console : Console := mkConsole (fun _ => None) None.

Module Run.

Section RunMonad.
Context {S : Type}.

Definition ret {A} (a : A) : Run S A := fun s => (Finished (Returned a), s).

Definition bind {A B} (m : Run S A) (k : A -> Run S B) : Run S B :=
  fun s =>
    match m s with
    | (Finished (Returned a), s') => k a s'
    | (Finished (Raised e), s') => (Finished (Raised e), s')
    | (Exited x, s') => (Exited x, s')
    end.

Definition raise {A} (e : Exn) : Run S A := fun s => (Finished (Raised e), s).

Definition exit {A} (x : Exit) : Run S A := fun s => (Exited x, s).

Definition get : Run S S := fun s => (Finished (Returned s), s).

Definition modify (f : S -> S) : Run S unit := fun s => (Finished (Returned tt), f s).

(** A call that raises instances of [Exception] only. *)
Definition no_exit {A} (m : St S A) : Run S A :=
  fun s =>
    match m s with
    | (out, s') => (Finished out, s')
    end.

(** The first clause whose class the exception is an instance of. *)
Fixpoint find_clause {A} (clauses : list (ExnClass * (Exn -> Run S A))) (e : Exn)
  : option (Exn -> Run S A) :=
  match clauses with
  | [] => None
  | (cls, handler) :: rest =>
      if isinstance e cls then Some handler else find_clause rest e
  end.

(** [try: body  except C1 as e: h1  except C2 as e: h2 ...], every
    class being [Exception] or one of its subclasses: an exception
    outside [Exception] passes every clause. *)
Definition try_except {A} (body : Run S A)
           (clauses : list (ExnClass * (Exn -> Run S A))) : Run S A :=
  fun s =>
    match body s with
    | (Finished (Returned a), s') => (Finished (Returned a), s')
    | (Finished (Raised e), s') =>
        match find_clause clauses e with
        | Some handler => handler e s'
        | None => (Finished (Raised e), s')
        end
    | (Exited x, s') => (Exited x, s')
    end.

(** [try: body  finally: cleanup]: the cleanup runs on every exit of
    the body; if the cleanup itself raises, that exception replaces the
    outcome of the body. *)
Definition try_finally {A} (body : Run S A) (cleanup : Run S unit) : Run S A :=
  fun s =>
    match body s with
    | (out, s') =>
        match cleanup s' with
        | (Finished (Returned _), s'') => (out, s'')
        | (Finished (Raised e), s'') => (Finished (Raised e), s'')
        | (Exited x, s'') => (Exited x, s'')
        end
    end.

(** [print(line)] *)
Definition print (console : Console) (line : string) : Run S unit :=
  match print_fault console line with
  | Some e => raise e
  | None => ret tt
  end.

(** [traceback.print_exc()] *)
Definition print_exc (console : Console) : Run S unit :=
  match print_exc_fault console with
  | Some e => raise e
  | None => ret tt
  end.

End RunMonad.

(** A call on the world, made from inside [safe_excel_operation]. *)
Definition lift {A} (m : Run World A) : Run (Locals * World) A :=
  fun s =>
    match m (snd s) with
    | (out, w') => (out, (fst s, w'))
    end.

(** The function body, run with its locals initialised. *)
Definition with_locals {A} (init : Locals) (body : Run (Locals * World) A) : Run World A :=
  fun w =>
    match body (init, w) with
    | (out, s') => (out, snd s')
    end.

End Run.

Declare Scope run_scope.
Delimit Scope run_scope with run.
Notation "x <- m ;; k" := (Run.bind m (fun x => k))
  (at level 20, m at level 99, k at level 200, only parsing) : run_scope.
Notation "m ;; k" := (Run.bind m (fun _ => k))
  (at level 100, k at level 200, only parsing, right associativity) : run_scope.

(** ** [safe_excel_operation], every statement of it *)

(** The two functions once more, now with the [print] and
    [traceback.print_exc] calls of their [except] clauses and with a
    wrapped function that may leave through an exception outside
    [Exception].  On a working console and a wrapped function that
    raises instances of [Exception] only they are the functions of the
    modules [excel_agnet] and [backend_service] above (lemma
    [guard_without_exits]). *)
Module Complete.

(** The [finally] block. *)
Definition release (console : Console) : Run (Locals * World) unit :=
  (s <- Run.get ;;
   (match l_book (fst s) with
    | Some book =>
        Run.try_except
          (Run.no_exit (lift (xw.close book)))
          [(Exception, fun close_e =>
              Run.print console ("Error closing book: " ++ exn_msg close_e))]
    | None => Run.ret tt
    end) ;;
   (match l_app (fst s) with
    | Some _ => Run.ret tt
    | None => Run.ret tt
    end))%run.

(** The [try] block up to the value of [func]. *)
Definition open_and_run (func : xw.Book -> Run World PyVal) : Run (Locals * World) PyVal :=
  (app <- Run.no_exit (lift xw.App) ;;
   Run.no_exit (assign_app app) ;;
   found <- Run.no_exit (lift (xw.path_exists EXCEL_FILE_PATH)) ;;
   (if negb found
    then Run.raise (mkExn FileNotFoundError ("Excel file not found: " ++ EXCEL_FILE_PATH))
    else Run.ret tt) ;;
   book <- Run.no_exit (lift (xw.books_open app EXCEL_FILE_PATH)) ;;
   Run.no_exit (assign_book book) ;;
   result <- Run.lift (func book) ;;
   Run.no_exit (lift (xw.save book)) ;;
   Run.ret result)%run.

Module excel_agnet.

Definition safe_excel_operation (console : Console) (func : xw.Book -> Run World PyVal)
  : Run World PyVal :=
  Run.with_locals (mkLocals None None)
    (Run.try_finally
       (Run.try_except
          (result <- open_and_run func ;;
           Run.ret result)%run
          [(FileNotFoundError, fun e =>
              (Run.print console ("Caught FileNotFoundError: " ++ exn_msg e) ;;
               Run.ret (PyStr ("Error: " ++ exn_msg e)))%run);
           (Exception, fun e =>
              (Run.print console ("Caught Excel Exception: " ++ exn_msg e) ;;
               Run.print_exc console ;;
               Run.ret (PyStr ("An Excel error occurred: " ++ exn_msg e)))%run)])
       (release console)).

End excel_agnet.

Module backend_service.

Definition safe_excel_operation (console : Console) (func : xw.Book -> Run World PyVal)
  : Run World PyVal :=
  Run.with_locals (mkLocals None None)
    (Run.try_finally
       (Run.try_except
          (result <- open_and_run func ;;
           Run.ret (PyDict [("status", PyStr "success"); ("result", result)]))%run
          [(FileNotFoundError, fun e =>
              (Run.print console ("Caught FileNotFoundError: " ++ exn_msg e) ;;
               Run.ret (PyDict [("status", PyStr "error");
                                ("message", PyStr ("Error: " ++ exn_msg e))]))%run);
           (Exception, fun e =>
              (Run.print console ("Caught Excel Exception: " ++ exn_msg e) ;;
               Run.print_exc console ;;
               Run.ret (PyDict [("status", PyStr "error");
                                ("message",
                                 PyStr ("An Excel error occurred: " ++ exn_msg e))]))%run)])
       (release console)).

End backend_service.

(** The common text of the two, with the values of the three exits as
    parameters. *)
Definition session_guard (console : Console)
           (on_success : PyVal -> PyVal) (on_not_found on_error : Exn -> PyVal)
           (func : xw.Book -> Run World PyVal) : Run World PyVal :=
  Run.with_locals (mkLocals None None)
    (Run.try_finally
       (Run.try_except
          (result <- open_and_run func ;;
           Run.ret (on_success result))%run
          [(FileNotFoundError, fun e =>
              (Run.print console ("Caught FileNotFoundError: " ++ exn_msg e) ;;
               Run.ret (on_not_found e))%run);
           (Exception, fun e =>
              (Run.print console ("Caught Excel Exception: " ++ exn_msg e) ;;
               Run.print_exc console ;;
               Run.ret (on_error e))%run)])
       (release console)).

(** How an [except] clause ends for an exception: with its value, or
    with what one of its diagnostic calls raises. *)
Definition handled (console : Console) (on_not_found on_error : Exn -> PyVal) (e : Exn)
  : Completion PyVal :=
  if isinstance e FileNotFoundError
  then match print_fault console ("Caught FileNotFoundError: " ++ exn_msg e) with
       | Some pe => Finished (Raised pe)
       | None => Finished (Returned (on_not_found e))
       end
  else match print_fault console ("Caught Excel Exception: " ++ exn_msg e) with
       | Some pe => Finished (Raised pe)
       | None =>
           match print_exc_fault console with
           | Some pe => Finished (Raised pe)
           | None => Finished (Returned (on_error e))
           end
       end.

(** How the call ends once the [finally] block has run on the locals
    [l] in the world [w], [c] being how the [try] statement ended: a
    failing close is reported by [print], and if that [print] raises,
    its exception is what leaves the function. *)
Definition released (console : Console) (l : Locals) (w : World) (c : Completion PyVal)
  : Completion PyVal :=
  match l_book l with
  | None => c
  | Some book =>
      match fst (xw.close book w) with
      | Returned _ => c
      | Raised close_e =>
          match print_fault console ("Error closing book: " ++ exn_msg close_e) with
          | Some pe => Finished (Raised pe)
          | None => c
          end
      end
  end.

(** [e] is what one of the diagnostic calls raises on the console. *)
Definition raised_by_diagnostics (console : Console) (e : Exn) : Prop :=
  (exists line, print_fault console line = Some e) \/ print_exc_fault console = Some e.

(** The dicts [backend_service.safe_excel_operation] returns. *)
Definition status_dict (v : PyVal) : Prop :=
  (exists result, v = PyDict [("status", PyStr "success"); ("result", result)])
  \/ (exists message, v = PyDict [("status", PyStr "error"); ("message", PyStr message)]).

End Complete.

(** An operation the user interrupts: pressing Ctrl-C while it runs
    raises [KeyboardInterrupt] in it. *)
Definition interrupted (book : xw.Book) : Run World PyVal :=
  Run.exit (mkExit KeyboardInterrupt "").

(* ===================================================================== *)
(** * Properties of the Session Guard *)
(* ===================================================================== *)

Section SessionGuard.

Lemma agnet_guard func :
  excel_agnet.safe_excel_operation func
  = session_guard (fun result => result)
                  (fun e => PyStr ("Error: " ++ exn_msg e))
                  (fun e => PyStr ("An Excel error occurred: " ++ exn_msg e)) func.
Proof. reflexivity. Qed.

Lemma backend_guard func :
  backend_service.safe_excel_operation func
  = session_guard
      (fun result => PyDict [("status", PyStr "success"); ("result", result)])
      (fun e => PyDict [("status", PyStr "error");
                        ("message", PyStr ("Error: " ++ exn_msg e))])
      (fun e => PyDict [("status", PyStr "error");
                        ("message", PyStr ("An Excel error occurred: " ++ exn_msg e))])
      func.
Proof. reflexivity. Qed.

(** The [finally] block never raises; its effect is [finish]. *)
Lemma release_eq (l : Locals) (w : World) :
  release (l, w) = (Returned tt, (l, finish l w)).
Proof.
  destruct l as [app [book|]];
    cbv [release bind get try_except lift ret find_clause isinstance
         fst snd l_book l_app finish].
  - destruct (xw.close book w) as [[[]|e] w']; destruct app; reflexivity.
  - destruct app; reflexivity.
Qed.

(** The [try] block, path by path. *)
Lemma open_and_run_eq func (w : World) :
  open_and_run func (mkLocals None None, w)
  = match enter w with
    | inl (e, s) => (Raised e, s)
    | inr (book, (l, w1)) =>
        match func book w1 with
        | (Raised e, w2) => (Raised e, (l, w2))
        | (Returned result, w2) =>
            match xw.save book w2 with
            | (Returned _, w3) => (Returned result, (l, w3))
            | (Raised e, w3) => (Raised e, (l, w3))
            end
        end
    end.
Proof.
  destruct w as [fs [af opf sf cf] n nb op lg].
  cbv [open_and_run enter bind lift ret raise get modify emit xw.App xw.path_exists
       xw.books_open assign_app assign_book fst snd negb
       faults files apps next_book opened log add_log set_apps set_opened set_next_book
       app_fault open_fault l_app l_book].
  destruct af as [e|]; [reflexivity|].
  destruct (fs !! EXCEL_FILE_PATH) as [wb|] eqn:Hfile; [|reflexivity].
  rewrite ?Hfile.
  destruct opf as [e|]; [reflexivity|].
  match goal with |- context [func ?b ?w1] => destruct (func b w1) as [[r|e] w2] end;
    [|reflexivity].
  match goal with |- context [xw.save ?b ?w] => destruct (xw.save b w) as [[[]|e] w3] end;
    reflexivity.
Qed.

(** The guard, path by path: the value of each exit and the world it
    leaves. *)
Lemma session_guard_eq on_success on_not_found on_error func (w : World) :
  session_guard on_success on_not_found on_error func w
  = match enter w with
    | inl (e, (l, w1)) => (Returned (handled on_not_found on_error e), finish l w1)
    | inr (book, (l, w1)) =>
        match func book w1 with
        | (Raised e, w2) => (Returned (handled on_not_found on_error e), finish l w2)
        | (Returned result, w2) =>
            match xw.save book w2 with
            | (Returned _, w3) => (Returned (on_success result), finish l w3)
            | (Raised e, w3) => (Returned (handled on_not_found on_error e), finish l w3)
            end
        end
    end.
Proof.
  unfold session_guard, with_locals, try_finally, try_except, bind at 1.
  rewrite open_and_run_eq.
  destruct (enter w) as [[e [l w1]] | [book [l w1]]].
  - unfold handled. cbn [find_clause].
    destruct (isinstance e FileNotFoundError); cbn [isinstance ret];
      rewrite release_eq; reflexivity.
  - destruct (func book w1) as [[r|e] w2].
    + destruct (xw.save book w2) as [[[]|e] w3].
      * cbn [ret]. rewrite release_eq. reflexivity.
      * unfold handled. cbn [find_clause].
        destruct (isinstance e FileNotFoundError); cbn [isinstance ret];
          rewrite release_eq; reflexivity.
    + unfold handled. cbn [find_clause].
      destruct (isinstance e FileNotFoundError); cbn [isinstance ret];
        rewrite release_eq; reflexivity.
Qed.

(** ** The two calls that end a session *)

Lemma save_eq (book : xw.Book) (w : World) :
  xw.save book w
  = match save_fault (faults w) with
    | Some e => (Raised e, add_log (EvSave book) w)
    | None =>
        match opened w !! book with
        | None => (Raised xw.closed_book, add_log (EvSave book) w)
        | Some (path, wb) =>
            (Returned tt, set_files (<[path := wb]> (files w)) (add_log (EvSave book) w))
        end
    end.
Proof.
  destruct w as [fs [af opf sf cf] n nb op lg].
  cbv [xw.save bind emit modify get raise ret add_log set_files
       faults files apps next_book opened log save_fault].
  destruct sf; [reflexivity|]. destruct (op !! book) as [[path wb]|]; reflexivity.
Qed.

Lemma close_world (book : xw.Book) (w : World) :
  snd (xw.close book w)
  = match close_fault (faults w) with
    | Some e => add_log (EvClose book) w
    | None =>
        match opened w !! book with
        | None => add_log (EvClose book) w
        | Some _ => set_opened (delete book (opened w)) (add_log (EvClose book) w)
        end
    end.
Proof.
  destruct w as [fs [af opf sf cf] n nb op lg].
  cbv [xw.close bind emit modify get raise ret add_log set_opened snd
       faults files apps next_book opened log close_fault].
  destruct cf; [reflexivity|]. destruct (op !! book) as [[path wb]|]; reflexivity.
Qed.

Lemma close_log book w : log (snd (xw.close book w)) = (log w ++ [EvClose book])%list.
Proof.
  rewrite close_world.
  destruct (close_fault (faults w)); [reflexivity|].
  destruct (opened w !! book); reflexivity.
Qed.

Lemma close_files book w : files (snd (xw.close book w)) = files w.
Proof.
  rewrite close_world.
  destruct (close_fault (faults w)); [reflexivity|].
  destruct (opened w !! book); reflexivity.
Qed.

Lemma close_faults book w : faults (snd (xw.close book w)) = faults w.
Proof.
  rewrite close_world.
  destruct (close_fault (faults w)); [reflexivity|].
  destruct (opened w !! book); reflexivity.
Qed.

Lemma close_apps book w : apps (snd (xw.close book w)) = apps w.
Proof.
  rewrite close_world.
  destruct (close_fault (faults w)); [reflexivity|].
  destruct (opened w !! book); reflexivity.
Qed.

(** A close that does not fail leaves the handle closed. *)
Lemma close_releases book w :
  close_fault (faults w) = None -> opened (snd (xw.close book w)) !! book = None.
Proof.
  intros Hcf. rewrite close_world, Hcf.
  destruct (opened w !! book) eqn:Hop; cbn [opened set_opened add_log].
  - apply lookup_delete_eq.
  - exact Hop.
Qed.

(** ** What [enter] leaves behind *)

Lemma enter_failed w e l w1 :
  enter w = inl (e, (l, w1)) ->
  l_book l = None /\ opened w1 = opened w /\ files w1 = files w /\ faults w1 = faults w
  /\ exists evs, log w1 = (log w ++ evs)%list
                 /\ no_content_write evs.
Proof.
  unfold enter, no_content_write.
  destruct (app_fault (faults w)).
  { intros [= <- <- <-]. repeat split.
    exists [EvApp]. split; [reflexivity | repeat constructor]. }
  destruct (files w !! EXCEL_FILE_PATH).
  2:{ intros [= <- <- <-]. repeat split.
      exists [EvApp]. split; [reflexivity | repeat constructor]. }
  destruct (open_fault (faults w)); [|discriminate].
  intros [= <- <- <-]. repeat split.
  exists [EvApp; EvOpen EXCEL_FILE_PATH]. split; [|repeat constructor].
  cbn [log add_log set_apps]. rewrite <- app_assoc. reflexivity.
Qed.

Lemma enter_opened w book l w1 :
  enter w = inr (book, (l, w1)) ->
  exists wb, session_opens w wb /\ book = next_book w /\ l_book l = Some book
             /\ w1 = opened_world w wb.
Proof.
  unfold enter, session_opens.
  destruct (app_fault (faults w)); [discriminate|].
  destruct (files w !! EXCEL_FILE_PATH) as [wb|]; [|discriminate].
  destruct (open_fault (faults w)); [discriminate|].
  intros [= <- <- <-]. exists wb. repeat split.
Qed.

Lemma enter_session_opens w wb :
  session_opens w wb ->
  enter w = inr (next_book w,
                 (mkLocals (Some (apps w)) (Some (next_book w)), opened_world w wb)).
Proof.
  intros (Ha & Ho & Hf). unfold enter. rewrite Ha, Hf, Ho. reflexivity.
Qed.

End SessionGuard.

(** C2, counterexample.  After a successful call on the sample world the
    document is closed but the application the guard started is still
    running. *)
Lemma application_handle_left_running :
  ~ all_handles_released
      sample_world
      (snd (excel_agnet.safe_excel_operation
              (fun book => Inner._get_sheet_names book) sample_world))
  /\ ~ all_handles_released
        sample_world
        (snd (backend_service.safe_excel_operation
                (fun book => Inner._get_sheet_names book) sample_world)).
Proof.
  split; intros [Happs _]; vm_compute in Happs; discriminate Happs.
Qed.

(** C2, as amended.  On every exit path on which the guard opened the
    document (success, an exception of the wrapped operation, a failing
    save) the last library call before it returns is [close] on that
    document, and if that close does not fail the handle is no longer
    open; on the paths that end before a document is open no document
    handle is held.  The [finally] block never quits the application. *)
Theorem session_guard_closes_document :
  forall (func : xw.Book -> St World PyVal) (w : World),
    let closed (w' : World) :=
      match guard_book w with
      | Some book =>
          last (log w') = Some (EvClose book)
          /\ (close_fault (faults w') = None -> opened w' !! book = None)
      | None => opened w' = opened w
      end in
    closed (snd (excel_agnet.safe_excel_operation func w))
    /\ closed (snd (backend_service.safe_excel_operation func w))
    /\ (forall l w1, apps (snd (snd (release (l, w1)))) = apps w1).
Proof.
  intros func w closed.
  assert (Hfinish : forall l w2 book,
             l_book l = Some book ->
             last (log (finish l w2)) = Some (EvClose book)
             /\ (close_fault (faults (finish l w2)) = None ->
                 opened (finish l w2) !! book = None)).
  { intros l w2 book Hl. unfold finish. rewrite Hl. split.
    - rewrite close_log. apply last_snoc.
    - rewrite close_faults. apply close_releases. }
  assert (Hguard : forall f g h, closed (snd (session_guard f g h func w))).
  { intros f g h. subst closed. cbv beta. unfold guard_book.
    rewrite session_guard_eq.
    destruct (enter w) as [[e [l w1]] | [book [l w1]]] eqn:Henter.
    - destruct (enter_failed _ _ _ _ Henter) as (Hl & Hop & _).
      cbn [snd]. unfold finish. rewrite Hl. exact Hop.
    - destruct (enter_opened _ _ _ _ Henter) as (wb & _ & _ & Hl & _).
      destruct (func book w1) as [[r|e] w2]; [|apply Hfinish, Hl].
      destruct (xw.save book w2) as [[[]|e] w3]; apply Hfinish, Hl. }
  split; [rewrite agnet_guard; apply Hguard|].
  split; [rewrite backend_guard; apply Hguard|].
  intros l w1. rewrite release_eq. cbn [snd]. unfold finish.
  destruct (l_book l); [apply close_apps | reflexivity].
Qed.
(* ===================================================================== *)
(** * The Session Guard and the exceptions it does not catch *)
(* ===================================================================== *)

Section CompleteGuard.

Lemma complete_agnet_guard console func :
  Complete.excel_agnet.safe_excel_operation console func
  = Complete.session_guard console (fun result => result)
      (fun e => PyStr ("Error: " ++ exn_msg e))
      (fun e => PyStr ("An Excel error occurred: " ++ exn_msg e)) func.
Proof. reflexivity. Qed.

Lemma complete_backend_guard console func :
  Complete.backend_service.safe_excel_operation console func
  = Complete.session_guard console
      (fun result => PyDict [("status", PyStr "success"); ("result", result)])
      (fun e => PyDict [("status", PyStr "error");
                        ("message", PyStr ("Error: " ++ exn_msg e))])
      (fun e => PyDict [("status", PyStr "error");
                        ("message", PyStr ("An Excel error occurred: " ++ exn_msg e))])
      func.
Proof. reflexivity. Qed.

(** The [try] statement followed by the [finally] block: the document of
    the locals is closed, and the call ends as [Complete.released]
    says. *)
Lemma complete_finally console (body : Run (Locals * World) PyVal) (s : Locals * World) :
  Run.try_finally body (Complete.release console) s
  = match body s with
    | (c, (l, w)) => (Complete.released console l w c, (l, finish l w))
    end.
Proof.
  unfold Run.try_finally.
  destruct (body s) as [c [[app [book|]] w]];
    cbv [Complete.release Complete.released Run.bind Run.get Run.try_except Run.no_exit
         lift Run.ret Run.find_clause isinstance Run.print Run.raise
         fst snd l_book l_app finish].
  - destruct (xw.close book w) as [[[]|close_e] w'].
    + destruct app; reflexivity.
    + destruct (print_fault console ("Error closing book: " ++ exn_msg close_e)) as [pe|];
        [reflexivity|].
      destruct app; reflexivity.
  - destruct app; reflexivity.
Qed.

(** The [try] block, path by path. *)
Lemma complete_open_and_run_eq func (w : World) :
  Complete.open_and_run func (mkLocals None None, w)
  = match enter w with
    | inl (e, s) => (Finished (Raised e), s)
    | inr (book, (l, w1)) =>
        match func book w1 with
        | (Exited x, w2) => (Exited x, (l, w2))
        | (Finished (Raised e), w2) => (Finished (Raised e), (l, w2))
        | (Finished (Returned result), w2) =>
            match xw.save book w2 with
            | (Returned _, w3) => (Finished (Returned result), (l, w3))
            | (Raised e, w3) => (Finished (Raised e), (l, w3))
            end
        end
    end.
Proof.
  destruct w as [fs [af opf sf cf] n nb op lg].
  cbv [Complete.open_and_run enter Run.bind Run.no_exit Run.lift Run.ret Run.raise
       bind lift ret raise get modify emit xw.App xw.path_exists
       xw.books_open assign_app assign_book fst snd negb
       faults files apps next_book opened log add_log set_apps set_opened set_next_book
       app_fault open_fault l_app l_book].
  destruct af as [e|]; [reflexivity|].
  destruct (fs !! EXCEL_FILE_PATH) as [wb|] eqn:Hfile; [|reflexivity].
  rewrite ?Hfile.
  destruct opf as [e|]; [reflexivity|].
  match goal with |- context [func ?b ?w1] => destruct (func b w1) as [[[r|e]|x] w2] end;
    [|reflexivity|reflexivity].
  match goal with |- context [xw.save ?b ?w] => destruct (xw.save b w) as [[[]|e] w3] end;
    reflexivity.
Qed.

(** An [except] clause of the guard on an exception. *)
Lemma complete_handled console (on_not_found on_error : Exn -> PyVal)
      (k : Run (Locals * World) PyVal) (e : Exn) (s s' : Locals * World) :
  k s = (Finished (Raised e), s') ->
  Run.try_except k
    [(FileNotFoundError, fun e =>
        (Run.print console ("Caught FileNotFoundError: " ++ exn_msg e) ;;
         Run.ret (on_not_found e))%run);
     (Exception, fun e =>
        (Run.print console ("Caught Excel Exception: " ++ exn_msg e) ;;
         Run.print_exc console ;;
         Run.ret (on_error e))%run)] s
  = (Complete.handled console on_not_found on_error e, s').
Proof.
  intros Hk. unfold Run.try_except. rewrite Hk.
  unfold Complete.handled. cbn [Run.find_clause].
  destruct (isinstance e FileNotFoundError).
  - cbv [Run.bind Run.print Run.raise Run.ret].
    destruct (print_fault console _); reflexivity.
  - cbv [isinstance Run.bind Run.print Run.print_exc Run.raise Run.ret].
    destruct (print_fault console _); [reflexivity|].
    destruct (print_exc_fault console); reflexivity.
Qed.

(** The guard, path by path: how each exit ends and the world it
    leaves. *)
Lemma complete_guard_eq console on_success on_not_found on_error func (w : World) :
  Complete.session_guard console on_success on_not_found on_error func w
  = match enter w with
    | inl (e, (l, w1)) =>
        (Complete.released console l w1
           (Complete.handled console on_not_found on_error e),
         finish l w1)
    | inr (book, (l, w1)) =>
        match func book w1 with
        | (Exited x, w2) => (Complete.released console l w2 (Exited x), finish l w2)
        | (Finished (Raised e), w2) =>
            (Complete.released console l w2
               (Complete.handled console on_not_found on_error e),
             finish l w2)
        | (Finished (Returned result), w2) =>
            match xw.save book w2 with
            | (Returned _, w3) =>
                (Complete.released console l w3 (Finished (Returned (on_success result))),
                 finish l w3)
            | (Raised e, w3) =>
                (Complete.released console l w3
                   (Complete.handled console on_not_found on_error e),
                 finish l w3)
            end
        end
    end.
Proof.
  unfold Complete.session_guard, Run.with_locals. rewrite complete_finally.
  pose proof (complete_open_and_run_eq func w) as Hrun.
  destruct (enter w) as [[e [l w1]] | [book [l w1]]].
  - rewrite (complete_handled console on_not_found on_error _ e _ (l, w1)).
    + reflexivity.
    + unfold Run.bind at 1. rewrite Hrun. reflexivity.
  - destruct (func book w1) as [[[r|e]|x] w2].
    + destruct (xw.save book w2) as [[[]|e] w3].
      * unfold Run.try_except, Run.bind at 1. rewrite Hrun. reflexivity.
      * rewrite (complete_handled console on_not_found on_error _ e _ (l, w3)).
        -- reflexivity.
        -- unfold Run.bind at 1. rewrite Hrun. reflexivity.
    + rewrite (complete_handled console on_not_found on_error _ e _ (l, w2)).
      * reflexivity.
      * unfold Run.bind at 1. rewrite Hrun. reflexivity.
    + unfold Run.try_except, Run.bind at 1. rewrite Hrun. reflexivity.
Qed.

(** On a working console the [except] clauses return their values and
    the [finally] block changes no result. *)
Lemma working_handled on_not_found on_error (e : Exn) :
  Complete.handled working_console on_not_found on_error e
  = Finished (Returned (handled on_not_found on_error e)).
Proof.
  unfold Complete.handled, handled. cbn [print_fault print_exc_fault working_console].
  destruct (isinstance e FileNotFoundError); reflexivity.
Qed.

Lemma working_released (l : Locals) (w : World) (c : Completion PyVal) :
  Complete.released working_console l w c = c.
Proof.
  unfold Complete.released. cbn [print_fault working_console].
  destruct (l_book l) as [book|]; [|reflexivity].
  destruct (fst (xw.close book w)); reflexivity.
Qed.

Lemma session_guard_without_exits on_success on_not_found on_error
      (func : xw.Book -> St World PyVal) (w : World) :
  Complete.session_guard working_console on_success on_not_found on_error
    (fun book => Run.no_exit (func book)) w
  = Run.no_exit (session_guard on_success on_not_found on_error func) w.
Proof.
  rewrite complete_guard_eq. unfold Run.no_exit. rewrite session_guard_eq.
  destruct (enter w) as [[e [l w1]] | [book [l w1]]].
  - rewrite working_released, working_handled. reflexivity.
  - destruct (func book w1) as [[r|e] w2].
    + destruct (xw.save book w2) as [[[]|e] w3];
        rewrite working_released, ?working_handled; reflexivity.
    + rewrite working_released, working_handled. reflexivity.
Qed.

(** On a working console and a wrapped function that raises instances
    of [Exception] only, the two functions are those of the modules
    [excel_agnet] and [backend_service]. *)
Lemma guard_without_exits (func : xw.Book -> St World PyVal) (w : World) :
  Complete.excel_agnet.safe_excel_operation working_console
    (fun book => Run.no_exit (func book)) w
  = Run.no_exit (excel_agnet.safe_excel_operation func) w
  /\ Complete.backend_service.safe_excel_operation working_console
       (fun book => Run.no_exit (func book)) w
     = Run.no_exit (backend_service.safe_excel_operation func) w.
Proof.
  rewrite complete_agnet_guard, complete_backend_guard, agnet_guard, backend_guard.
  split; apply session_guard_without_exits.
Qed.

(** How a completion of the guard is accounted for: a value of the kind
    [is_value], an exception of a diagnostic call, or an exception
    outside [Exception] that the wrapped function raised. *)
Lemma complete_guard_ends console on_success on_not_found on_error func (w : World)
      (is_value : PyVal -> Prop) :
  (forall result, is_value (on_success result)) ->
  (forall e, is_value (handled on_not_found on_error e)) ->
  match fst (Complete.session_guard console on_success on_not_found on_error func w) with
  | Finished (Returned v) => is_value v
  | Finished (Raised e) => Complete.raised_by_diagnostics console e
  | Exited x => exists book w1 w2, func book w1 = (Exited x, w2)
  end.
Proof.
  intros Hok Herr.
  assert (Hhandled : forall e,
             match Complete.handled console on_not_found on_error e with
             | Finished (Returned v) => is_value v
             | Finished (Raised pe) => Complete.raised_by_diagnostics console pe
             | Exited _ => False
             end).
  { intros e. specialize (Herr e). unfold Complete.handled, handled in *.
    destruct (isinstance e FileNotFoundError).
    - destruct (print_fault console _) as [pe|] eqn:Hp; [left; eauto|exact Herr].
    - destruct (print_fault console _) as [pe|] eqn:Hp; [left; eauto|].
      destruct (print_exc_fault console) as [pe|] eqn:Hx; [right; exact Hx|exact Herr]. }
  assert (Hreleased : forall l w' (c : Completion PyVal) (P : Completion PyVal -> Prop),
             P c ->
             (forall pe, Complete.raised_by_diagnostics console pe ->
                         P (Finished (Raised pe))) ->
             P (Complete.released console l w' c)).
  { intros l w' c P Hc Hpe. unfold Complete.released.
    destruct (l_book l) as [book|]; [|exact Hc].
    destruct (fst (xw.close book w')) as [[]|close_e]; [exact Hc|].
    destruct (print_fault console _) as [pe|] eqn:Hp; [|exact Hc].
    apply Hpe. left. eauto. }
  rewrite complete_guard_eq.
  destruct (enter w) as [[e [l w1]] | [book [l w1]]].
  - cbn [fst]. apply Hreleased; [|intros pe Hpe; exact Hpe].
    pose proof (Hhandled e) as He.
    destruct (Complete.handled console on_not_found on_error e) as [[v|pe]|x];
      [exact He|exact He|destruct He].
  - destruct (func book w1) as [[[r|e]|x] w2] eqn:Hfunc.
    + destruct (xw.save book w2) as [[[]|e] w3]; cbn [fst].
      * apply Hreleased; [apply Hok|intros pe Hpe; exact Hpe].
      * apply Hreleased; [|intros pe Hpe; exact Hpe].
        pose proof (Hhandled e) as He.
        destruct (Complete.handled console on_not_found on_error e) as [[v|pe]|x];
          [exact He|exact He|destruct He].
    + cbn [fst]. apply Hreleased; [|intros pe Hpe; exact Hpe].
      pose proof (Hhandled e) as He.
      destruct (Complete.handled console on_not_found on_error e) as [[v|pe]|x'];
        [exact He|exact He|destruct He].
    + cbn [fst]. apply Hreleased; [eauto|intros pe Hpe; exact Hpe].
Qed.

End CompleteGuard.

(** C10, counterexample.  On the sample world, where nothing fails, an
    operation that is interrupted leaves both [safe_excel_operation]
    through [KeyboardInterrupt]: neither returns.  The library calls
    made are the start of the application, the opening of the document
    and, in the [finally] block, its close. *)
Lemma interrupted_operation_is_not_caught :
  Complete.excel_agnet.safe_excel_operation working_console interrupted sample_world
  = (Exited (mkExit KeyboardInterrupt ""),
     mkWorld {[ EXCEL_FILE_PATH := sample_workbook ]} no_faults 1 1 ∅
             [EvApp; EvOpen EXCEL_FILE_PATH; EvClose 0])
  /\ Complete.backend_service.safe_excel_operation working_console interrupted sample_world
     = (Exited (mkExit KeyboardInterrupt ""),
        mkWorld {[ EXCEL_FILE_PATH := sample_workbook ]} no_faults 1 1 ∅
                [EvApp; EvOpen EXCEL_FILE_PATH; EvClose 0]).
Proof.
  split; vm_compute; reflexivity.
Qed.

(** C10, as amended.  The spreadsheet library raising instances of
    [Exception] only: whatever the console, the wrapped function and
    the world, a call of [safe_excel_operation] ends in one of three
    ways.
    It returns, and in [backend_service.py] the value is a dict with
    the keys [status] and [result], [status] being [success], or with
    the keys [status] and [message], [status] being [error].  Or it
    raises an exception that one of the diagnostic calls of its
    [except] clauses ([print], [traceback.print_exc]) raised.  Or it
    leaves through an exception outside [Exception]
    ([KeyboardInterrupt], [SystemExit], [GeneratorExit]) that the
    wrapped function raised.  So every instance of [Exception] that the
    spreadsheet library or the wrapped function raises is caught. *)
Theorem safe_excel_operation_catches_exception_instances :
  forall (console : Console) (func : xw.Book -> Run World PyVal) (w : World),
    let ends (is_value : PyVal -> Prop) (c : Completion PyVal) :=
      match c with
      | Finished (Returned v) => is_value v
      | Finished (Raised e) => Complete.raised_by_diagnostics console e
      | Exited x => exists book w1 w2, func book w1 = (Exited x, w2)
      end in
    ends (fun _ => True)
         (fst (Complete.excel_agnet.safe_excel_operation console func w))
    /\ ends Complete.status_dict
            (fst (Complete.backend_service.safe_excel_operation console func w)).
Proof.
  intros console func w ends. subst ends. cbv beta.
  rewrite complete_agnet_guard, complete_backend_guard. split.
  - apply (complete_guard_ends console (fun result => result)
             (fun e => PyStr ("Error: " ++ exn_msg e))
             (fun e => PyStr ("An Excel error occurred: " ++ exn_msg e))
             func w (fun _ => True)); intros; exact I.
  - apply (complete_guard_ends console
             (fun result => PyDict [("status", PyStr "success"); ("result", result)])
             (fun e => PyDict [("status", PyStr "error");
                               ("message", PyStr ("Error: " ++ exn_msg e))])
             (fun e => PyDict [("status", PyStr "error");
                               ("message",
                                PyStr ("An Excel error occurred: " ++ exn_msg e))])
             func w Complete.status_dict).
    + intros result. left. eauto.
    + intros e. right. unfold handled.
      destruct (isinstance e FileNotFoundError); eauto.
Qed.

(* ===================================================================== *)
(** * Properties of the spreadsheet tools *)
(* ===================================================================== *)

Section Workbooks.

Lemma str_in_get_sheet (wb : Workbook) (s : string) :
  str_in s (map fst wb) = true -> exists cs, xw.get_sheet wb s = Some cs.
Proof.
  induction wb as [|[n cs] wb IH]; cbn [map fst str_in existsb xw.get_sheet].
  - discriminate.
  - rewrite (String.eqb_sym s n). destruct (String.eqb n s); [eauto|exact IH].
Qed.

Lemma get_sheet_str_in (wb : Workbook) (s : string) cs :
  xw.get_sheet wb s = Some cs -> str_in s (map fst wb) = true.
Proof.
  induction wb as [|[n cs'] wb IH]; cbn [map fst str_in existsb xw.get_sheet].
  - discriminate.
  - rewrite (String.eqb_sym s n). destruct (String.eqb n s); [reflexivity|exact IH].
Qed.

Lemma set_sheet_names (wb : Workbook) s cs :
  map fst (xw.set_sheet wb s cs) = map fst wb.
Proof.
  induction wb as [|[n cs'] wb IH]; [reflexivity|].
  cbn [xw.set_sheet]. destruct (String.eqb n s); cbn [map fst]; [reflexivity|].
  f_equal. exact IH.
Qed.

Lemma get_set_sheet (wb : Workbook) s cs0 cs :
  xw.get_sheet wb s = Some cs0 -> xw.get_sheet (xw.set_sheet wb s cs) s = Some cs.
Proof.
  induction wb as [|[n cs'] wb IH]; [discriminate|].
  cbn [xw.get_sheet xw.set_sheet]. destruct (String.eqb n s) eqn:Hn.
  - intros _. cbn [xw.get_sheet]. rewrite Hn. reflexivity.
  - intros H. cbn [xw.get_sheet]. rewrite Hn. apply IH, H.
Qed.

End Workbooks.

(** ** The library calls on an open document *)
Section Primitives.

Variables (book : xw.Book) (w : World) (path : string) (wb : Workbook).
Hypothesis Hopen : opened w !! book = Some (path, wb).

Lemma sheet_names_eq : xw.sheet_names book w = (Returned (map fst wb), w).
Proof. cbv [xw.sheet_names bind get ret]. rewrite Hopen. reflexivity. Qed.

Lemma sheets_getitem_eq s cs :
  xw.get_sheet wb s = Some cs ->
  xw.sheets_getitem book s w = (Returned (xw.mkSheet book s), w).
Proof.
  intros Hs. cbv [xw.sheets_getitem bind get ret]. rewrite Hopen, Hs. reflexivity.
Qed.

Lemma resolve_eq s cs address ev :
  xw.get_sheet wb s = Some cs ->
  xw.resolve (xw.mkSheet book s) address (add_log ev w)
  = match A1.parse_address address with
    | Some R => (Returned (path, wb, cs, R), add_log ev w)
    | None => (Raised (mkExn com_error ("invalid address '" ++ address ++ "'")),
               add_log ev w)
    end.
Proof.
  intros Hs. cbv [xw.resolve bind get ret raise xw.sheet_book xw.sheet_name].
  change (opened (add_log ev w)) with (opened w). rewrite Hopen, Hs.
  destruct (A1.parse_address address); reflexivity.
Qed.

Lemma range_value_eq s cs address :
  xw.get_sheet wb s = Some cs ->
  xw.range_value (xw.mkSheet book s) address w
  = match A1.parse_address address with
    | Some R => (Returned (Range.read cs R), add_log (EvRead book s address) w)
    | None => (Raised (mkExn com_error ("invalid address '" ++ address ++ "'")),
               add_log (EvRead book s address) w)
    end.
Proof.
  intros Hs. unfold xw.range_value, bind at 1, emit, modify, bind.
  cbn [xw.sheet_book xw.sheet_name].
  rewrite (resolve_eq s cs address _ Hs).
  destruct (A1.parse_address address); reflexivity.
Qed.

Lemma set_range_value_eq s cs address v :
  xw.get_sheet wb s = Some cs ->
  xw.set_range_value (xw.mkSheet book s) address v w
  = match A1.parse_address address with
    | Some R =>
        match Range.write cs R v with
        | inl cs' =>
            (Returned tt,
             set_opened (<[book := (path, xw.set_sheet wb s cs')]> (opened w))
                        (add_log (EvWrite book s address v) w))
        | inr e => (Raised e, add_log (EvWrite book s address v) w)
        end
    | None => (Raised (mkExn com_error ("invalid address '" ++ address ++ "'")),
               add_log (EvWrite book s address v) w)
    end.
Proof.
  intros Hs. unfold xw.set_range_value, bind at 1, emit, modify, bind.
  cbn [xw.sheet_book xw.sheet_name].
  rewrite (resolve_eq s cs address _ Hs).
  destruct (A1.parse_address address) as [R|]; [|reflexivity].
  destruct (Range.write cs R v); reflexivity.
Qed.

Lemma clear_contents_eq s cs address :
  xw.get_sheet wb s = Some cs ->
  xw.clear_contents (xw.mkSheet book s) address w
  = match A1.parse_address address with
    | Some R =>
        (Returned tt,
         set_opened (<[book := (path, xw.set_sheet wb s (Range.clear cs R))]> (opened w))
                    (add_log (EvClear book s address) w))
    | None => (Raised (mkExn com_error ("invalid address '" ++ address ++ "'")),
               add_log (EvClear book s address) w)
    end.
Proof.
  intros Hs. unfold xw.clear_contents, bind at 1, emit, modify, bind.
  cbn [xw.sheet_book xw.sheet_name].
  rewrite (resolve_eq s cs address _ Hs).
  destruct (A1.parse_address address) as [R|]; reflexivity.
Qed.

End Primitives.

(** ** The inner functions on an open document *)
Section InnerFunctions.
Import Inner.

Variables (book : xw.Book) (w : World) (path : string) (wb : Workbook).
Hypothesis Hopen : opened w !! book = Some (path, wb).

Local Ltac enter_inner :=
  cbv [inner_of _read_cell _write_cell _read_range _write_range _clear_range
       _get_sheet_names try_except];
  unfold bind at 1; rewrite ?(sheet_names_eq book w path wb Hopen).

(** A sheet name that is not in the workbook: the check comes first and
    nothing is read or written. *)
Lemma inner_sheet_absent (a : Action) (s : string) :
  action_sheet a = Some s ->
  payload_ok a = true ->
  str_in s (map fst wb) = false ->
  inner_of a book w = (Returned (PyStr (sheet_not_found s)), w).
Proof.
  intros Hs Hpayload Habsent.
  destruct a; try discriminate Hs; injection Hs as ->.
  1-3, 5: enter_inner; rewrite Habsent; reflexivity.
  cbn [payload_ok] in Hpayload.
  destruct (json.loads values_json) as [data|] eqn:Hjson; [|discriminate].
  cbv [inner_of _write_range try_except]. unfold bind at 1, json_loads.
  rewrite Hjson. cbn [ret]. rewrite Hpayload. cbn [negb].
  unfold bind at 1. rewrite (sheet_names_eq book w path wb Hopen).
  rewrite Habsent. reflexivity.
Qed.

(** A sheet that is there and an address the library rejects: the text
    returned is that of the failed operation, never that of a missing
    sheet, and the world has one call more in its log and is otherwise
    as it was. *)
Lemma inner_invalid_address (a : Action) (s address : string) cs :
  action_sheet a = Some s ->
  action_address a = Some address ->
  payload_ok a = true ->
  xw.get_sheet wb s = Some cs ->
  A1.parse_address address = None ->
  exists m ev,
    inner_of a book w = (Returned (PyStr m), add_log ev w)
    /\ forall s', m <> sheet_not_found s'.
Proof.
  intros Hs Haddr Hpayload Hcs Hbad.
  pose proof (get_sheet_str_in _ _ _ Hcs) as Hin.
  destruct a; try discriminate Hs; injection Hs as ->; injection Haddr as ->.
  - enter_inner. rewrite Hin. cbn [negb]. unfold bind at 1.
    rewrite (sheets_getitem_eq book w path wb Hopen s cs Hcs).
    unfold bind at 1. rewrite (range_value_eq book w path wb Hopen s cs _ Hcs), Hbad.
    cbn [find_clause isinstance ret exn_msg].
    eexists _, _. split; [reflexivity|].
    intros s'. unfold sheet_not_found. cbn [String.append]. discriminate.
  - enter_inner. rewrite Hin. cbn [negb]. unfold bind at 1.
    rewrite (sheets_getitem_eq book w path wb Hopen s cs Hcs).
    unfold bind at 1. rewrite (set_range_value_eq book w path wb Hopen s cs _ _ Hcs), Hbad.
    cbn [find_clause isinstance ret exn_msg].
    eexists _, _. split; [reflexivity|].
    intros s'. unfold sheet_not_found. cbn [String.append]. discriminate.
  - enter_inner. rewrite Hin. cbn [negb]. unfold bind at 1.
    rewrite (sheets_getitem_eq book w path wb Hopen s cs Hcs).
    unfold bind at 1. rewrite (range_value_eq book w path wb Hopen s cs _ Hcs), Hbad.
    cbn [find_clause isinstance ret exn_msg].
    eexists _, _. split; [reflexivity|].
    intros s'. unfold sheet_not_found. cbn [String.append]. discriminate.
  - cbn [payload_ok] in Hpayload.
    destruct (json.loads values_json) as [data|] eqn:Hjson; [|discriminate].
    cbv [inner_of _write_range try_except]. unfold bind at 1, json_loads.
    rewrite Hjson. cbn [ret]. rewrite Hpayload. cbn [negb].
    unfold bind at 1. rewrite (sheet_names_eq book w path wb Hopen).
    rewrite Hin. cbn [negb]. unfold bind at 1.
    rewrite (sheets_getitem_eq book w path wb Hopen s cs Hcs).
    unfold bind at 1. rewrite (set_range_value_eq book w path wb Hopen s cs _ _ Hcs), Hbad.
    cbn [find_clause isinstance ExnClass_eqb exn_class ret exn_msg].
    eexists _, _. split; [reflexivity|].
    intros s'. unfold sheet_not_found. cbn [String.append]. discriminate.
  - enter_inner. rewrite Hin. cbn [negb]. unfold bind at 1.
    rewrite (sheets_getitem_eq book w path wb Hopen s cs Hcs).
    unfold bind at 1. rewrite (clear_contents_eq book w path wb Hopen s cs _ Hcs), Hbad.
    cbn [find_clause isinstance ret exn_msg].
    eexists _, _. split; [reflexivity|].
    intros s'. unfold sheet_not_found. cbn [String.append]. discriminate.
Qed.

End InnerFunctions.

(** ** A session that goes through *)
Section Sessions.

Lemma opened_world_book w wb :
  opened (opened_world w wb) !! next_book w = Some (EXCEL_FILE_PATH, wb).
Proof. cbn [opened_world opened set_next_book set_opened]. apply lookup_insert_eq. Qed.

(** When the application starts, the file opens, the wrapped function
    returns and the save goes through, the guard returns the value of
    the function (as the program wraps it) and leaves the file with the
    content the document had in memory. *)
Lemma session_guard_returns on_success on_not_found on_error func w wb result w2 p2 wb2 :
  session_opens w wb ->
  func (next_book w) (opened_world w wb) = (Returned result, w2) ->
  save_fault (faults w2) = None ->
  opened w2 !! next_book w = Some (p2, wb2) ->
  session_guard on_success on_not_found on_error func w
  = (Returned (on_success result),
     snd (xw.close (next_book w)
            (set_files (<[p2 := wb2]> (files w2)) (add_log (EvSave (next_book w)) w2)))).
Proof.
  intros Hsession Hfunc Hsave Hbook.
  rewrite session_guard_eq, (enter_session_opens _ _ Hsession), Hfunc, save_eq, Hsave, Hbook.
  reflexivity.
Qed.

(** The same when the function leaves the world as it found it: the
    file keeps its content. *)
Lemma session_guard_returns_untouched on_success on_not_found on_error func w wb result :
  session_opens w wb ->
  save_fault (faults w) = None ->
  func (next_book w) (opened_world w wb) = (Returned result, opened_world w wb) ->
  exists w',
    session_guard on_success on_not_found on_error func w = (Returned (on_success result), w')
    /\ files w' = files w
    /\ log w' = (log w ++ [EvApp; EvOpen EXCEL_FILE_PATH;
                           EvSave (next_book w); EvClose (next_book w)])%list.
Proof.
  intros Hsession Hsave Hfunc.
  rewrite (session_guard_returns _ _ _ _ _ _ _ _ _ _ Hsession Hfunc Hsave
                                 (opened_world_book w wb)).
  eexists. split; [reflexivity|]. split.
  - rewrite close_files. cbn [files set_files]. apply insert_id.
    destruct Hsession as (_ & _ & Hfile). exact Hfile.
  - rewrite close_log. cbn [log set_files add_log opened_world set_next_book set_opened
                                set_apps].
    rewrite <- !app_assoc. reflexivity.
Qed.

End Sessions.

(** C4.  An action whose sheet name is not among the sheets of the open
    workbook is answered with the text of the missing sheet, whatever
    its address is worth; an action whose sheet is there but whose
    address the library rejects is answered with another text, which is
    never the text of a missing sheet.  An action is a validated one:
    the payload of a [WriteRange] deserialises to a list of lists
    (section 3 of the specification); the session is one that goes
    through (the application starts, the file opens and is saved). *)
Theorem absent_sheet_reported_as_sheet_not_found :
  forall (a : Action) (s address : string) (w : World) (wb : Workbook),
    action_sheet a = Some s ->
    action_address a = Some address ->
    payload_ok a = true ->
    session_opens w wb ->
    save_fault (faults w) = None ->
    (str_in s (map fst wb) = false ->
     fst (execute_agnet a w) = Returned (PyStr (sheet_not_found s))
     /\ fst (execute_backend a w)
        = Returned (PyDict [("status", PyStr "success");
                            ("result", PyStr (sheet_not_found s))]))
    /\ (str_in s (map fst wb) = true ->
        A1.parse_address address = None ->
        exists m,
          fst (execute_agnet a w) = Returned (PyStr m)
          /\ fst (execute_backend a w)
             = Returned (PyDict [("status", PyStr "success"); ("result", PyStr m)])
          /\ forall s', m <> sheet_not_found s').
Proof.
  intros a s address w wb Hs Haddr Hpayload Hsession Hsave.
  assert (Hagnet : execute_agnet a = excel_agnet.safe_excel_operation (inner_of a))
    by (destruct a; reflexivity).
  assert (Hbackend : execute_backend a = backend_service.safe_excel_operation (inner_of a))
    by (destruct a; reflexivity).
  rewrite Hagnet, Hbackend, agnet_guard, backend_guard.
  pose proof (opened_world_book w wb) as Hopen.
  split.
  - intros Habsent.
    pose proof (inner_sheet_absent _ _ _ _ Hopen a s Hs Hpayload Habsent) as Hinner.
    split.
    + destruct (session_guard_returns_untouched
                  (fun r => r) (fun e => PyStr ("Error: " ++ exn_msg e))
                  (fun e => PyStr ("An Excel error occurred: " ++ exn_msg e))
                  _ _ _ _ Hsession Hsave Hinner) as (w' & -> & _).
      reflexivity.
    + destruct (session_guard_returns_untouched
                  (fun r => PyDict [("status", PyStr "success"); ("result", r)])
                  (fun e => PyDict [("status", PyStr "error");
                                    ("message", PyStr ("Error: " ++ exn_msg e))])
                  (fun e => PyDict [("status", PyStr "error");
                                    ("message",
                                     PyStr ("An Excel error occurred: " ++ exn_msg e))])
                  _ _ _ _ Hsession Hsave Hinner) as (w' & -> & _).
      reflexivity.
  - intros Hpresent Hbad.
    destruct (str_in_get_sheet _ _ Hpresent) as [cs Hcs].
    destruct (inner_invalid_address _ _ _ _ Hopen a s address cs Hs Haddr Hpayload Hcs Hbad)
      as (m & ev & Hinner & Hdistinct).
    exists m.
    rewrite !(session_guard_returns _ _ _ _ _ _ _ _ _ _ Hsession Hinner Hsave Hopen).
    split; [reflexivity|]. split; [reflexivity|]. exact Hdistinct.
Qed.

Section PureFunctions.

(** A wrapped function that returns without touching the world: on
    every path of the guard the files keep their content and no call
    touches the content of a document. *)
Lemma session_guard_pure on_success on_not_found on_error func result :
  (forall book w1, func book w1 = (Returned result, w1)) ->
  forall w,
    files (snd (session_guard on_success on_not_found on_error func w)) = files w
    /\ exists evs,
        log (snd (session_guard on_success on_not_found on_error func w))
        = (log w ++ evs)%list
        /\ no_content_write evs.
Proof.
  intros Hpure w. rewrite session_guard_eq.
  destruct (enter w) as [[e [l w1]] | [book [l w1]]] eqn:Henter.
  - destruct (enter_failed _ _ _ _ Henter) as (Hl & _ & Hfiles & _ & evs & Hlog & Hevs).
    cbn [snd]. unfold finish. rewrite Hl. split; [exact Hfiles|].
    exists evs. split; [exact Hlog | exact Hevs].
  - destruct (enter_opened _ _ _ _ Henter) as (wb & Hsession & -> & Hl & ->).
    rewrite Hpure, save_eq.
    assert (Hlog1 : log (opened_world w wb)
                    = (log w ++ [EvApp; EvOpen EXCEL_FILE_PATH])%list).
    { cbn [log opened_world set_next_book set_opened add_log set_apps].
      rewrite <- app_assoc. reflexivity. }
    destruct (save_fault (faults (opened_world w wb))).
    + cbn [snd]. unfold finish. rewrite Hl, close_files, close_log.
      split; [reflexivity|].
      exists [EvApp; EvOpen EXCEL_FILE_PATH; EvSave (next_book w); EvClose (next_book w)].
      split; [|repeat constructor].
      cbn [log add_log]. rewrite Hlog1, <- !app_assoc. reflexivity.
    + rewrite opened_world_book. cbn [snd]. unfold finish.
      rewrite Hl, close_files, close_log. split.
      * cbn [files set_files]. apply insert_id.
        destruct Hsession as (_ & _ & Hfile). exact Hfile.
      * exists [EvApp; EvOpen EXCEL_FILE_PATH; EvSave (next_book w); EvClose (next_book w)].
        split; [|repeat constructor].
        cbn [log set_files add_log]. rewrite Hlog1, <- !app_assoc. reflexivity.
Qed.

(** A payload that is not JSON: [_write_range] answers at once. *)
Lemma write_range_not_json book s address payload w :
  json.loads payload = None ->
  Inner._write_range book s address payload w
  = (Returned (PyStr "Error: The 'values_json' argument is not a valid JSON string."), w).
Proof.
  intros Hjson. cbv [Inner._write_range try_except]. unfold bind at 1, json_loads.
  rewrite Hjson. reflexivity.
Qed.

(** A payload that is JSON but not a list of lists: likewise. *)
Lemma write_range_not_lists book s address payload data w :
  json.loads payload = Some data ->
  is_list_of_lists data = false ->
  Inner._write_range book s address payload w
  = (Returned (PyStr "Error: The 'values_json' argument must be a valid JSON string representing a list of lists."), w).
Proof.
  intros Hjson Hshape. cbv [Inner._write_range try_except]. unfold bind at 1, json_loads.
  rewrite Hjson. cbn [ret]. rewrite Hshape. reflexivity.
Qed.

(** What both direct-execution programs do with a [WriteRange] whose
    inner function answers [message] at once. *)
Lemma write_range_rejected s address payload message :
  (forall book w, Inner._write_range book s address payload w
                  = (Returned (PyStr message), w)) ->
  forall w,
    let agnet := excel_agnet.write_range_values s address payload w in
    let backend := backend_service.write_range_values s address payload w in
    (files (snd agnet) = files w
     /\ exists evs, log (snd agnet) = (log w ++ evs)%list /\ no_content_write evs)
    /\ (files (snd backend) = files w
        /\ exists evs, log (snd backend) = (log w ++ evs)%list /\ no_content_write evs)
    /\ forall wb,
        session_opens w wb ->
        save_fault (faults w) = None ->
        fst agnet = Returned (PyStr message)
        /\ fst backend = Returned (PyDict [("status", PyStr "success");
                                           ("result", PyStr message)])
        /\ log (snd agnet)
           = (log w ++ [EvApp; EvOpen EXCEL_FILE_PATH;
                        EvSave (next_book w); EvClose (next_book w)])%list
        /\ log (snd backend) = log (snd agnet).
Proof.
  intros Hpure w agnet backend. subst agnet backend.
  unfold excel_agnet.write_range_values, backend_service.write_range_values.
  rewrite agnet_guard, backend_guard.
  split; [exact (session_guard_pure _ _ _ _ _ Hpure w)|].
  split; [exact (session_guard_pure _ _ _ _ _ Hpure w)|].
  intros wb Hsession Hsave.
  destruct (session_guard_returns_untouched
              (fun r => r) (fun e => PyStr ("Error: " ++ exn_msg e))
              (fun e => PyStr ("An Excel error occurred: " ++ exn_msg e))
              (fun book => Inner._write_range book s address payload)
              w wb _ Hsession Hsave (Hpure _ _)) as (w1 & -> & _ & Hlog1).
  destruct (session_guard_returns_untouched
              (fun r => PyDict [("status", PyStr "success"); ("result", r)])
              (fun e => PyDict [("status", PyStr "error");
                                ("message", PyStr ("Error: " ++ exn_msg e))])
              (fun e => PyDict [("status", PyStr "error");
                                ("message",
                                 PyStr ("An Excel error occurred: " ++ exn_msg e))])
              (fun book => Inner._write_range book s address payload)
              w wb _ Hsession Hsave (Hpure _ _)) as (w2 & -> & _ & Hlog2).
  cbn [fst snd]. rewrite Hlog1, Hlog2. repeat split.
Qed.

End PureFunctions.

(** C1, counterexample.  On the sample world the request with the
    payload [not valid json] is answered with the text of the invalid
    payload, and by then the document has been opened (and saved and
    closed). *)
Lemma invalid_json_opens_document :
  json.loads "not valid json" = None
  /\ fst (excel_agnet.write_range_values "Sheet1" "A1" "not valid json" sample_world)
     = Returned (PyStr "Error: The 'values_json' argument is not a valid JSON string.")
  /\ log (snd (excel_agnet.write_range_values "Sheet1" "A1" "not valid json" sample_world))
     = [EvApp; EvOpen "test.xlsx"; EvSave 0; EvClose 0]
  /\ ~ no_document_opened
       (log (snd (excel_agnet.write_range_values "Sheet1" "A1" "not valid json"
                                                  sample_world))).
Proof.
  split; [reflexivity|]. split; [vm_compute; reflexivity|].
  assert (Hlog : log (snd (excel_agnet.write_range_values "Sheet1" "A1" "not valid json"
                                                            sample_world))
                 = [EvApp; EvOpen "test.xlsx"; EvSave 0; EvClose 0])
    by (vm_compute; reflexivity).
  split; [exact Hlog|]. rewrite Hlog. intros Hnone.
  inversion Hnone as [|? ? _ Hrest]. inversion Hrest as [|? ? Hopen _]. discriminate Hopen.
Qed.

(** C1, as amended.  A [WriteRange] request whose payload is not valid
    JSON writes nothing: on every path the files keep their content and
    no call touches the content of a document; when the session goes
    through, the answer is the text of the invalid payload.  The
    validation runs inside the wrapped operation, so the document is
    opened, saved and closed around it. *)
Theorem invalid_json_writes_nothing :
  forall (s address payload : string) (w : World),
    json.loads payload = None ->
    let agnet := excel_agnet.write_range_values s address payload w in
    let backend := backend_service.write_range_values s address payload w in
    (files (snd agnet) = files w
     /\ exists evs, log (snd agnet) = (log w ++ evs)%list /\ no_content_write evs)
    /\ (files (snd backend) = files w
        /\ exists evs, log (snd backend) = (log w ++ evs)%list /\ no_content_write evs)
    /\ forall wb,
        session_opens w wb ->
        save_fault (faults w) = None ->
        fst agnet
        = Returned (PyStr "Error: The 'values_json' argument is not a valid JSON string.")
        /\ fst backend
           = Returned
               (PyDict [("status", PyStr "success");
                        ("result",
                         PyStr "Error: The 'values_json' argument is not a valid JSON string.")])
        /\ log (snd agnet)
           = (log w ++ [EvApp; EvOpen EXCEL_FILE_PATH;
                        EvSave (next_book w); EvClose (next_book w)])%list
        /\ log (snd backend) = log (snd agnet).
Proof.
  intros s address payload w Hjson.
  apply write_range_rejected. intros book w1.
  apply write_range_not_json, Hjson.
Qed.

Lemma invalid_json_writes_nothing_witness :
  json.loads "not valid json" = None
  /\ files (snd (excel_agnet.write_range_values "Sheet1" "A1" "not valid json" sample_world))
     = files sample_world.
Proof.
  split; [reflexivity|].
  destruct (invalid_json_writes_nothing "Sheet1" "A1" "not valid json" sample_world eq_refl)
    as [[Hfiles _] _].
  exact Hfiles.
Defined.

(** C6, counterexample.  The payload with rows of two and of one item is
    valid JSON and is not rectangular, yet it passes the validation:
    the direct-execution program hands it to the range (the write is
    attempted), and the delegated program returns a [write_range]
    descriptor. *)
Lemma ragged_rows_pass_validation :
  let payload := dq "[['a','b'],['c']]" in
  let ragged := PyList [PyList [PyStr "a"; PyStr "b"]; PyList [PyStr "c"]] in
  json.loads payload = Some ragged
  /\ is_rectangular ragged = false
  /\ ~ no_content_write
       (log (snd (excel_agnet.write_range_values "Sheet1" "A1" payload sample_world)))
  /\ descriptor_tag
       (llamaindex.generate_write_range_instruction "Book1" "Sheet1" "A1" payload)
     = Some "write_range".
Proof.
  cbv zeta. split; [vm_compute; reflexivity|]. split; [reflexivity|].
  split; [|vm_compute; reflexivity].
  assert (Hlog : log (snd (excel_agnet.write_range_values
                             "Sheet1" "A1" (dq "[['a','b'],['c']]") sample_world))
                 = [EvApp; EvOpen "test.xlsx";
                    EvWrite 0 "Sheet1" "A1"
                      (PyList [PyList [PyStr "a"; PyStr "b"]; PyList [PyStr "c"]]);
                    EvSave 0; EvClose 0])
    by (vm_compute; reflexivity).
  rewrite Hlog. intros Hnone.
  inversion Hnone as [|? ? _ Hrest]. inversion Hrest as [|? ? _ Hrest'].
  inversion Hrest' as [|? ? Hwrite _]. discriminate Hwrite.
Qed.

(** C6, as amended.  A [WriteRange] payload that is valid JSON but not a
    list whose items are all lists writes nothing: on every path the
    files keep their content and no call touches the content of a
    document; when the session goes through, the answer is the text of
    the malformed payload; the delegated program returns an [error]
    descriptor.  The validation checks no more than that: whether the
    rows have one length is not looked at. *)
Theorem malformed_payload_writes_nothing :
  forall (s address payload : string) (data : PyVal) (w : World),
    json.loads payload = Some data ->
    is_list_of_lists data = false ->
    let agnet := excel_agnet.write_range_values s address payload w in
    let backend := backend_service.write_range_values s address payload w in
    let message :=
      "Error: The 'values_json' argument must be a valid JSON string representing a list of lists." in
    ((files (snd agnet) = files w
      /\ exists evs, log (snd agnet) = (log w ++ evs)%list /\ no_content_write evs)
     /\ (files (snd backend) = files w
         /\ exists evs, log (snd backend) = (log w ++ evs)%list /\ no_content_write evs)
     /\ forall wb,
         session_opens w wb ->
         save_fault (faults w) = None ->
         fst agnet = Returned (PyStr message)
         /\ fst backend = Returned (PyDict [("status", PyStr "success");
                                            ("result", PyStr message)])
         /\ log (snd agnet)
            = (log w ++ [EvApp; EvOpen EXCEL_FILE_PATH;
                         EvSave (next_book w); EvClose (next_book w)])%list
         /\ log (snd backend) = log (snd agnet))
    /\ forall workbook_name,
        llamaindex.generate_write_range_instruction workbook_name s address payload
        = PyDict [("action", PyStr "error");
                  ("message",
                   PyStr "Error: The provided data for writing range is not a valid JSON list of lists.")].
Proof.
  intros s address payload data w Hjson Hshape. cbv zeta. split.
  - apply write_range_rejected. intros book w1.
    eapply write_range_not_lists; eassumption.
  - intros workbook_name. unfold llamaindex.generate_write_range_instruction.
    rewrite Hjson, Hshape. reflexivity.
Qed.

Lemma malformed_payload_writes_nothing_witness :
  let payload := dq "{'rows': [['a']]}" in
  (json.loads payload = Some (PyDict [("rows", PyList [PyList [PyStr "a"]])])
   /\ is_list_of_lists (PyDict [("rows", PyList [PyList [PyStr "a"]])]) = false)
  /\ forall workbook_name,
      llamaindex.generate_write_range_instruction workbook_name "Sheet1" "A1" payload
      = PyDict [("action", PyStr "error");
                ("message",
                 PyStr "Error: The provided data for writing range is not a valid JSON list of lists.")].
Proof.
  cbv zeta. split; [split; reflexivity|].
  apply (malformed_payload_writes_nothing
           "Sheet1" "A1" (dq "{'rows': [['a']]}")
           (PyDict [("rows", PyList [PyList [PyStr "a"]])]) sample_world);
    reflexivity.
Defined.

Lemma absent_sheet_reported_as_sheet_not_found_witness :
  (action_sheet (ReadCell "Missing" "A1:") = Some "Missing"
   /\ payload_ok (ReadCell "Missing" "A1:") = true
   /\ session_opens sample_world sample_workbook
   /\ str_in "Missing" (map fst sample_workbook) = false)
  /\ fst (execute_agnet (ReadCell "Missing" "A1:") sample_world)
     = Returned (PyStr (sheet_not_found "Missing")).
Proof.
  split; [repeat split; reflexivity|].
  apply (absent_sheet_reported_as_sheet_not_found
           (ReadCell "Missing" "A1:") "Missing" "A1:" sample_world sample_workbook);
    try reflexivity.
  repeat split; reflexivity.
Defined.

(** ** Reading *)
Section Reading.
Import Inner.

Lemma inner_get_sheet_names book w path wb :
  opened w !! book = Some (path, wb) ->
  _get_sheet_names book w
  = (Returned (PyStr (match map fst wb with
                      | [] => "No sheets found."
                      | _ => String.concat ", " (map fst wb)
                      end)), w).
Proof.
  intros Hopen. cbv [_get_sheet_names try_except]. unfold bind at 1.
  rewrite (sheet_names_eq _ _ _ _ Hopen). reflexivity.
Qed.

Lemma inner_read_cell book w path wb s cs address R :
  opened w !! book = Some (path, wb) ->
  xw.get_sheet wb s = Some cs ->
  A1.parse_address address = Some R ->
  _read_cell book s address w
  = (Returned (PyStr (if Py.is_not_none (Range.read cs R)
                      then Py.str (Range.read cs R) else "")),
     add_log (EvRead book s address) w).
Proof.
  intros Hopen Hcs Haddr. pose proof (get_sheet_str_in _ _ _ Hcs) as Hin.
  cbv [_read_cell try_except]. unfold bind at 1.
  rewrite (sheet_names_eq _ _ _ _ Hopen), Hin. cbn [negb]. unfold bind at 1.
  rewrite (sheets_getitem_eq _ _ _ _ Hopen s cs Hcs). unfold bind at 1.
  rewrite (range_value_eq _ _ _ _ Hopen s cs _ Hcs), Haddr. reflexivity.
Qed.

Lemma inner_read_range book w path wb s cs address R :
  opened w !! book = Some (path, wb) ->
  xw.get_sheet wb s = Some cs ->
  A1.parse_address address = Some R ->
  _read_range book s address w
  = (Returned (PyStr (Py.str (Range.read cs R))), add_log (EvRead book s address) w).
Proof.
  intros Hopen Hcs Haddr. pose proof (get_sheet_str_in _ _ _ Hcs) as Hin.
  cbv [_read_range try_except]. unfold bind at 1.
  rewrite (sheet_names_eq _ _ _ _ Hopen), Hin. cbn [negb]. unfold bind at 1.
  rewrite (sheets_getitem_eq _ _ _ _ Hopen s cs Hcs). unfold bind at 1.
  rewrite (range_value_eq _ _ _ _ Hopen s cs _ Hcs), Haddr. reflexivity.
Qed.

Lemma inner_write_range book w path wb s cs address payload data R cs' :
  opened w !! book = Some (path, wb) ->
  xw.get_sheet wb s = Some cs ->
  json.loads payload = Some data ->
  is_list_of_lists data = true ->
  A1.parse_address address = Some R ->
  Range.write cs R data = inl cs' ->
  _write_range book s address payload w
  = (Returned (PyStr ("Successfully wrote data starting at cell " ++ address
                      ++ " on sheet " ++ s ++ ".")),
     set_opened (<[book := (path, xw.set_sheet wb s cs')]> (opened w))
                (add_log (EvWrite book s address data) w)).
Proof.
  intros Hopen Hcs Hjson Hshape Haddr Hwrite.
  pose proof (get_sheet_str_in _ _ _ Hcs) as Hin.
  cbv [_write_range try_except]. unfold bind at 1, json_loads.
  rewrite Hjson. cbn [ret]. rewrite Hshape. cbn [negb]. unfold bind at 1.
  rewrite (sheet_names_eq _ _ _ _ Hopen), Hin. cbn [negb]. unfold bind at 1.
  rewrite (sheets_getitem_eq _ _ _ _ Hopen s cs Hcs). unfold bind at 1.
  rewrite (set_range_value_eq _ _ _ _ Hopen s cs _ _ Hcs), Haddr, Hwrite. reflexivity.
Qed.

End Reading.

(** C7.  When the session goes through, [get_sheet_names] returns the
    names of the sheets in the order the workbook holds them, joined by
    a comma and a space, and the text [No sheets found.] for a workbook
    without sheets.  The names are never reordered. *)
Theorem sheet_names_in_workbook_order :
  forall (w : World) (wb : Workbook),
    session_opens w wb ->
    save_fault (faults w) = None ->
    let listing :=
      match map fst wb with
      | [] => "No sheets found."
      | names => String.concat ", " names
      end in
    fst (excel_agnet.get_sheet_names w) = Returned (PyStr listing)
    /\ fst (backend_service.get_sheet_names w)
       = Returned (PyDict [("status", PyStr "success"); ("result", PyStr listing)]).
Proof.
  intros w wb Hsession Hsave listing.
  unfold excel_agnet.get_sheet_names, backend_service.get_sheet_names.
  rewrite agnet_guard, backend_guard.
  pose proof (inner_get_sheet_names _ _ _ _ (opened_world_book w wb)) as Hinner.
  split.
  - destruct (session_guard_returns_untouched
                (fun r => r) (fun e => PyStr ("Error: " ++ exn_msg e))
                (fun e => PyStr ("An Excel error occurred: " ++ exn_msg e))
                (fun book => Inner._get_sheet_names book)
                w wb _ Hsession Hsave Hinner) as (w1 & -> & _).
    subst listing. destruct (map fst wb); reflexivity.
  - destruct (session_guard_returns_untouched
                (fun r => PyDict [("status", PyStr "success"); ("result", r)])
                (fun e => PyDict [("status", PyStr "error");
                                  ("message", PyStr ("Error: " ++ exn_msg e))])
                (fun e => PyDict [("status", PyStr "error");
                                  ("message",
                                   PyStr ("An Excel error occurred: " ++ exn_msg e))])
                (fun book => Inner._get_sheet_names book)
                w wb _ Hsession Hsave Hinner) as (w1 & -> & _).
    subst listing. destruct (map fst wb); reflexivity.
Qed.

(** On the sample world, whose sheets are [Sheet1], [Data], [Archive] in
    that order: the listing keeps that order (sorted, [Archive] would
    come first). *)
Lemma sheet_names_in_workbook_order_witness :
  (session_opens sample_world sample_workbook
   /\ save_fault (faults sample_world) = None)
  /\ fst (excel_agnet.get_sheet_names sample_world)
     = Returned (PyStr "Sheet1, Data, Archive").
Proof.
  split; [repeat split; reflexivity|].
  apply (sheet_names_in_workbook_order sample_world sample_workbook);
    [repeat split; reflexivity | reflexivity].
Defined.

(** C9.  When the session goes through, reading one cell that holds no
    value, on a sheet of the workbook, returns the empty text (not
    [None], nor its rendering). *)
Theorem empty_cell_reads_as_empty_text :
  forall (s address : string) (r c : N) (w : World) (wb : Workbook) (cs : Cells),
    session_opens w wb ->
    save_fault (faults w) = None ->
    xw.get_sheet wb s = Some cs ->
    A1.parse_address address = Some (A1.mkRect r c 1 1) ->
    cs !! (r, c) = None ->
    fst (excel_agnet.read_cell_value s address w) = Returned (PyStr "")
    /\ fst (backend_service.read_cell_value s address w)
       = Returned (PyDict [("status", PyStr "success"); ("result", PyStr "")]).
Proof.
  intros s address r c w wb cs Hsession Hsave Hcs Haddr Hempty.
  unfold excel_agnet.read_cell_value, backend_service.read_cell_value.
  rewrite agnet_guard, backend_guard.
  pose proof (inner_read_cell _ _ _ _ _ _ _ _ (opened_world_book w wb) Hcs Haddr) as Hinner.
  assert (Hread : Range.read cs (A1.mkRect r c 1 1) = PyNone).
  { unfold Range.read, Range.cell_value. cbn [A1.height A1.width A1.top A1.left
                                                N.eqb Pos.eqb andb].
    rewrite Hempty. reflexivity. }
  rewrite Hread in Hinner. cbn [Py.is_not_none] in Hinner.
  rewrite !(session_guard_returns _ _ _ _ w wb _ _ _ _ Hsession Hinner Hsave
                                  (opened_world_book w wb)).
  split; reflexivity.
Qed.

Lemma empty_cell_reads_as_empty_text_witness :
  (session_opens sample_world sample_workbook
   /\ xw.get_sheet sample_workbook "Data" = Some {[ (1%N, 1%N) := PyStr "x" ]}
   /\ A1.parse_address "B2" = Some (A1.mkRect 2 2 1 1))
  /\ fst (excel_agnet.read_cell_value "Data" "B2" sample_world) = Returned (PyStr "").
Proof.
  split; [repeat split; reflexivity|].
  apply (empty_cell_reads_as_empty_text
           "Data" "B2" 2 2 sample_world sample_workbook {[ (1%N, 1%N) := PyStr "x" ]});
    try reflexivity.
  repeat split; reflexivity.
Defined.

(** ** Writing a block and reading it back *)
Section RoundTrip.

Lemma write_block_at_A1 (cs : Cells) :
  Range.write cs (A1.mkRect 1 1 1 1) block_abcd = inl (written cs).
Proof. reflexivity. Qed.

Lemma read_block_A1_B2 (cs : Cells) :
  Range.read (written cs) (A1.mkRect 1 1 2 2) = block_abcd.
Proof.
  unfold Range.read. cbn [A1.height A1.width A1.top A1.left N.eqb Pos.eqb andb].
  change (A1.N_range 1 2) with [1%N; 2%N]. cbn [map]. unfold Range.cell_value, written.
  rewrite (lookup_insert_ne _ (2%N, 2%N) (1%N, 1%N)) by discriminate.
  rewrite (lookup_insert_ne _ (2%N, 1%N) (1%N, 1%N)) by discriminate.
  rewrite (lookup_insert_ne _ (1%N, 2%N) (1%N, 1%N)) by discriminate.
  rewrite (lookup_insert_eq _ (1%N, 1%N)).
  rewrite (lookup_insert_ne _ (2%N, 2%N) (1%N, 2%N)) by discriminate.
  rewrite (lookup_insert_ne _ (2%N, 1%N) (1%N, 2%N)) by discriminate.
  rewrite (lookup_insert_eq _ (1%N, 2%N)).
  rewrite (lookup_insert_ne _ (2%N, 2%N) (2%N, 1%N)) by discriminate.
  rewrite (lookup_insert_eq _ (2%N, 1%N)).
  rewrite (lookup_insert_eq _ (2%N, 2%N)).
  reflexivity.
Qed.

(** The first session of the round trip: the value returned and the
    world it leaves. *)
Lemma write_block_session on_success on_not_found on_error s w wb cs :
  session_opens w wb ->
  save_fault (faults w) = None ->
  xw.get_sheet wb s = Some cs ->
  exists w',
    session_guard on_success on_not_found on_error
      (fun book => Inner._write_range book s "A1" (dq "[['a','b'],['c','d']]")) w
    = (Returned (on_success
                   (PyStr ("Successfully wrote data starting at cell A1 on sheet "
                           ++ s ++ "."))), w')
    /\ session_opens w' (xw.set_sheet wb s (written cs))
    /\ save_fault (faults w') = None.
Proof.
  intros Hsession Hsave Hcs.
  assert (Hinner := inner_write_range
                      (next_book w) (opened_world w wb) EXCEL_FILE_PATH wb s cs
                      "A1" (dq "[['a','b'],['c','d']]") block_abcd (A1.mkRect 1 1 1 1)
                      (written cs) (opened_world_book w wb) Hcs
                      eq_refl eq_refl eq_refl (write_block_at_A1 cs)).
  eexists. split.
  - eapply (session_guard_returns _ _ _ _ w wb _ _ _ _ Hsession Hinner).
    + exact Hsave.
    + cbn [opened set_opened]. apply lookup_insert_eq.
  - destruct Hsession as (Happ & Hopen & Hfile).
    unfold session_opens. rewrite close_faults, close_files.
    cbn [faults files set_files set_opened add_log opened_world set_next_book set_apps].
    repeat split; try assumption. apply lookup_insert_eq.
Qed.

(** The second session: reading the range back. *)
Lemma read_block_session on_success on_not_found on_error s w wb cs :
  session_opens w wb ->
  save_fault (faults w) = None ->
  xw.get_sheet wb s = Some (written cs) ->
  fst (session_guard on_success on_not_found on_error
         (fun book => Inner._read_range book s "A1:B2") w)
  = Returned (on_success (PyStr "[['a', 'b'], ['c', 'd']]")).
Proof.
  intros Hsession Hsave Hcs.
  assert (Hinner := inner_read_range
                      (next_book w) (opened_world w wb) EXCEL_FILE_PATH wb s (written cs)
                      "A1:B2" (A1.mkRect 1 1 2 2) (opened_world_book w wb) Hcs eq_refl).
  rewrite read_block_A1_B2 in Hinner.
  rewrite (session_guard_returns _ _ _ _ w wb _ _ _ _ Hsession Hinner Hsave
                                 (opened_world_book w wb)).
  reflexivity.
Qed.

End RoundTrip.

(** C3.  When the sessions go through, writing the block
    [[["a","b"],["c","d"]]] with [write_range_values] at [A1] of a sheet
    of the workbook and then reading [A1:B2] of that sheet with
    [read_range_values] returns the same four values in the same rows
    and columns: the text returned is [str] of the list of rows. *)
Theorem write_range_then_read_range :
  forall (s : string) (w : World) (wb : Workbook),
    session_opens w wb ->
    save_fault (faults w) = None ->
    str_in s (map fst wb) = true ->
    let payload := dq "[['a','b'],['c','d']]" in
    let block := PyList [PyList [PyStr "a"; PyStr "b"]; PyList [PyStr "c"; PyStr "d"]] in
    json.loads payload = Some block
    /\ Py.str block = "[['a', 'b'], ['c', 'd']]"
    /\ fst (excel_agnet.read_range_values s "A1:B2"
              (snd (excel_agnet.write_range_values s "A1" payload w)))
       = Returned (PyStr (Py.str block))
    /\ fst (backend_service.read_range_values s "A1:B2"
              (snd (backend_service.write_range_values s "A1" payload w)))
       = Returned (PyDict [("status", PyStr "success"); ("result", PyStr (Py.str block))]).
Proof.
  intros s w wb Hsession Hsave Hin payload block.
  destruct (str_in_get_sheet _ _ Hin) as [cs Hcs].
  split; [reflexivity|]. split; [reflexivity|].
  unfold excel_agnet.read_range_values, excel_agnet.write_range_values,
    backend_service.read_range_values, backend_service.write_range_values.
  subst payload.
  rewrite (agnet_guard (fun book => Inner._read_range book s "A1:B2")),
    (agnet_guard (fun book => Inner._write_range book s "A1" (dq "[['a','b'],['c','d']]"))),
    (backend_guard (fun book => Inner._read_range book s "A1:B2")),
    (backend_guard
       (fun book => Inner._write_range book s "A1" (dq "[['a','b'],['c','d']]"))).
  split.
  - destruct (write_block_session
                (fun r => r) (fun e => PyStr ("Error: " ++ exn_msg e))
                (fun e => PyStr ("An Excel error occurred: " ++ exn_msg e))
                s w wb cs Hsession Hsave Hcs) as (w' & -> & Hsession' & Hsave').
    cbn [snd].
    change (Py.str block) with "[['a', 'b'], ['c', 'd']]".
    apply (read_block_session
             (fun r => r) (fun e => PyStr ("Error: " ++ exn_msg e))
             (fun e => PyStr ("An Excel error occurred: " ++ exn_msg e))
             s w' _ cs Hsession' Hsave').
    eapply get_set_sheet, Hcs.
  - destruct (write_block_session
                (fun r => PyDict [("status", PyStr "success"); ("result", r)])
                (fun e => PyDict [("status", PyStr "error");
                                  ("message", PyStr ("Error: " ++ exn_msg e))])
                (fun e => PyDict [("status", PyStr "error");
                                  ("message",
                                   PyStr ("An Excel error occurred: " ++ exn_msg e))])
                s w wb cs Hsession Hsave Hcs) as (w' & -> & Hsession' & Hsave').
    cbn [snd].
    change (Py.str block) with "[['a', 'b'], ['c', 'd']]".
    apply (read_block_session
             (fun r => PyDict [("status", PyStr "success"); ("result", r)])
             (fun e => PyDict [("status", PyStr "error");
                               ("message", PyStr ("Error: " ++ exn_msg e))])
             (fun e => PyDict [("status", PyStr "error");
                               ("message",
                                PyStr ("An Excel error occurred: " ++ exn_msg e))])
             s w' _ cs Hsession' Hsave').
    eapply get_set_sheet, Hcs.
Qed.

Lemma write_range_then_read_range_witness :
  (session_opens sample_world sample_workbook
   /\ str_in "Data" (map fst sample_workbook) = true)
  /\ fst (excel_agnet.read_range_values "Data" "A1:B2"
            (snd (excel_agnet.write_range_values
                    "Data" "A1" (dq "[['a','b'],['c','d']]") sample_world)))
     = Returned (PyStr "[['a', 'b'], ['c', 'd']]").
Proof.
  split; [repeat split; reflexivity|].
  apply (write_range_then_read_range "Data" sample_world sample_workbook);
    try reflexivity.
  repeat split; reflexivity.
Defined.
(* ===================================================================== *)
(** * Properties of the delegated variant *)
(* ===================================================================== *)

Section Consumption.
Import llamaindex.

(** A source whose tool output is a dict tagged with anything but
    [inform_user] ends the loop with that dict, whatever was kept
    before. *)
Lemma scan_sources_break source rest extracted d :
  tool_output_result source = Some (PyDict d) ->
  Py.ne_str (Py.dict_get d "action") "inform_user" = true ->
  scan_sources (source :: rest) extracted = Some d.
Proof.
  intros Hout Hne. simpl. rewrite Hout, Hne. reflexivity.
Qed.

(** A source whose tool output is an [inform_user] dict is kept and the
    loop goes on. *)
Lemma scan_sources_continue source rest extracted d :
  tool_output_result source = Some (PyDict d) ->
  Py.dict_get d "action" = Some (PyStr "inform_user") ->
  scan_sources (source :: rest) extracted = scan_sources rest (Some d).
Proof.
  intros Hout Hact. simpl. rewrite Hout, Hact. reflexivity.
Qed.

(** A source without a dict as tool output is skipped. *)
Lemma scan_sources_skip source rest extracted :
  (forall d, tool_output_result source <> Some (PyDict d)) ->
  scan_sources (source :: rest) extracted = scan_sources rest extracted.
Proof.
  intros Hno. simpl.
  destruct (tool_output_result source) as [[]|]; try reflexivity.
  exfalso. eapply Hno. reflexivity.
Qed.

(** In any list of sources, the first dict that is not tagged
    [inform_user] is the one the loop returns. *)
Lemma scan_sources_first_concrete before source after extracted d :
  Forall (fun s => forall d', tool_output_result s = Some (PyDict d') ->
                              Py.dict_get d' "action" = Some (PyStr "inform_user"))
         before ->
  tool_output_result source = Some (PyDict d) ->
  Py.ne_str (Py.dict_get d "action") "inform_user" = true ->
  scan_sources (before ++ source :: after)%list extracted = Some d.
Proof.
  intros Hbefore Hout Hne. revert extracted.
  induction Hbefore as [|s before Hs _ IH]; intros extracted.
  - simpl app. eapply scan_sources_break; eassumption.
  - change ((s :: before) ++ source :: after)%list
      with (s :: (before ++ source :: after))%list.
    destruct (tool_output_result s) as [v|] eqn:Hs'.
    + destruct v; try (rewrite scan_sources_skip; [apply IH | congruence]).
      rewrite (scan_sources_continue s _ _ entries Hs' (Hs _ eq_refl)). apply IH.
    + rewrite scan_sources_skip; [apply IH | congruence].
Qed.

Lemma tagged_ne_inform d tag :
  descriptor_tag (PyDict d) = Some tag ->
  String.eqb tag "inform_user" = false ->
  Py.ne_str (Py.dict_get d "action") "inform_user" = true /\ d <> [].
Proof.
  unfold descriptor_tag. intros Htag Hne.
  destruct (Py.dict_get d "action") as [[]|] eqn:Hget; try discriminate.
  injection Htag as ->. simpl. rewrite Hne. split; [reflexivity|].
  intros ->. discriminate.
Qed.

End Consumption.

(** C5.  When the reply of the resolver holds two candidate actions, one
    tagged [inform_user] and one concrete (tagged with anything else),
    [handle_excel_command] returns the concrete one, in whichever order
    the two candidates come. *)
Theorem concrete_action_preferred :
  forall (s_inform s_concrete : llamaindex.Source)
         (inform concrete : list (string * PyVal)) (tag text : string),
    llamaindex.tool_output_result s_inform = Some (PyDict inform) ->
    descriptor_tag (PyDict inform) = Some "inform_user" ->
    llamaindex.tool_output_result s_concrete = Some (PyDict concrete) ->
    descriptor_tag (PyDict concrete) = Some tag ->
    String.eqb tag "inform_user" = false ->
    llamaindex.handle_excel_command
      (Returned (llamaindex.mkResponse [s_inform; s_concrete] text))
    = inl (PyDict concrete)
    /\ llamaindex.handle_excel_command
         (Returned (llamaindex.mkResponse [s_concrete; s_inform] text))
       = inl (PyDict concrete).
Proof.
  intros s_inform s_concrete inform concrete tag text Hi Hitag Hc Hctag Hne.
  destruct (tagged_ne_inform _ _ Hctag Hne) as [Hne' Hnonempty].
  assert (Hiact : Py.dict_get inform "action" = Some (PyStr "inform_user")).
  { unfold descriptor_tag in Hitag.
    destruct (Py.dict_get inform "action") as [[]|]; try discriminate.
    injection Hitag as ->. reflexivity. }
  assert (Htruthy : Py.truthy (PyDict concrete) = true).
  { destruct concrete; [contradiction | reflexivity]. }
  unfold llamaindex.handle_excel_command, llamaindex.extract_instruction.
  cbn [llamaindex.sources].
  rewrite (scan_sources_continue _ _ _ _ Hi Hiact).
  rewrite !(scan_sources_break _ _ _ _ Hc Hne').
  rewrite Htruthy. split; reflexivity.
Qed.

Lemma concrete_action_preferred_witness :
  let inform := [("action", PyStr "inform_user"); ("message", PyStr "Which sheet?")] in
  let concrete := [("action", PyStr "read_cell"); ("workbook_name", PyStr "Book1");
                   ("sheet_name", PyStr "Sheet1"); ("cell_address", PyStr "A1")] in
  let s_inform := llamaindex.mkSource (Some (PyDict inform)) None in
  let s_concrete := llamaindex.mkSource None (Some [("tool_output", PyDict concrete)]) in
  llamaindex.handle_excel_command
    (Returned (llamaindex.mkResponse [s_inform; s_concrete] "done")) = inl (PyDict concrete)
  /\ llamaindex.handle_excel_command
       (Returned (llamaindex.mkResponse [s_concrete; s_inform] "done")) = inl (PyDict concrete).
Proof.
  intros inform concrete s_inform s_concrete.
  apply (concrete_action_preferred s_inform s_concrete inform concrete "read_cell" "done");
    reflexivity.
Defined.

Section WireContract.
Import llamaindex.

Local Ltac contract_by_computation :=
  eexists _, _, _; repeat split; reflexivity.

(** Every generator returns a descriptor that follows the contract. *)
Lemma call_tool_follows_contract (c : ToolCall) : follows_contract (call_tool c).
Proof.
  destruct c; cbn [call_tool]; try contract_by_computation.
  unfold generate_write_range_instruction.
  destruct (json.loads values_json) as [data|]; [|contract_by_computation].
  destruct (is_list_of_lists data); cbn [negb]; contract_by_computation.
Qed.

(** Every generator returns a dict that is not empty. *)
Lemma call_tool_dict (c : ToolCall) :
  exists d, call_tool c = PyDict d /\ Py.truthy (PyDict d) = true.
Proof.
  destruct (call_tool_follows_contract c) as (d & tag & fields & -> & _ & _ & Hkeys).
  exists d. split; [reflexivity|]. destruct d; [discriminate | reflexivity].
Qed.

(** What the loop keeps comes from one of the calls, or is what it
    started with. *)
Lemma scan_sources_of_calls calls extracted :
  scan_sources (map (fun c => mkSource (Some (call_tool c)) None) calls) extracted
  = extracted
  \/ exists c d, In c calls /\ call_tool c = PyDict d
                 /\ scan_sources (map (fun c => mkSource (Some (call_tool c)) None) calls)
                                 extracted = Some d.
Proof.
  revert extracted. induction calls as [|c calls IH]; intros extracted.
  - left. reflexivity.
  - destruct (call_tool_dict c) as (d & Hd & _).
    cbn [map scan_sources]. unfold tool_output_result. cbn [raw_output].
    rewrite Hd. cbn [Py.is_not_none].
    destruct (Py.ne_str (Py.dict_get d "action") "inform_user").
    + right. exists c, d. split; [left; reflexivity|]. split; [exact Hd | reflexivity].
    + destruct (IH (Some d)) as [Hkeep | (c' & d' & Hin & Hd' & Hscan)].
      * right. exists c, d. split; [left; reflexivity|]. split; [exact Hd | exact Hkeep].
      * right. exists c', d'. split; [right; exact Hin|]. split; [exact Hd' | exact Hscan].
Qed.

(** The instruction extracted from a reply built from tool calls follows
    the contract: it is the output of one of the calls, or one of the two
    fallback descriptors. *)
Lemma extract_instruction_follows_contract calls text :
  follows_contract (extract_instruction (reply_of_calls calls text)).
Proof.
  unfold extract_instruction, reply_of_calls. cbn [sources response].
  destruct calls as [|c0 calls].
  - cbn [map]. destruct (Py.truthy (PyStr text)); cbn [Py.is_dict negb];
      contract_by_computation.
  - pose proof (scan_sources_of_calls (c0 :: calls) None) as Hscan.
    cbn [map] in Hscan |- *. cbv beta iota zeta.
    destruct Hscan as [-> | (c & d & _ & Hd & ->)].
    + destruct (Py.truthy (PyStr text)); cbn [Py.is_dict negb]; contract_by_computation.
    + destruct (call_tool_dict c) as (d' & Hd' & Htruthy).
      rewrite Hd in Hd'. injection Hd' as <-. rewrite Htruthy.
      cbn [Py.is_dict negb]. rewrite <- Hd. apply call_tool_follows_contract.
Qed.

End WireContract.

(** C8.  In the delegated variant every descriptor follows the wire
    contract of section 6: each generator returns a dict whose [action]
    tag is one of the twelve tags of the table and whose keys are
    [action] followed by exactly the fields the table gives for that
    tag; the instruction [handle_excel_command] returns for a reply
    built from tool calls does so too; and each of the twelve tags is
    produced by some call. *)
Theorem descriptors_follow_wire_contract :
  (forall c : llamaindex.ToolCall, follows_contract (llamaindex.call_tool c))
  /\ (forall (calls : list llamaindex.ToolCall) (text : string),
        exists v,
          llamaindex.handle_excel_command
            (Returned (llamaindex.reply_of_calls calls text)) = inl v
          /\ follows_contract v)
  /\ Forall (fun tag => exists c, descriptor_tag (llamaindex.call_tool c) = Some tag)
            (map fst wire_contract).
Proof.
  split; [exact call_tool_follows_contract|]. split.
  - intros calls text. eexists. split; [reflexivity|].
    apply extract_instruction_follows_contract.
  - repeat constructor.
    + exists (llamaindex.read_cell_tool "" "" ""). reflexivity.
    + exists (llamaindex.write_cell_tool "" "" "" ""). reflexivity.
    + exists (llamaindex.read_range_tool "" "" ""). reflexivity.
    + exists (llamaindex.write_range_tool "" "" "" "[]"). reflexivity.
    + exists (llamaindex.get_sheet_names_tool ""). reflexivity.
    + exists (llamaindex.clear_range_content_tool "" "" ""). reflexivity.
    + exists (llamaindex.create_bar_chart_tool "" "" "" "" ""). reflexivity.
    + exists (llamaindex.write_formula_tool "" "" "" ""). reflexivity.
    + exists (llamaindex.apply_conditional_formatting_tool "" "" "" "" ""). reflexivity.
    + exists (llamaindex.create_pivot_table_tool "" "" "" "" "" "" "" ""). reflexivity.
    + exists (llamaindex.inform_user_tool ""). reflexivity.
    + exists (llamaindex.write_range_tool "" "" "" "not valid json"). reflexivity.
Qed.

(* ===================================================================== *)
(** * Further properties of the spreadsheet tools *)
(* ===================================================================== *)

Section InnerEffects.
Import Inner.

Lemma sheet_names_closed book w :
  opened w !! book = None -> xw.sheet_names book w = (Raised xw.closed_book, w).
Proof. intros Hclosed. cbv [xw.sheet_names bind get raise]. rewrite Hclosed. reflexivity. Qed.

Local Ltac kept evs := eexists _, _; split; [reflexivity | exact (step_kept _ _ evs)].

(** Every inner function returns a text, whatever the state of the
    document handle, the sheet name, the address and the payload, and
    all it does to the world is one [inner_step]. *)
Lemma inner_of_effect (a : Action) (book : xw.Book) (w : World) :
  exists m w', inner_of a book w = (Returned (PyStr m), w') /\ inner_step book w w'.
Proof.
  assert (Hw : forall evs, evs = [] -> relog evs w = w).
  { intros evs ->. destruct w. unfold relog. cbn. rewrite app_nil_r. reflexivity. }
  destruct (opened w !! book) as [[path wb]|] eqn:Hopen.
  2:{ (* the handle is not open: the first call on it raises *)
      destruct a;
        cbv [inner_of _read_cell _write_cell _read_range _write_range _clear_range
             _get_sheet_names try_except];
        unfold bind at 1; rewrite ?(sheet_names_closed _ _ Hopen);
        try (cbn [find_clause isinstance ret xw.closed_book exn_msg];
             eexists _, _; split; [reflexivity|];
             rewrite <- (Hw [] eq_refl) at 2; apply step_kept).
      unfold json_loads. destruct (json.loads values_json) as [data|].
      - cbn [ret]. destruct (is_list_of_lists data); cbn [negb].
        + unfold bind at 1. rewrite (sheet_names_closed _ _ Hopen).
          cbn [find_clause isinstance ExnClass_eqb exn_class xw.closed_book ret exn_msg].
          eexists _, _; split; [reflexivity|].
          rewrite <- (Hw [] eq_refl) at 2; apply step_kept.
        + eexists _, _; split; [reflexivity|].
          rewrite <- (Hw [] eq_refl) at 2; apply step_kept.
      - cbn [raise find_clause isinstance ExnClass_eqb exn_class ret].
        eexists _, _; split; [reflexivity|].
        rewrite <- (Hw [] eq_refl) at 2; apply step_kept. }
  destruct a.
  - (* ReadCell *)
    cbv [inner_of _read_cell try_except]. unfold bind at 1.
    rewrite (sheet_names_eq _ _ _ _ Hopen).
    destruct (str_in sheet_name (map fst wb)) eqn:Hin; cbn [negb].
    2:{ eexists _, _; split; [reflexivity|].
        rewrite <- (Hw [] eq_refl) at 2; apply step_kept. }
    destruct (str_in_get_sheet _ _ Hin) as [cs Hcs]. unfold bind at 1.
    rewrite (sheets_getitem_eq _ _ _ _ Hopen _ cs Hcs). unfold bind at 1.
    rewrite (range_value_eq _ _ _ _ Hopen _ cs _ Hcs).
    destruct (A1.parse_address cell_address);
      cbn [find_clause isinstance ret exn_msg];
      eexists _, _; (split; [reflexivity|]);
      exact (step_kept _ _ [EvRead book sheet_name cell_address]).
  - (* WriteCell *)
    cbv [inner_of _write_cell try_except]. unfold bind at 1.
    rewrite (sheet_names_eq _ _ _ _ Hopen).
    destruct (str_in sheet_name (map fst wb)) eqn:Hin; cbn [negb].
    2:{ eexists _, _; split; [reflexivity|].
        rewrite <- (Hw [] eq_refl) at 2; apply step_kept. }
    destruct (str_in_get_sheet _ _ Hin) as [cs Hcs]. unfold bind at 1.
    rewrite (sheets_getitem_eq _ _ _ _ Hopen _ cs Hcs). unfold bind at 1.
    rewrite (set_range_value_eq _ _ _ _ Hopen _ cs _ _ Hcs).
    destruct (A1.parse_address cell_address) as [R|].
    2:{ cbn [find_clause isinstance ret exn_msg].
        eexists _, _; (split; [reflexivity|]).
        exact (step_kept _ _ [EvWrite book sheet_name cell_address (PyStr value)]). }
    destruct (Range.write cs R (PyStr value)) as [cs'|e].
    + cbn [ret]. eexists _, _; (split; [reflexivity|]).
      exact (step_updated _ _ [EvWrite book sheet_name cell_address (PyStr value)]
                          path wb sheet_name cs' Hopen).
    + cbn [find_clause isinstance ret exn_msg].
      eexists _, _; (split; [reflexivity|]).
      exact (step_kept _ _ [EvWrite book sheet_name cell_address (PyStr value)]).
  - (* ReadRange *)
    cbv [inner_of _read_range try_except]. unfold bind at 1.
    rewrite (sheet_names_eq _ _ _ _ Hopen).
    destruct (str_in sheet_name (map fst wb)) eqn:Hin; cbn [negb].
    2:{ eexists _, _; split; [reflexivity|].
        rewrite <- (Hw [] eq_refl) at 2; apply step_kept. }
    destruct (str_in_get_sheet _ _ Hin) as [cs Hcs]. unfold bind at 1.
    rewrite (sheets_getitem_eq _ _ _ _ Hopen _ cs Hcs). unfold bind at 1.
    rewrite (range_value_eq _ _ _ _ Hopen _ cs _ Hcs).
    destruct (A1.parse_address range_address);
      cbn [find_clause isinstance ret exn_msg];
      eexists _, _; (split; [reflexivity|]);
      exact (step_kept _ _ [EvRead book sheet_name range_address]).
  - (* WriteRange *)
    cbv [inner_of _write_range try_except]. unfold bind at 1, json_loads.
    destruct (json.loads values_json) as [data|].
    2:{ cbn [raise find_clause isinstance ExnClass_eqb exn_class ret].
        eexists _, _; split; [reflexivity|].
        rewrite <- (Hw [] eq_refl) at 2; apply step_kept. }
    cbn [ret]. destruct (is_list_of_lists data); cbn [negb].
    2:{ eexists _, _; split; [reflexivity|].
        rewrite <- (Hw [] eq_refl) at 2; apply step_kept. }
    unfold bind at 1. rewrite (sheet_names_eq _ _ _ _ Hopen).
    destruct (str_in sheet_name (map fst wb)) eqn:Hin; cbn [negb].
    2:{ eexists _, _; split; [reflexivity|].
        rewrite <- (Hw [] eq_refl) at 2; apply step_kept. }
    destruct (str_in_get_sheet _ _ Hin) as [cs Hcs]. unfold bind at 1.
    rewrite (sheets_getitem_eq _ _ _ _ Hopen _ cs Hcs). unfold bind at 1.
    rewrite (set_range_value_eq _ _ _ _ Hopen _ cs _ _ Hcs).
    destruct (A1.parse_address start_cell_address) as [R|].
    2:{ cbn [find_clause isinstance ExnClass_eqb exn_class ret exn_msg].
        eexists _, _; (split; [reflexivity|]).
        exact (step_kept _ _ [EvWrite book sheet_name start_cell_address data]). }
    destruct (Range.write cs R data) as [cs'|e].
    + cbn [ret]. eexists _, _; (split; [reflexivity|]).
      exact (step_updated _ _ [EvWrite book sheet_name start_cell_address data]
                          path wb sheet_name cs' Hopen).
    + cbn [find_clause]. destruct (isinstance e JSONDecodeError);
        cbn [isinstance ret exn_msg];
        eexists _, _; (split; [reflexivity|]);
        exact (step_kept _ _ [EvWrite book sheet_name start_cell_address data]).
  - (* ListSheets *)
    cbn [inner_of]. rewrite (inner_get_sheet_names _ _ _ _ Hopen).
    eexists _, _; split; [reflexivity|].
    rewrite <- (Hw [] eq_refl) at 2; apply step_kept.
  - (* ClearRange *)
    cbv [inner_of _clear_range try_except]. unfold bind at 1.
    rewrite (sheet_names_eq _ _ _ _ Hopen).
    destruct (str_in sheet_name (map fst wb)) eqn:Hin; cbn [negb].
    2:{ eexists _, _; split; [reflexivity|].
        rewrite <- (Hw [] eq_refl) at 2; apply step_kept. }
    destruct (str_in_get_sheet _ _ Hin) as [cs Hcs]. unfold bind at 1.
    rewrite (sheets_getitem_eq _ _ _ _ Hopen _ cs Hcs). unfold bind at 1.
    rewrite (clear_contents_eq _ _ _ _ Hopen _ cs _ Hcs).
    destruct (A1.parse_address range_address) as [R|].
    + cbn [ret]. eexists _, _; (split; [reflexivity|]).
      exact (step_updated _ _ [EvClear book sheet_name range_address]
                          path wb sheet_name (Range.clear cs R) Hopen).
    + cbn [find_clause isinstance ret exn_msg].
      eexists _, _; (split; [reflexivity|]).
      exact (step_kept _ _ [EvClear book sheet_name range_address]).
Qed.

End InnerEffects.

Section InnerSteps.

Lemma inner_step_facts book w w' :
  inner_step book w w' ->
  faults w' = faults w /\ files w' = files w /\ apps w' = apps w
  /\ next_book w' = next_book w
  /\ (exists evs, log w' = (log w ++ evs)%list)
  /\ (forall path wb,
         opened w !! book = Some (path, wb) ->
         exists wb', opened w' !! book = Some (path, wb') /\ map fst wb' = map fst wb).
Proof.
  intros [evs | evs path wb s cs Hopen]; repeat split; try (exists evs; reflexivity).
  - intros path wb Hopen. exists wb. split; [exact Hopen | reflexivity].
  - intros path' wb' Hopen'. rewrite Hopen in Hopen'. injection Hopen' as <- <-.
    exists (xw.set_sheet wb s cs). split.
    + cbn [opened set_opened]. apply lookup_insert_eq.
    + apply set_sheet_names.
Qed.

(** What an action that only reads does: calls that read, nothing else. *)
Lemma inner_of_read_only (a : Action) (book : xw.Book) (w : World) :
  read_only a = true ->
  exists m evs,
    inner_of a book w = (Returned (PyStr m), relog evs w) /\ no_content_write evs.
Proof.
  intros Hro.
  assert (Hw : relog [] w = w).
  { destruct w. unfold relog. cbn. rewrite app_nil_r. reflexivity. }
  assert (Hnil : no_content_write []) by constructor.
  destruct (opened w !! book) as [[path wb]|] eqn:Hopen.
  2:{ destruct a; try discriminate Hro;
        cbv [inner_of Inner._read_cell Inner._read_range Inner._get_sheet_names try_except];
        unfold bind at 1; rewrite (sheet_names_closed _ _ Hopen);
        cbn [find_clause isinstance ret xw.closed_book exn_msg];
        eexists _, []; rewrite Hw; (split; [reflexivity | exact Hnil]). }
  destruct a; try discriminate Hro.
  - cbv [inner_of Inner._read_cell try_except]. unfold bind at 1.
    rewrite (sheet_names_eq _ _ _ _ Hopen).
    destruct (str_in sheet_name (map fst wb)) eqn:Hin; cbn [negb].
    2:{ eexists _, []; rewrite Hw; split; [reflexivity | exact Hnil]. }
    destruct (str_in_get_sheet _ _ Hin) as [cs Hcs]. unfold bind at 1.
    rewrite (sheets_getitem_eq _ _ _ _ Hopen _ cs Hcs). unfold bind at 1.
    rewrite (range_value_eq _ _ _ _ Hopen _ cs _ Hcs).
    destruct (A1.parse_address cell_address);
      cbn [find_clause isinstance ret exn_msg];
      eexists _, [EvRead book sheet_name cell_address];
      (split; [reflexivity | repeat constructor]).
  - cbv [inner_of Inner._read_range try_except]. unfold bind at 1.
    rewrite (sheet_names_eq _ _ _ _ Hopen).
    destruct (str_in sheet_name (map fst wb)) eqn:Hin; cbn [negb].
    2:{ eexists _, []; rewrite Hw; split; [reflexivity | exact Hnil]. }
    destruct (str_in_get_sheet _ _ Hin) as [cs Hcs]. unfold bind at 1.
    rewrite (sheets_getitem_eq _ _ _ _ Hopen _ cs Hcs). unfold bind at 1.
    rewrite (range_value_eq _ _ _ _ Hopen _ cs _ Hcs).
    destruct (A1.parse_address range_address);
      cbn [find_clause isinstance ret exn_msg];
      eexists _, [EvRead book sheet_name range_address];
      (split; [reflexivity | repeat constructor]).
  - cbn [inner_of]. rewrite (inner_get_sheet_names _ _ _ _ Hopen).
    eexists _, []; rewrite Hw; split; [reflexivity | exact Hnil].
Qed.

Lemma execute_agnet_guard (a : Action) :
  execute_agnet a
  = session_guard (fun result => result)
                  (fun e => PyStr ("Error: " ++ exn_msg e))
                  (fun e => PyStr ("An Excel error occurred: " ++ exn_msg e))
                  (inner_of a).
Proof. destruct a; reflexivity. Qed.

Lemma execute_backend_guard (a : Action) :
  execute_backend a
  = session_guard
      (fun result => PyDict [("status", PyStr "success"); ("result", result)])
      (fun e => PyDict [("status", PyStr "error");
                        ("message", PyStr ("Error: " ++ exn_msg e))])
      (fun e => PyDict [("status", PyStr "error");
                        ("message", PyStr ("An Excel error occurred: " ++ exn_msg e))])
      (inner_of a).
Proof. destruct a; reflexivity. Qed.

(** The guard around an action, when the session goes through. *)
Lemma action_session on_success on_not_found on_error (a : Action) w wb :
  session_opens w wb ->
  save_fault (faults w) = None ->
  exists m w',
    inner_of a (next_book w) (opened_world w wb) = (Returned (PyStr m), w')
    /\ fst (session_guard on_success on_not_found on_error (inner_of a) w)
       = Returned (on_success (PyStr m)).
Proof.
  intros Hsession Hsave.
  destruct (inner_of_effect a (next_book w) (opened_world w wb)) as (m & w2 & Hinner & Hstep).
  destruct (inner_step_facts _ _ _ Hstep) as (Hfaults & _ & _ & _ & _ & Hbook).
  destruct (Hbook _ _ (opened_world_book w wb)) as (wb' & Hbook' & _).
  exists m, w2. split; [exact Hinner|].
  rewrite (session_guard_returns _ _ _ _ w wb _ _ EXCEL_FILE_PATH wb' Hsession Hinner).
  - reflexivity.
  - rewrite Hfaults. exact Hsave.
  - exact Hbook'.
Qed.

(** The file after the guard has run an action, in any world. *)
Lemma action_files on_success on_not_found on_error (a : Action) w :
  let w' := snd (session_guard on_success on_not_found on_error (inner_of a) w) in
  files w' = files w
  \/ exists wb wb',
      files w !! EXCEL_FILE_PATH = Some wb
      /\ map fst wb' = map fst wb
      /\ files w' = <[EXCEL_FILE_PATH := wb']> (files w).
Proof.
  cbv zeta. rewrite session_guard_eq.
  destruct (enter w) as [[e [l w1]] | [book [l w1]]] eqn:Henter.
  - destruct (enter_failed _ _ _ _ Henter) as (Hl & _ & Hfiles & _).
    left. cbn [snd]. unfold finish. rewrite Hl. exact Hfiles.
  - destruct (enter_opened _ _ _ _ Henter) as (wb & Hsession & -> & Hl & ->).
    destruct (inner_of_effect a (next_book w) (opened_world w wb))
      as (m & w2 & -> & Hstep).
    destruct (inner_step_facts _ _ _ Hstep) as (_ & Hfiles & _ & _ & _ & Hbook).
    destruct (Hbook _ _ (opened_world_book w wb)) as (wb' & Hbook' & Hnames).
    rewrite save_eq.
    destruct (save_fault (faults w2)).
    + left. cbn [snd]. unfold finish. rewrite Hl, close_files. exact Hfiles.
    + rewrite Hbook'. right. exists wb, wb'.
      destruct Hsession as (_ & _ & Hfile). split; [exact Hfile|]. split; [exact Hnames|].
      cbn [snd]. unfold finish. rewrite Hl, close_files.
      cbn [files set_files add_log]. rewrite Hfiles. reflexivity.
Qed.

End InnerSteps.

(** X2.  When the session goes through, every tool call of
    [backend_service.py] is answered with the status [success], the
    result being the text the same call returns in [excel_agnet.py];
    that holds too when the text is an error text of the inner function
    (a missing sheet, a rejected address, a malformed payload). *)
Theorem session_through_means_status_success :
  forall (a : Action) (w : World) (wb : Workbook),
    session_opens w wb ->
    save_fault (faults w) = None ->
    exists m,
      fst (execute_agnet a w) = Returned (PyStr m)
      /\ fst (execute_backend a w)
         = Returned (PyDict [("status", PyStr "success"); ("result", PyStr m)]).
Proof.
  intros a w wb Hsession Hsave.
  rewrite execute_agnet_guard, execute_backend_guard.
  destruct (action_session
              (fun r => r) (fun e => PyStr ("Error: " ++ exn_msg e))
              (fun e => PyStr ("An Excel error occurred: " ++ exn_msg e))
              a w wb Hsession Hsave) as (m & w2 & Hinner & Hagnet).
  destruct (action_session
              (fun r => PyDict [("status", PyStr "success"); ("result", r)])
              (fun e => PyDict [("status", PyStr "error");
                                ("message", PyStr ("Error: " ++ exn_msg e))])
              (fun e => PyDict [("status", PyStr "error");
                                ("message",
                                 PyStr ("An Excel error occurred: " ++ exn_msg e))])
              a w wb Hsession Hsave) as (m' & w2' & Hinner' & Hbackend).
  rewrite Hinner in Hinner'. injection Hinner' as <- <-.
  exists m. split; [exact Hagnet | exact Hbackend].
Qed.

Lemma session_through_means_status_success_witness :
  (session_opens sample_world sample_workbook
   /\ save_fault (faults sample_world) = None)
  /\ exists m,
      fst (execute_agnet (ReadCell "Missing" "A1") sample_world) = Returned (PyStr m)
      /\ fst (execute_backend (ReadCell "Missing" "A1") sample_world)
         = Returned (PyDict [("status", PyStr "success"); ("result", PyStr m)]).
Proof.
  split; [repeat split; reflexivity|].
  exact (session_through_means_status_success
           (ReadCell "Missing" "A1") sample_world sample_workbook
           (conj eq_refl (conj eq_refl eq_refl)) eq_refl).
Defined.

(** X3.  No tool call adds, removes, renames or reorders a sheet: in
    every world, whatever fails, the names of the sheets of the file are
    after the call what they were before it. *)
Theorem sheet_names_on_disk_preserved :
  forall (a : Action) (w : World),
    sheets_on_disk (snd (execute_agnet a w)) = sheets_on_disk w
    /\ sheets_on_disk (snd (execute_backend a w)) = sheets_on_disk w.
Proof.
  intros a w. rewrite execute_agnet_guard, execute_backend_guard.
  assert (Hany : forall f g h,
             sheets_on_disk (snd (session_guard f g h (inner_of a) w)) = sheets_on_disk w).
  { intros f g h. unfold sheets_on_disk.
    destruct (action_files f g h a w) as [-> | (wb & wb' & Hfile & Hnames & ->)].
    - reflexivity.
    - rewrite lookup_insert_eq, Hfile, Hnames. reflexivity. }
  split; apply Hany.
Qed.

Section GuardPaths.

(** The world a session that goes through leaves. *)
Lemma session_guard_world on_success on_not_found on_error func w wb result w2 p2 wb2 :
  session_opens w wb ->
  func (next_book w) (opened_world w wb) = (Returned result, w2) ->
  save_fault (faults w2) = None ->
  opened w2 !! next_book w = Some (p2, wb2) ->
  files (snd (session_guard on_success on_not_found on_error func w))
  = <[p2 := wb2]> (files w2)
  /\ faults (snd (session_guard on_success on_not_found on_error func w)) = faults w2.
Proof.
  intros Hsession Hfunc Hsave Hbook.
  rewrite (session_guard_returns _ _ _ _ _ _ _ _ _ _ Hsession Hfunc Hsave Hbook).
  cbn [snd]. rewrite close_files, close_faults. split; reflexivity.
Qed.

(** A wrapped function that only adds reading calls to the log: on every
    path of the guard the files keep their content. *)
Lemma session_guard_log_only on_success on_not_found on_error func :
  (forall book w1, exists r evs,
      func book w1 = (Returned r, relog evs w1) /\ no_content_write evs) ->
  forall w,
    files (snd (session_guard on_success on_not_found on_error func w)) = files w
    /\ exists evs,
        log (snd (session_guard on_success on_not_found on_error func w))
        = (log w ++ evs)%list
        /\ no_content_write evs.
Proof.
  intros Hfunc w. rewrite session_guard_eq.
  destruct (enter w) as [[e [l w1]] | [book [l w1]]] eqn:Henter.
  - destruct (enter_failed _ _ _ _ Henter) as (Hl & _ & Hfiles & _ & evs & Hlog & Hevs).
    cbn [snd]. unfold finish. rewrite Hl. split; [exact Hfiles|].
    exists evs. split; [exact Hlog | exact Hevs].
  - destruct (enter_opened _ _ _ _ Henter) as (wb & Hsession & -> & Hl & ->).
    destruct (Hfunc (next_book w) (opened_world w wb)) as (r & evs & -> & Hevs).
    rewrite save_eq.
    assert (Hlog1 : log (relog evs (opened_world w wb))
                    = (log w ++ [EvApp; EvOpen EXCEL_FILE_PATH] ++ evs)%list).
    { cbn [log relog opened_world set_next_book set_opened add_log set_apps].
      rewrite <- !app_assoc. reflexivity. }
    assert (Hall : forall tail,
               no_content_write tail ->
               no_content_write ([EvApp; EvOpen EXCEL_FILE_PATH] ++ evs ++ tail)).
    { intros tail Htail. unfold no_content_write in *.
      repeat (apply Forall_cons; split; [reflexivity|]).
      apply Forall_app. split; assumption. }
    change (faults (relog evs (opened_world w wb))) with (faults w).
    change (opened (relog evs (opened_world w wb))) with (opened (opened_world w wb)).
    destruct (save_fault (faults w)).
    + cbn [snd]. unfold finish. rewrite Hl, close_files, close_log.
      split; [reflexivity|].
      exists ([EvApp; EvOpen EXCEL_FILE_PATH] ++ evs
              ++ [EvSave (next_book w); EvClose (next_book w)])%list.
      split; [|apply Hall; repeat constructor].
      cbn [log add_log]. rewrite Hlog1, <- !app_assoc. reflexivity.
    + rewrite opened_world_book. cbn [snd]. unfold finish.
      rewrite Hl, close_files, close_log. split.
      * cbn [files set_files]. apply insert_id.
        destruct Hsession as (_ & _ & Hfile). exact Hfile.
      * exists ([EvApp; EvOpen EXCEL_FILE_PATH] ++ evs
                ++ [EvSave (next_book w); EvClose (next_book w)])%list.
        split; [|apply Hall; repeat constructor].
        cbn [log set_files add_log]. rewrite Hlog1, <- !app_assoc. reflexivity.
Qed.

End GuardPaths.

(** X4.  The three reading tools never change a file: in every world,
    whatever fails, the files have after [read_cell_value],
    [read_range_values] and [get_sheet_names] the content they had
    before (the save of the guard writes back what was read), and none
    of the calls made touches the content of a document. *)
Theorem reading_tools_leave_files_unchanged :
  forall (a : Action) (w : World),
    read_only a = true ->
    (files (snd (execute_agnet a w)) = files w
     /\ exists evs, log (snd (execute_agnet a w)) = (log w ++ evs)%list
                    /\ no_content_write evs)
    /\ (files (snd (execute_backend a w)) = files w
        /\ exists evs, log (snd (execute_backend a w)) = (log w ++ evs)%list
                       /\ no_content_write evs).
Proof.
  intros a w Hro. rewrite execute_agnet_guard, execute_backend_guard.
  assert (Hfunc : forall book w1, exists r evs,
             inner_of a book w1 = (Returned r, relog evs w1) /\ no_content_write evs).
  { intros book w1. destruct (inner_of_read_only a book w1 Hro) as (m & evs & H & Hevs).
    exists (PyStr m), evs. split; assumption. }
  split; apply (session_guard_log_only _ _ _ _ Hfunc).
Qed.

Lemma reading_tools_leave_files_unchanged_witness :
  read_only (ReadRange "Data" "A1:B2") = true
  /\ files (snd (execute_agnet (ReadRange "Data" "A1:B2") sample_world))
     = files sample_world.
Proof.
  split; [reflexivity|].
  destruct (reading_tools_leave_files_unchanged
              (ReadRange "Data" "A1:B2") sample_world eq_refl) as [[Hfiles _] _].
  exact Hfiles.
Defined.

(** X5.  When the file [test.xlsx] does not exist (and the application
    starts), [safe_excel_operation] answers with the text of the missing
    file without opening a document and without calling the wrapped
    function; the application it started stays running.  The text is
    never the text of a missing sheet. *)
Theorem missing_file_reported_before_open :
  forall (func : xw.Book -> St World PyVal) (w : World),
    app_fault (faults w) = None ->
    files w !! EXCEL_FILE_PATH = None ->
    excel_agnet.safe_excel_operation func w
    = (Returned (PyStr "Error: Excel file not found: test.xlsx"),
       set_apps (S (apps w)) (add_log EvApp w))
    /\ backend_service.safe_excel_operation func w
       = (Returned (PyDict [("status", PyStr "error");
                            ("message", PyStr "Error: Excel file not found: test.xlsx")]),
          set_apps (S (apps w)) (add_log EvApp w))
    /\ forall s, "Error: Excel file not found: test.xlsx" <> sheet_not_found s.
Proof.
  intros func w Happ Hfile.
  rewrite agnet_guard, backend_guard, !session_guard_eq.
  unfold enter. rewrite Happ, Hfile.
  repeat split. intros s. unfold sheet_not_found. cbn [String.append]. discriminate.
Qed.

Lemma missing_file_reported_before_open_witness :
  files (set_files ∅ sample_world) !! EXCEL_FILE_PATH = None
  /\ fst (excel_agnet.safe_excel_operation
            (fun book => Inner._get_sheet_names book) (set_files ∅ sample_world))
     = Returned (PyStr "Error: Excel file not found: test.xlsx").
Proof.
  assert (Hfile : files (set_files ∅ sample_world) !! EXCEL_FILE_PATH = None)
    by reflexivity.
  split; [exact Hfile|].
  destruct (missing_file_reported_before_open
              (fun book => Inner._get_sheet_names book) (set_files ∅ sample_world)
              eq_refl Hfile) as [Hagnet _].
  rewrite Hagnet. reflexivity.
Defined.



(** X7.  When the save fails after the wrapped function has returned,
    [safe_excel_operation] answers with the error text of the save
    (the value of the function is dropped), the files keep the content
    they had when the function returned, and the document is still
    closed. *)
Theorem failing_save_is_reported :
  forall (func : xw.Book -> St World PyVal) (w : World) (wb : Workbook)
         (result : PyVal) (w2 : World) (e : Exn),
    session_opens w wb ->
    func (next_book w) (opened_world w wb) = (Returned result, w2) ->
    save_fault (faults w2) = Some e ->
    let text :=
      (if isinstance e FileNotFoundError then "Error: " else "An Excel error occurred: ")
        ++ exn_msg e in
    let w' := snd (xw.close (next_book w) (add_log (EvSave (next_book w)) w2)) in
    excel_agnet.safe_excel_operation func w = (Returned (PyStr text), w')
    /\ backend_service.safe_excel_operation func w
       = (Returned (PyDict [("status", PyStr "error"); ("message", PyStr text)]), w')
    /\ files w' = files w2
    /\ log w' = (log w2 ++ [EvSave (next_book w); EvClose (next_book w)])%list.
Proof.
  intros func w wb result w2 e Hsession Hfunc Hsave text w'. subst text w'.
  rewrite agnet_guard, backend_guard, !session_guard_eq.
  rewrite (enter_session_opens _ _ Hsession), Hfunc, save_eq, Hsave.
  unfold handled, finish. cbn [l_book].
  rewrite close_files, close_log. cbn [files log add_log]. rewrite <- app_assoc.
  destruct (isinstance e FileNotFoundError); repeat split.
Qed.

Lemma failing_save_is_reported_witness :
  let w := mkWorld (files sample_world)
                   (mkFaults None None (Some (mkExn com_error "disk full")) None)
                   0 0 ∅ [] in
  session_opens w sample_workbook
  /\ fst (excel_agnet.safe_excel_operation
            (fun book => Inner._write_cell book "Data" "B2" "new") w)
     = Returned (PyStr "An Excel error occurred: disk full").
Proof.
  intros w.
  assert (Hsession : session_opens w sample_workbook) by (repeat split; reflexivity).
  split; [exact Hsession|].
  destruct (failing_save_is_reported
              (fun book => Inner._write_cell book "Data" "B2" "new") w sample_workbook
              (PyStr "Successfully wrote 'new' to cell B2 on sheet Data.")
              (snd (Inner._write_cell (next_book w) "Data" "B2" "new"
                                      (opened_world w sample_workbook)))
              (mkExn com_error "disk full")
              Hsession eq_refl eq_refl) as (Hagnet & _).
  rewrite Hagnet. reflexivity.
Defined.

Section Cells.

Lemma get_sheet_none (wb : Workbook) s :
  str_in s (map fst wb) = false -> xw.get_sheet wb s = None.
Proof.
  intros Hin. destruct (xw.get_sheet wb s) eqn:Hcs; [|reflexivity].
  rewrite (get_sheet_str_in _ _ _ Hcs) in Hin. discriminate.
Qed.

Lemma str_in_none (wb : Workbook) s :
  xw.get_sheet wb s = None -> str_in s (map fst wb) = false.
Proof.
  intros Hcs. destruct (str_in s (map fst wb)) eqn:Hin; [|reflexivity].
  destruct (str_in_get_sheet _ _ Hin) as [cs Hcs']. congruence.
Qed.

Lemma set_sheet_same (wb : Workbook) s cs :
  xw.get_sheet wb s = Some cs -> xw.set_sheet wb s cs = wb.
Proof.
  induction wb as [|[n cs'] wb IH]; [reflexivity|].
  cbn [xw.get_sheet xw.set_sheet]. destruct (String.eqb n s).
  - intros [= ->]. reflexivity.
  - intros H. rewrite (IH H). reflexivity.
Qed.

Lemma set_set_sheet (wb : Workbook) s cs cs' :
  xw.set_sheet (xw.set_sheet wb s cs) s cs' = xw.set_sheet wb s cs'.
Proof.
  induction wb as [|[n cs0] wb IH]; [reflexivity|].
  cbn [xw.set_sheet]. destruct (String.eqb n s) eqn:Hn; cbn [xw.set_sheet]; rewrite Hn.
  - reflexivity.
  - rewrite IH. reflexivity.
Qed.

(** A cell of a cleared rectangle is empty; a cell outside it is as it
    was. *)
Lemma clear_lookup (cs : Cells) R k :
  Range.clear cs R !! k = if A1.in_rect R k then None else cs !! k.
Proof.
  unfold Range.clear. destruct (A1.in_rect R k) eqn:Hin.
  - apply map_lookup_filter_None. right. intros v _. cbn [fst]. rewrite Hin. discriminate.
  - destruct (cs !! k) as [v|] eqn:Hk.
    + apply map_lookup_filter_Some. split; [exact Hk | exact Hin].
    + apply map_lookup_filter_None. left. exact Hk.
Qed.

Lemma clear_clear (cs : Cells) R : Range.clear (Range.clear cs R) R = Range.clear cs R.
Proof.
  apply map_eq. intros k. rewrite !clear_lookup. destruct (A1.in_rect R k); reflexivity.
Qed.

End Cells.

Section ToolSessions.
Import Inner.

(** [_clear_range] on an open document, case by case. *)
Lemma inner_clear_range book w path wb s address :
  opened w !! book = Some (path, wb) ->
  exists evs,
    _clear_range book s address w
    = (Returned (PyStr (clear_text wb s address)),
       set_opened (<[book := (path, cleared_workbook wb s address)]> (opened w))
                  (relog evs w)).
Proof.
  intros Hopen. unfold clear_text, cleared_workbook.
  assert (Hsame : set_opened (<[book := (path, wb)]> (opened w)) (relog [] w) = w).
  { rewrite (insert_id _ _ _ Hopen). destruct w. unfold relog, set_opened. cbn.
    rewrite app_nil_r. reflexivity. }
  cbv [_clear_range try_except]. unfold bind at 1.
  rewrite (sheet_names_eq _ _ _ _ Hopen).
  destruct (xw.get_sheet wb s) as [cs|] eqn:Hcs.
  - rewrite (get_sheet_str_in _ _ _ Hcs). cbn [negb]. unfold bind at 1.
    rewrite (sheets_getitem_eq _ _ _ _ Hopen s cs Hcs). unfold bind at 1.
    rewrite (clear_contents_eq _ _ _ _ Hopen s cs _ Hcs).
    destruct (A1.parse_address address) as [R|].
    + exists [EvClear book s address]. reflexivity.
    + exists [EvClear book s address].
      cbn [find_clause isinstance ret exn_msg]. rewrite (insert_id _ _ _ Hopen).
      reflexivity.
  - rewrite (str_in_none _ _ Hcs). cbn [negb ret]. exists []. rewrite Hsame.
    destruct (A1.parse_address address); reflexivity.
Qed.

(** One session around an inner function that leaves the faults and the
    files alone: the value, and what the next session will find. *)
Lemma session_step on_success on_not_found on_error func w wb result w2 wb2 :
  session_opens w wb ->
  save_fault (faults w) = None ->
  func (next_book w) (opened_world w wb) = (Returned result, w2) ->
  faults w2 = faults w ->
  files w2 = files w ->
  opened w2 !! next_book w = Some (EXCEL_FILE_PATH, wb2) ->
  let w' := snd (session_guard on_success on_not_found on_error func w) in
  fst (session_guard on_success on_not_found on_error func w)
  = Returned (on_success result)
  /\ session_opens w' wb2
  /\ save_fault (faults w') = None
  /\ files w' = <[EXCEL_FILE_PATH := wb2]> (files w).
Proof.
  intros Hsession Hsave Hfunc Hfaults Hfiles Hbook w'. subst w'.
  assert (Hsave2 : save_fault (faults w2) = None) by (rewrite Hfaults; exact Hsave).
  rewrite (session_guard_returns _ _ _ _ _ _ _ _ _ _ Hsession Hfunc Hsave2 Hbook).
  cbn [fst snd]. unfold session_opens.
  rewrite close_faults, close_files. cbn [faults files set_files add_log].
  rewrite Hfaults, Hfiles. destruct Hsession as (Happ & Hopen & _).
  repeat split; try assumption. apply lookup_insert_eq.
Qed.

End ToolSessions.

Section ClearSessions.

(** One [clear_range_content] session that goes through. *)
Lemma clear_session on_success on_not_found on_error s address w wb :
  session_opens w wb ->
  save_fault (faults w) = None ->
  let call := session_guard on_success on_not_found on_error
                (fun book => Inner._clear_range book s address) w in
  fst call = Returned (on_success (PyStr (clear_text wb s address)))
  /\ session_opens (snd call) (cleared_workbook wb s address)
  /\ save_fault (faults (snd call)) = None
  /\ files (snd call) = <[EXCEL_FILE_PATH := cleared_workbook wb s address]> (files w).
Proof.
  intros Hsession Hsave.
  destruct (inner_clear_range (next_book w) (opened_world w wb) EXCEL_FILE_PATH wb
                              s address (opened_world_book w wb)) as [evs Hinner].
  apply (session_step on_success on_not_found on_error
                      (fun book => Inner._clear_range book s address)
                      w wb _ _ (cleared_workbook wb s address) Hsession Hsave Hinner).
  - reflexivity.
  - reflexivity.
  - cbn [opened set_opened]. apply lookup_insert_eq.
Qed.

Lemma cleared_twice wb s address :
  cleared_workbook (cleared_workbook wb s address) s address
  = cleared_workbook wb s address
  /\ clear_text (cleared_workbook wb s address) s address = clear_text wb s address.
Proof.
  unfold cleared_workbook, clear_text.
  destruct (xw.get_sheet wb s) as [cs|] eqn:Hcs.
  - destruct (A1.parse_address address) as [R|].
    + rewrite (get_set_sheet _ _ _ _ Hcs), set_set_sheet, clear_clear.
      split; reflexivity.
    + rewrite Hcs. split; reflexivity.
  - destruct (A1.parse_address address); rewrite Hcs; split; reflexivity.
Qed.

End ClearSessions.

(** X8.  Clearing is idempotent: when the session goes through,
    [clear_range_content] called a second time with the same sheet and
    address returns the text of the first call and leaves the file as
    the first call left it (whether the range was cleared, the sheet was
    missing, or the address was rejected). *)
Theorem clear_range_content_idempotent :
  forall (s address : string) (w : World) (wb : Workbook),
    session_opens w wb ->
    save_fault (faults w) = None ->
    let once := excel_agnet.clear_range_content s address w in
    let twice := excel_agnet.clear_range_content s address (snd once) in
    fst twice = fst once /\ files (snd twice) = files (snd once).
Proof.
  intros s address w wb Hsession Hsave once twice. subst once twice.
  unfold excel_agnet.clear_range_content.
  rewrite !(agnet_guard (fun book => Inner._clear_range book s address)).
  destruct (clear_session (fun r => r) (fun e => PyStr ("Error: " ++ exn_msg e))
                          (fun e => PyStr ("An Excel error occurred: " ++ exn_msg e))
                          s address w wb Hsession Hsave)
    as (Hfst & Hsession' & Hsave' & Hfiles).
  destruct (clear_session (fun r => r) (fun e => PyStr ("Error: " ++ exn_msg e))
                          (fun e => PyStr ("An Excel error occurred: " ++ exn_msg e))
                          s address _ _ Hsession' Hsave')
    as (Hfst2 & _ & _ & Hfiles2).
  destruct (cleared_twice wb s address) as [Hwb Htext].
  rewrite Hfst2, Hfst, Htext. split; [reflexivity|].
  rewrite Hfiles2, Hfiles, Hwb. apply insert_insert_eq.
Qed.

Lemma clear_range_content_idempotent_witness :
  session_opens sample_world sample_workbook
  /\ files (snd (excel_agnet.clear_range_content
                   "Data" "A1:C3"
                   (snd (excel_agnet.clear_range_content "Data" "A1:C3" sample_world))))
     = files (snd (excel_agnet.clear_range_content "Data" "A1:C3" sample_world)).
Proof.
  assert (Hsession : session_opens sample_world sample_workbook)
    by (repeat split; reflexivity).
  split; [exact Hsession|].
  destruct (clear_range_content_idempotent
              "Data" "A1:C3" sample_world sample_workbook Hsession eq_refl)
    as [_ Hfiles].
  exact Hfiles.
Defined.

(** X9.  A cell that has been cleared reads as the empty text: when the
    sessions go through, after [clear_range_content] on a range of a
    sheet of the workbook, [read_cell_value] of any single cell of that
    range returns the empty text. *)
Theorem cleared_cell_reads_as_empty_text :
  forall (s range_address cell_address : string) (R : A1.Rect) (r c : N)
         (w : World) (wb : Workbook),
    session_opens w wb ->
    save_fault (faults w) = None ->
    str_in s (map fst wb) = true ->
    A1.parse_address range_address = Some R ->
    A1.parse_address cell_address = Some (A1.mkRect r c 1 1) ->
    A1.in_rect R (r, c) = true ->
    fst (excel_agnet.read_cell_value s cell_address
           (snd (excel_agnet.clear_range_content s range_address w)))
    = Returned (PyStr "").
Proof.
  intros s range_address cell_address R r c w wb Hsession Hsave Hin Hrange Hcell Hinside.
  destruct (str_in_get_sheet _ _ Hin) as [cs Hcs].
  unfold excel_agnet.clear_range_content.
  rewrite (agnet_guard (fun book => Inner._clear_range book s range_address)).
  destruct (clear_session (fun r => r) (fun e => PyStr ("Error: " ++ exn_msg e))
                          (fun e => PyStr ("An Excel error occurred: " ++ exn_msg e))
                          s range_address w wb Hsession Hsave)
    as (_ & Hsession' & Hsave' & _).
  unfold cleared_workbook in Hsession'. rewrite Hcs, Hrange in Hsession'.
  refine (proj1 (empty_cell_reads_as_empty_text
                   s cell_address r c _ _ (Range.clear cs R) Hsession' Hsave' _ Hcell _)).
  - eapply get_set_sheet, Hcs.
  - rewrite clear_lookup, Hinside. reflexivity.
Qed.

Lemma cleared_cell_reads_as_empty_text_witness :
  (session_opens sample_world sample_workbook
   /\ A1.parse_address "A1:C3" = Some (A1.mkRect 1 1 3 3)
   /\ A1.parse_address "A1" = Some (A1.mkRect 1 1 1 1)
   /\ A1.in_rect (A1.mkRect 1 1 3 3) (1%N, 1%N) = true)
  /\ fst (excel_agnet.read_cell_value "Data" "A1"
            (snd (excel_agnet.clear_range_content "Data" "A1:C3" sample_world)))
     = Returned (PyStr "").
Proof.
  assert (Hsession : session_opens sample_world sample_workbook)
    by (repeat split; reflexivity).
  split; [repeat split; reflexivity|].
  exact (cleared_cell_reads_as_empty_text
           "Data" "A1:C3" "A1" (A1.mkRect 1 1 3 3) 1 1 sample_world sample_workbook
           Hsession eq_refl eq_refl eq_refl eq_refl eq_refl).
Defined.

(** X11.  The empty list passes the validation of [write_range_values]:
    when the session goes through and the sheet and the address are
    valid, a payload that deserialises to [[]] is answered with the
    success text although nothing is written, and the file keeps its
    content. *)
Theorem empty_payload_reports_success :
  forall (s address payload : string) (R : A1.Rect) (w : World) (wb : Workbook),
    session_opens w wb ->
    save_fault (faults w) = None ->
    str_in s (map fst wb) = true ->
    A1.parse_address address = Some R ->
    json.loads payload = Some (PyList []) ->
    fst (excel_agnet.write_range_values s address payload w)
    = Returned (PyStr ("Successfully wrote data starting at cell " ++ address
                       ++ " on sheet " ++ s ++ "."))
    /\ files (snd (excel_agnet.write_range_values s address payload w)) = files w.
Proof.
  intros s address payload R w wb Hsession Hsave Hin Haddr Hjson.
  destruct (str_in_get_sheet _ _ Hin) as [cs Hcs].
  unfold excel_agnet.write_range_values.
  rewrite (agnet_guard (fun book => Inner._write_range book s address payload)).
  pose proof (inner_write_range _ _ _ _ s cs address payload (PyList []) R cs
                                (opened_world_book w wb) Hcs Hjson eq_refl Haddr eq_refl)
    as Hwrite.
  rewrite (set_sheet_same _ _ _ Hcs) in Hwrite.
  destruct (session_step (fun x => x) (fun e => PyStr ("Error: " ++ exn_msg e))
                         (fun e => PyStr ("An Excel error occurred: " ++ exn_msg e))
                         (fun book => Inner._write_range book s address payload)
                         w wb _ _ wb Hsession Hsave Hwrite eq_refl eq_refl)
    as (Hfst & _ & _ & Hfiles).
  { cbn [opened set_opened]. apply lookup_insert_eq. }
  split; [exact Hfst|]. rewrite Hfiles. apply insert_id.
  destruct Hsession as (_ & _ & Hfile). exact Hfile.
Qed.

Lemma empty_payload_reports_success_witness :
  (session_opens sample_world sample_workbook
   /\ json.loads " [ ] " = Some (PyList []))
  /\ files (snd (excel_agnet.write_range_values "Data" "A1" " [ ] " sample_world))
     = files sample_world.
Proof.
  assert (Hsession : session_opens sample_world sample_workbook)
    by (repeat split; reflexivity).
  split; [repeat split; reflexivity|].
  exact (proj2 (empty_payload_reports_success
                  "Data" "A1" " [ ] " (A1.mkRect 1 1 1 1) sample_world sample_workbook
                  Hsession eq_refl eq_refl eq_refl eq_refl)).
Defined.

(* ===================================================================== *)
(** * Further properties of the delegated variant *)
(* ===================================================================== *)

Section Extraction.
Import llamaindex.

(** The extraction in terms of the loop: the dict the loop ends with if
    it is not empty, the fallback otherwise.  The last test of the
    function (the instruction is not a dict) never holds. *)
Lemma extract_instruction_scan (r : AgentChatResponse) :
  extract_instruction r
  = match scan_sources (sources r) None with
    | Some ((_ :: _) as d) => PyDict d
    | _ => fallback_instruction (response r)
    end.
Proof.
  unfold extract_instruction, fallback_instruction.
  destruct (sources r) as [|s0 srcs].
  - cbn [scan_sources]. destruct (Py.truthy (PyStr (response r))); reflexivity.
  - destruct (scan_sources (s0 :: srcs) None) as [[|kv d]|];
      destruct (Py.truthy (PyStr (response r))); reflexivity.
Qed.

Lemma scan_sources_no_dict srcs extracted :
  Forall no_dict_output srcs -> scan_sources srcs extracted = extracted.
Proof.
  intros Hall. induction Hall as [|s srcs Hs _ IH]; [reflexivity|].
  rewrite scan_sources_skip; [exact IH | exact Hs].
Qed.

(** Sources that give only [inform_user] dicts never end the loop. *)
Lemma scan_sources_only_inform before rest extracted :
  Forall only_inform_output before ->
  exists extracted', scan_sources (before ++ rest)%list extracted
                     = scan_sources rest extracted'.
Proof.
  intros Hall. revert extracted.
  induction Hall as [|s before Hs _ IH]; intros extracted.
  - exists extracted. reflexivity.
  - change ((s :: before) ++ rest)%list with (s :: (before ++ rest))%list.
    destruct (tool_output_result s) as [v|] eqn:Hout.
    + destruct v; try (rewrite scan_sources_skip; [apply IH | congruence]).
      rewrite (scan_sources_continue s _ _ entries Hout (Hs _ Hout)). apply IH.
    + rewrite scan_sources_skip; [apply IH | congruence].
Qed.

End Extraction.

(** X12.  Whatever the reply of the agent holds, the instruction
    extracted from it is a dict that is not empty: the test for an
    instruction that is not a dict, at the end of the extraction, never
    holds, and an empty dict among the tool outputs is never returned. *)
Theorem instruction_is_nonempty_dict :
  forall (r : llamaindex.AgentChatResponse),
    exists kv d, llamaindex.extract_instruction r = PyDict (kv :: d).
Proof.
  intros r. rewrite extract_instruction_scan.
  destruct (llamaindex.scan_sources (llamaindex.sources r) None) as [[|kv d]|];
    unfold fallback_instruction;
    destruct (Py.truthy (PyStr (llamaindex.response r))); eexists _, _; reflexivity.
Qed.

(** X13.  In a reply with any number of sources, the first tool output
    that is a dict not tagged [inform_user] is the instruction returned,
    provided it is not empty and every dict before it is tagged
    [inform_user]; what comes after it is not looked at. *)
Theorem first_concrete_output_is_returned :
  forall (before after : list llamaindex.Source) (source : llamaindex.Source)
         (kv : string * PyVal) (d : list (string * PyVal)) (text : string),
    Forall only_inform_output before ->
    llamaindex.tool_output_result source = Some (PyDict (kv :: d)) ->
    Py.ne_str (Py.dict_get (kv :: d) "action") "inform_user" = true ->
    llamaindex.handle_excel_command
      (Returned (llamaindex.mkResponse (before ++ source :: after) text))
    = inl (PyDict (kv :: d)).
Proof.
  intros before after source kv d text Hbefore Hout Hne.
  unfold llamaindex.handle_excel_command. rewrite extract_instruction_scan.
  cbn [llamaindex.sources].
  rewrite (scan_sources_first_concrete before source after None (kv :: d)
                                       Hbefore Hout Hne).
  reflexivity.
Qed.

Lemma first_concrete_output_is_returned_witness :
  let src := fun v => llamaindex.mkSource (Some v) None in
  let clear := [("action", PyStr "clear_range_content"); ("workbook_name", PyStr "Book1");
                ("sheet_name", PyStr "Sheet1"); ("range_address", PyStr "A1:B5")] in
  llamaindex.handle_excel_command
    (Returned
       (llamaindex.mkResponse
          [src (PyStr "thinking");
           src (llamaindex.generate_inform_user_instruction "one moment");
           src (PyDict clear);
           src (llamaindex.generate_get_sheet_names_instruction "Book1")]
          "done"))
  = inl (PyDict clear).
Proof.
  intros src clear.
  apply (first_concrete_output_is_returned
           [src (PyStr "thinking");
            src (llamaindex.generate_inform_user_instruction "one moment")]
           [src (llamaindex.generate_get_sheet_names_instruction "Book1")]
           (src (PyDict clear))
           ("action", PyStr "clear_range_content")
           [("workbook_name", PyStr "Book1");
            ("sheet_name", PyStr "Sheet1"); ("range_address", PyStr "A1:B5")]
           "done").
  - repeat constructor; intros d Hd; vm_compute in Hd; [discriminate Hd|].
    injection Hd as <-. reflexivity.
  - reflexivity.
  - reflexivity.
Defined.

(** X14.  When every dict among the tool outputs is tagged
    [inform_user], the last of them is the instruction returned (each
    one replaces the one kept before). *)
Theorem last_inform_user_output_is_returned :
  forall (before after : list llamaindex.Source) (source : llamaindex.Source)
         (d : list (string * PyVal)) (text : string),
    Forall only_inform_output before ->
    llamaindex.tool_output_result source = Some (PyDict d) ->
    Py.dict_get d "action" = Some (PyStr "inform_user") ->
    Forall no_dict_output after ->
    llamaindex.handle_excel_command
      (Returned (llamaindex.mkResponse (before ++ source :: after) text))
    = inl (PyDict d).
Proof.
  intros before after source d text Hbefore Hout Hact Hafter.
  unfold llamaindex.handle_excel_command. rewrite extract_instruction_scan.
  cbn [llamaindex.sources].
  destruct (scan_sources_only_inform before (source :: after) None Hbefore)
    as [extracted' ->].
  rewrite (scan_sources_continue _ _ _ _ Hout Hact), (scan_sources_no_dict _ _ Hafter).
  destruct d; [discriminate Hact | reflexivity].
Qed.

Lemma last_inform_user_output_is_returned_witness :
  let src := fun v => llamaindex.mkSource (Some v) None in
  llamaindex.handle_excel_command
    (Returned
       (llamaindex.mkResponse
          [src (llamaindex.generate_inform_user_instruction "first");
           src (llamaindex.generate_inform_user_instruction "second");
           src (PyStr "not a dict")]
          "done"))
  = inl (llamaindex.generate_inform_user_instruction "second").
Proof.
  intros src.
  apply (last_inform_user_output_is_returned
           [src (llamaindex.generate_inform_user_instruction "first")]
           [src (PyStr "not a dict")]
           (src (llamaindex.generate_inform_user_instruction "second"))
           [("action", PyStr "inform_user"); ("message", PyStr "second")]
           "done").
  - repeat constructor. intros d Hd. vm_compute in Hd. injection Hd as <-. reflexivity.
  - reflexivity.
  - reflexivity.
  - repeat constructor. intros d Hd. vm_compute in Hd. discriminate Hd.
Defined.

(** X15.  When no source gives a dict as tool output, the instruction is
    built from the text of the agent: an [inform_user] descriptor
    carrying that text, or the [error] descriptor when the text is
    empty. *)
Theorem no_tool_output_falls_back_to_text :
  forall (srcs : list llamaindex.Source) (text : string),
    Forall no_dict_output srcs ->
    llamaindex.handle_excel_command (Returned (llamaindex.mkResponse srcs text))
    = inl (if String.eqb text "" then
             PyDict [("action", PyStr "error");
                     ("message", PyStr "Backend failed to generate a valid instruction.")]
           else
             PyDict [("action", PyStr "inform_user"); ("message", PyStr text)]).
Proof.
  intros srcs text Hnone.
  unfold llamaindex.handle_excel_command. rewrite extract_instruction_scan.
  cbn [llamaindex.sources llamaindex.response].
  rewrite (scan_sources_no_dict _ _ Hnone).
  unfold fallback_instruction. cbn [Py.truthy].
  destruct (String.eqb text ""); reflexivity.
Qed.

Lemma no_tool_output_falls_back_to_text_witness :
  llamaindex.handle_excel_command
    (Returned (llamaindex.mkResponse
                 [llamaindex.mkSource (Some (PyStr "text only")) None;
                  llamaindex.mkSource None None]
                 "Hello"))
  = inl (PyDict [("action", PyStr "inform_user"); ("message", PyStr "Hello")]).
Proof.
  apply (no_tool_output_falls_back_to_text
           [llamaindex.mkSource (Some (PyStr "text only")) None;
            llamaindex.mkSource None None] "Hello").
  repeat constructor; intros d Hd; vm_compute in Hd; discriminate Hd.
Defined.

(* ===================================================================== *)
(** * Properties of the interactive loop *)
(* ===================================================================== *)

Section InteractiveLoop.
Import cli.

Context {S : Type}.
Variable invoke : string -> St S (list (string * PyVal)).


(** A line that says [exit] is not blank. *)
Lemma exit_not_blank user_query : is_exit user_query = true -> blank user_query = false.
Proof.
  unfold is_exit, blank, lower. intros Hexit.
  apply String.eqb_eq in Hexit.
  apply (f_equal list_ascii_of_string) in Hexit.
  rewrite list_ascii_of_string_of_list_ascii in Hexit.
  destruct (list_ascii_of_string user_query) as [|a l]; [discriminate|].
  cbn [map] in Hexit. injection Hexit as Ha _.
  cbn [all_space].
  assert (Hspace : is_space1 a = false
                   /\ (forall b, is_space2 a b = false)
                   /\ (forall b c, is_space3 a b c = false)).
  { unfold lower_char in Ha.
    destruct (((65 <=? N_of_ascii a) && (N_of_ascii a <=? 90))%N) eqn:Hupper.
    - assert (Hn : N_of_ascii a = 69%N).
      { apply (f_equal N_of_ascii) in Ha. rewrite N_ascii_embedding in Ha.
        - cbn in Ha. lia.
        - apply andb_prop in Hupper. destruct Hupper as [_ Hle].
          apply N.leb_le in Hle. lia. }
      unfold is_space1, is_space2, is_space3. rewrite Hn. repeat split.
    - subst a. repeat split. }
  destruct Hspace as (H1 & H2 & H3). rewrite H1.
  destruct l as [|b l]; [reflexivity|]. rewrite H2.
  destruct l as [|c l]; [reflexivity|]. rewrite H3. reflexivity.
Qed.

Lemma main_loop_blank_free inputs (s : S) printed :
  main_loop invoke inputs s printed
  = main_loop invoke (List.filter (fun q => negb (blank q)) inputs) s printed.
Proof.
  revert s printed. induction inputs as [|q rest IH]; intros s printed; [reflexivity|].
  cbn [main_loop List.filter].
  destruct (is_exit q) eqn:Hexit.
  - rewrite (exit_not_blank _ Hexit). cbn [negb main_loop]. rewrite Hexit. reflexivity.
  - destruct (blank q) eqn:Hblank; cbn [negb].
    + apply IH.
    + cbn [main_loop]. rewrite Hexit, Hblank.
      destruct (turn invoke q s) as [lines s']. apply IH.
Qed.

Lemma main_loop_after_exit pre q post (s : S) printed :
  is_exit q = true ->
  main_loop invoke (pre ++ q :: post)%list s printed
  = main_loop invoke (pre ++ [q])%list s printed.
Proof.
  intros Hexit. revert s printed.
  induction pre as [|p pre IH]; intros s printed.
  - cbn [app main_loop]. rewrite Hexit. reflexivity.
  - cbn [app main_loop]. destruct (is_exit p); [reflexivity|].
    destruct (blank p); [apply IH|].
    destruct (turn invoke p s) as [lines s']. apply IH.
Qed.


End InteractiveLoop.


(** X17.  Nothing typed after [exit] is read: the program prints the
    same lines and leaves the agent in the same state whatever follows
    the line that says [exit]. *)
Theorem nothing_is_read_after_exit :
  forall (S : Type) (invoke : string -> St S (list (string * PyVal)))
         (pre post : list string) (q : string) (s : S),
    cli.is_exit q = true ->
    cli.main invoke (pre ++ q :: post) s = cli.main invoke (pre ++ [q]) s.
Proof.
  intros S invoke pre post q s Hexit. unfold cli.main.
  rewrite (main_loop_after_exit invoke pre q post s _ Hexit). reflexivity.
Qed.

(** X18.  Blank lines (empty, or made of white space only) are ignored:
    the program prints the same lines, ends the same way and leaves the
    agent in the same state when they are removed from the input. *)
Theorem blank_lines_are_ignored :
  forall (S : Type) (invoke : string -> St S (list (string * PyVal)))
         (inputs : list string) (s : S),
    cli.main invoke inputs s
    = cli.main invoke (List.filter (fun q => negb (cli.blank q)) inputs) s.
Proof.
  intros S invoke inputs s. unfold cli.main.
  rewrite (main_loop_blank_free invoke inputs s). reflexivity.
Qed.

Lemma nothing_is_read_after_exit_witness :
  cli.is_exit "ExIt" = true
  /\ cli.main echo_agent (["list the sheets"; "  "; "fail"] ++ "ExIt" :: ["clear A1"]) []
     = (cli.Stopped, ["fail"; "list the sheets"],
        ["AI Excel Agent started. Talking to test.xlsx";
         "Make sure Microsoft Excel is installed and the file exists at the specified path.";
         "Type 'exit' to quit.";
         "--------------------";
         cli.newline ++ "Agent Response:";
         "list the sheets";
         "--------------------";
         "An unexpected error occurred during agent execution: agent failed";
         "Agent stopped."]).
Proof.
  split; [reflexivity|].
  rewrite (nothing_is_read_after_exit
             (list string) echo_agent ["list the sheets"; "  "; "fail"] ["clear A1"]
             "ExIt" [] eq_refl).
  reflexivity.
Defined.

(** X19.  When the application cannot be started, or the document cannot
    be opened, [safe_excel_operation] answers with the error text of the
    exception without calling the wrapped function, and no document
    handle is taken. *)
Theorem failed_start_is_reported :
  forall (func : xw.Book -> St World PyVal) (w : World) (e : Exn),
    let text :=
      (if isinstance e FileNotFoundError then "Error: " else "An Excel error occurred: ")
        ++ exn_msg e in
    (app_fault (faults w) = Some e ->
     excel_agnet.safe_excel_operation func w
     = (Returned (PyStr text), add_log EvApp w)
     /\ backend_service.safe_excel_operation func w
        = (Returned (PyDict [("status", PyStr "error"); ("message", PyStr text)]),
           add_log EvApp w))
    /\ (app_fault (faults w) = None ->
        is_Some (files w !! EXCEL_FILE_PATH) ->
        open_fault (faults w) = Some e ->
        let w' := add_log (EvOpen EXCEL_FILE_PATH)
                          (set_apps (S (apps w)) (add_log EvApp w)) in
        excel_agnet.safe_excel_operation func w = (Returned (PyStr text), w')
        /\ backend_service.safe_excel_operation func w
           = (Returned (PyDict [("status", PyStr "error"); ("message", PyStr text)]), w')
        /\ opened w' = opened w).
Proof.
  intros func w e text. subst text.
  rewrite agnet_guard, backend_guard, !session_guard_eq. unfold enter, handled. split.
  - intros ->. destruct (isinstance e FileNotFoundError); split; reflexivity.
  - intros -> [wb ->] ->. cbv zeta.
    destruct (isinstance e FileNotFoundError); repeat split.
Qed.

Lemma failed_start_is_reported_witness :
  let w := mkWorld (files sample_world)
                   (mkFaults (Some (mkExn com_error "Excel is not installed"))
                             None None None)
                   0 0 ∅ [] in
  app_fault (faults w) = Some (mkExn com_error "Excel is not installed")
  /\ excel_agnet.safe_excel_operation (fun book => Inner._get_sheet_names book) w
     = (Returned (PyStr "An Excel error occurred: Excel is not installed"),
        add_log EvApp w).
Proof.
  intros w. split; [reflexivity|].
  destruct (failed_start_is_reported
              (fun book => Inner._get_sheet_names book) w
              (mkExn com_error "Excel is not installed")) as [Hstart _].
  destruct (Hstart eq_refl) as [Hagnet _]. exact Hagnet.
Defined.
